(** * perplexity-mcp: API client, synthesis engine and research store

    A shallow embedding of the TypeScript sources

      - [perplexity.ts]      (class [PerplexityClient]),
      - [synthesis.ts]       (class [SynthesisEngine], [recommendPattern]),
      - [research-store.ts]  (class [ResearchStore]),
      - [index.ts]           (the save of the tool [deep_research]),
      - [types.ts]

    together with the properties their specification states.

    Conventions of the embedding.

    - A JavaScript string is a sequence of UTF-16 code units.  The model
      uses [string], whose characters are the 256 code units U+0000 to
      U+00FF; on those every primitive below ([toLowerCase], the classes
      [\s], [\d], [.], the anchors [^] and [$]) is implemented as
      ECMAScript defines it.  Strings with larger code units are outside
      the model.
    - A JavaScript [number] holding a count is a [Z]; prices and the
      sampling temperature are rationals.
    - An optional property of an object is a [prop]: absent, present with
      the value [undefined], or present with a value.
    - The file system, the wall clock and the network are explicit state;
      an exception is the [Throw] outcome of a computation.
    - What the platform computes and the sources only call (the parsing
      of URLs, the formatting of numbers for a locale, arithmetic on
      doubles) is a field of [Store.Host] or a variable of a section:
      the properties hold whatever it answers. *)

From Stdlib Require Import ZArith QArith Qround String Ascii List Lia Bool DecimalString.
From stdpp Require Import base gmap strings list.
Import ListNotations.

(** ** ECMAScript string primitives *)

Module JS.

Definition code (c : ascii) : N := N_of_ascii c.

Definition inRange (lo hi : N) (c : ascii) : bool :=
  ((lo <=? code c) && (code c <=? hi))%N.

(** [\d] *)
Definition isDigit (c : ascii) : bool := inRange 48 57 c.

(** [[a-z0-9]] *)
Definition isLowerAlnum (c : ascii) : bool := inRange 97 122 c || isDigit c.

(** [\s], and the characters removed by [trim]: TAB, LF, VT, FF, CR,
    SPACE and NO-BREAK SPACE. *)
Definition isWhiteSpace (c : ascii) : bool :=
  inRange 9 13 c || (code c =? 32)%N || (code c =? 160)%N.

(** Line terminators: the characters [.] refuses, and after which [^]
    matches under the [m] flag. *)
Definition isLineTerminator (c : ascii) : bool :=
  ((code c =? 10) || (code c =? 13))%N.

Definition LF : ascii := ascii_of_N 10.
Definition nl : string := String LF EmptyString.

(** [String.prototype.toLowerCase] on one code unit: A-Z, and the
    Latin-1 capitals U+00C0..U+00DE except the multiplication sign. *)
Definition toLowerCaseUnit (c : ascii) : ascii :=
  if inRange 65 90 c || (inRange 192 222 c && negb (code c =? 215)%N)
  then ascii_of_N (code c + 32)
  else c.

Fixpoint toLowerCase (s : string) : string :=
  match s with
  | EmptyString => EmptyString
  | String c s' => String (toLowerCaseUnit c) (toLowerCase s')
  end.

Definition isEmpty (s : string) : bool :=
  match s with EmptyString => true | String _ _ => false end.

(** [s.startsWith(p)] *)
Fixpoint startsWith (s p : string) {struct p} : bool :=
  match p, s with
  | EmptyString, _ => true
  | String _ _, EmptyString => false
  | String a p', String b s' => Ascii.eqb a b && startsWith s' p'
  end.

(** [s.includes(t)] *)
Fixpoint includes (s t : string) : bool :=
  startsWith s t ||
  match s with
  | EmptyString => false
  | String _ s' => includes s' t
  end.

(** [s.indexOf(t)], [-1] when [t] does not occur. *)
Fixpoint indexOfFrom (s t : string) (i : Z) : Z :=
  if startsWith s t then i
  else match s with
       | EmptyString => (-1)%Z
       | String _ s' => indexOfFrom s' t (i + 1)%Z
       end.

Definition indexOf (s t : string) : Z := indexOfFrom s t 0%Z.

Fixpoint take (n : nat) (s : string) : string :=
  match n, s with
  | S n', String c s' => String c (take n' s')
  | _, _ => EmptyString
  end.

Fixpoint drop (n : nat) (s : string) : string :=
  match n, s with
  | S n', String _ s' => drop n' s'
  | _, _ => s
  end.

(** [s.substring(a, b)]: the arguments are swapped when [a > b]. *)
Definition substring (s : string) (a b : nat) : string :=
  take (Nat.max a b - Nat.min a b) (drop (Nat.min a b) s).

Fixpoint rev_app (s acc : string) : string :=
  match s with
  | EmptyString => acc
  | String c s' => rev_app s' (String c acc)
  end.

(** [s.endsWith(p)] *)
Definition endsWith (s p : string) : bool :=
  startsWith (rev_app s EmptyString) (rev_app p EmptyString).

Fixpoint trimStart (s : string) : string :=
  match s with
  | EmptyString => EmptyString
  | String c s' => if isWhiteSpace c then trimStart s' else s
  end.

Fixpoint trimEnd (s : string) : string :=
  match s with
  | EmptyString => EmptyString
  | String c s' =>
      let r := trimEnd s' in
      if isWhiteSpace c && isEmpty r then EmptyString else String c r
  end.

Definition trim (s : string) : string := trimEnd (trimStart s).

(** Splitting at every character of a class; the result is never the
    empty list. *)
Fixpoint splitBy (isSep : ascii -> bool) (s : string) : list string :=
  match s with
  | EmptyString => [EmptyString]
  | String c s' =>
      if isSep c then EmptyString :: splitBy isSep s'
      else match splitBy isSep s' with
           | [] => [String c EmptyString]
           | h :: t => String c h :: t
           end
  end.

(** [s.split(sep)] for a one-character separator. *)
Definition split (sep : ascii) (s : string) : list string :=
  splitBy (Ascii.eqb sep) s.

(** The lines [^] and [$] delimit under the [m] flag. *)
Definition regexLines (s : string) : list string :=
  splitBy isLineTerminator s.

(** [s.split(/\s+/)]: every maximal run of white space is one
    separator; [inRun] tells that the previous character belonged to
    a run. *)
Fixpoint splitWhiteSpaceGo (s : string) (inRun : bool) : list string :=
  match s with
  | EmptyString => [EmptyString]
  | String c s' =>
      if isWhiteSpace c then
        if inRun then splitWhiteSpaceGo s' true
        else EmptyString :: splitWhiteSpaceGo s' true
      else match splitWhiteSpaceGo s' false with
           | [] => [String c EmptyString]
           | h :: t => String c h :: t
           end
  end.

Definition splitWhiteSpace (s : string) : list string :=
  splitWhiteSpaceGo s false.

(** [l.join(sep)] *)
Fixpoint join (sep : string) (l : list string) : string :=
  match l with
  | [] => EmptyString
  | [x] => x
  | x :: r => x +:+ sep +:+ join sep r
  end.

(** [String(n)] for an integer. *)
Definition ofZ (z : Z) : string := NilZero.string_of_int (Z.to_int z).
Definition ofNat (n : nat) : string := ofZ (Z.of_nat n).

(** [s.padStart(n, '0')] *)
Fixpoint zeros (n : nat) : string :=
  match n with
  | O => EmptyString
  | S n' => String "0" (zeros n')
  end.

Definition padStart0 (n : nat) (s : string) : string :=
  zeros (n - String.length s) +:+ s.

(** A value used as a condition. *)
Definition truthyString (o : option string) : bool :=
  match o with
  | Some s => negb (isEmpty s)
  | None => false
  end.

Definition truthyZ (o : option Z) : bool :=
  match o with
  | Some z => negb (z =? 0)%Z
  | None => false
  end.

End JS.

(** ** Computations with state and exceptions *)

(** What a [throw] carries. *)
Inductive Exn : Type :=
  | Error (message : string)
  | PerplexityAPIError (status : Z) (message : string)
  | SyntaxError (message : string)
  | SystemError (syscall : string) (path : string).

Inductive outcome (A : Type) : Type :=
  | Ok (a : A)
  | Throw (e : Exn).
Arguments Ok {A} a.
Arguments Throw {A} e.

(** A computation over a state [S]: it ends with a value or with an
    exception, and in both cases leaves a state behind. *)
Definition M (S A : Type) : Type := S -> outcome A * S.

Definition ret {S A : Type} (a : A) : M S A := fun s => (Ok a, s).

Definition throw {S A : Type} (e : Exn) : M S A := fun s => (Throw e, s).

Definition bind {S A B : Type} (c : M S A) (k : A -> M S B) : M S B :=
  fun s =>
    match c s with
    | (Ok a, s') => k a s'
    | (Throw e, s') => (Throw e, s')
    end.

Notation "'let*' x := c 'in' k" := (bind c (fun x => k))
  (at level 10, x name, c at level 100, k at level 200).

(** ** [types.ts] *)

Inductive PerplexityModel : Type :=
  | Sonar
  | SonarPro
  | SonarReasoningPro
  | SonarDeepResearch.

(** The string a model is on the wire and in a journal. *)
Definition modelId (m : PerplexityModel) : string :=
  match m with
  | Sonar => "sonar"
  | SonarPro => "sonar-pro"
  | SonarReasoningPro => "sonar-reasoning-pro"
  | SonarDeepResearch => "sonar-deep-research"
  end.

Inductive Role : Type := System | User | Assistant.

Record PerplexityMessage : Type := {
  role : Role;
  content : string;
}.

Inductive Recency : Type := Day | Week | Month | Year.

(** An optional property of an object. *)
Inductive prop (A : Type) : Type :=
  | Absent
  | Undefined
  | Value (a : A).
Arguments Absent {A}.
Arguments Undefined {A}.
Arguments Value {A} a.

(** [Partial<PerplexityRequest>], the [options] of [search]. *)
Record RequestOptions : Type := {
  opt_model : prop PerplexityModel;
  opt_messages : prop (list PerplexityMessage);
  opt_max_tokens : prop Z;
  opt_temperature : prop Q;
  opt_top_p : prop Q;
  opt_search_domain_filter : prop (list string);
  opt_search_recency_filter : prop Recency;
  opt_return_citations : prop bool;
  opt_return_images : prop bool;
  opt_return_related_questions : prop bool;
  opt_stream : prop bool;
}.

(** [{}] *)
Definition noOptions : RequestOptions := {|
  opt_model := Absent;
  opt_messages := Absent;
  opt_max_tokens := Absent;
  opt_temperature := Absent;
  opt_top_p := Absent;
  opt_search_domain_filter := Absent;
  opt_search_recency_filter := Absent;
  opt_return_citations := Absent;
  opt_return_images := Absent;
  opt_return_related_questions := Absent;
  opt_stream := Absent;
|}.

(** The object [search] serialises into the body of its request. *)
Record PerplexityRequest : Type := {
  model : prop PerplexityModel;
  messages : list PerplexityMessage;
  max_tokens : prop Z;
  temperature : prop Q;
  top_p : prop Q;
  search_domain_filter : prop (list string);
  search_recency_filter : prop Recency;
  return_citations : prop bool;
  return_images : prop bool;
  return_related_questions : prop bool;
  stream : prop bool;
}.

Record PerplexityUsage : Type := {
  prompt_tokens : Z;
  completion_tokens : Z;
  total_tokens : Z;
  citation_tokens : option Z;
  num_search_queries : option Z;
  reasoning_tokens : option Z;
}.

Record Choice : Type := {
  index : Z;
  message : PerplexityMessage;
  finish_reason : string;
}.

Record PerplexityResponse : Type := {
  id : string;
  response_model : string;
  created : Z;
  choices : list Choice;
  citations : option (list string);
  related_questions : option (list string);
  usage : PerplexityUsage;
}.

Inductive Confidence : Type := High | MediumHigh | Medium | Low.

Definition confidenceId (c : Confidence) : string :=
  match c with
  | High => "high"
  | MediumHigh => "medium-high"
  | Medium => "medium"
  | Low => "low"
  end.

Record Finding : Type := {
  finding_model : PerplexityModel;
  finding_content : string;
  finding_citations : list string;
}.

Record SynthesisResult : Type := {
  summary : string;
  findings : list Finding;
  agreements : list string;
  conflicts : list string;
  confidence : Confidence;
  allCitations : list string;
}.

(** [response.choices[0]?.message?.content || ''] *)
Definition firstContent (r : PerplexityResponse) : string :=
  match choices r with
  | c :: _ => content (message c)
  | [] => EmptyString
  end.

(** [<think>[\s\S]*?</think>] replaced globally by the empty string:
    at a position where the opening marker stands and a closing marker
    follows, everything up to and including the first closing marker is
    dropped; [skip] counts the characters still to drop. *)
Fixpoint stripThinkGo (s : string) (skip : nat) : string :=
  match s with
  | EmptyString => EmptyString
  | String c s' =>
      match skip with
      | S k => stripThinkGo s' k
      | O =>
          if JS.startsWith s "<think>" then
            let j := JS.indexOf (JS.drop 7 s) "</think>" in
            if (j <? 0)%Z then String c (stripThinkGo s' 0)
            else stripThinkGo s' (7 + Z.to_nat j + 8 - 1)
          else String c (stripThinkGo s' 0)
      end
  end.

Definition stripThinkingBlocks (content : string) : string :=
  JS.trim (stripThinkGo content 0).

(** ** [perplexity.ts]: the API client *)

Module Client.
Import JS.

Definition SYSTEM_PROMPTS_general : string :=
  "You are a research assistant. Provide comprehensive, well-cited answers. Be thorough but concise.".

(** [a || d] on a number. *)
Definition orElse (p : prop Z) (d : Z) : Z :=
  match p with
  | Value n => if (n =? 0)%Z then d else n
  | _ => d
  end.

(** [a ?? d] *)
Definition nullish {A : Type} (p : prop A) (d : A) : A :=
  match p with
  | Value a => a
  | _ => d
  end.

(** [{ k: v, ...rest }]: an own property of [rest] replaces [k]. *)
Definition spread {A : Type} (earlier rest : prop A) : prop A :=
  match rest with
  | Absent => earlier
  | _ => rest
  end.

Definition isSystem (r : Role) : bool :=
  match r with System => true | _ => false end.

(** [options.messages?.[0]?.role === 'system' ? ... : SYSTEM_PROMPTS.general] *)
Definition systemPromptOf (options : RequestOptions) : string :=
  match opt_messages options with
  | Value (m :: _) =>
      if isSystem (role m) then content m else SYSTEM_PROMPTS_general
  | _ => SYSTEM_PROMPTS_general
  end.

(** The [request] object of [search]; [restOptions] is [options]
    without its [messages]. *)
Definition buildRequest (query : string) (m : PerplexityModel)
    (options : RequestOptions) : PerplexityRequest := {|
  model := spread (Value m) (opt_model options);
  messages :=
    [ {| role := System; content := systemPromptOf options |};
      {| role := User; content := query |} ];
  max_tokens :=
    spread (Value (orElse (opt_max_tokens options) 4000))
           (opt_max_tokens options);
  temperature :=
    spread (Value (nullish (opt_temperature options) (2 # 10)%Q))
           (opt_temperature options);
  return_citations :=
    spread (Value (nullish (opt_return_citations options) true))
           (opt_return_citations options);
  top_p := spread Absent (opt_top_p options);
  search_domain_filter := spread Absent (opt_search_domain_filter options);
  search_recency_filter := spread Absent (opt_search_recency_filter options);
  return_images := spread Absent (opt_return_images options);
  return_related_questions :=
    spread Absent (opt_return_related_questions options);
  stream := spread Absent (opt_stream options);
|}.

(** What [fetch] and the reading of its response come to. *)
Inductive FetchOutcome : Type :=
  | FetchRejects (message : string)
  | FetchNotOk (status : Z) (body : string)
  | FetchMalformed (message : string)
  | FetchJson (r : PerplexityResponse).

(** The external service: it answers a request knowing the requests
    it has received before. *)
Definition Service : Type :=
  list PerplexityRequest -> PerplexityRequest -> FetchOutcome.

(** The state of the network is the list of requests sent, oldest
    first. *)
Definition Net : Type := list PerplexityRequest.

Definition search (service : Service) (query : string)
    (m : PerplexityModel) (options : RequestOptions)
    : M Net PerplexityResponse :=
  fun sent =>
    let request := buildRequest query m options in
    let sent' := sent ++ [request] in
    match service sent request with
    | FetchRejects errorMsg =>
        (Throw (Error ("Network error calling Perplexity API: " +:+ errorMsg)),
         sent')
    | FetchNotOk status errorText =>
        (Throw (PerplexityAPIError status
                  ("Perplexity API error (" +:+ ofZ status +:+ "): "
                   +:+ errorText)),
         sent')
    | FetchMalformed msg => (Throw (SyntaxError msg), sent')
    | FetchJson r => (Ok r, sent')
    end.

Record ModelRecommendation : Type := {
  recommended : PerplexityModel;
  reason : string;
}.

Definition analyzeQueryForModel (query : string) : ModelRecommendation :=
  let queryLower := toLowerCase query in
  let wordCount := List.length (splitWhiteSpace query) in
  if includes queryLower "comprehensive" ||
     includes queryLower "exhaustive" ||
     includes queryLower "deep dive" ||
     includes queryLower "research report" ||
     includes queryLower "due diligence" ||
     includes queryLower "market analysis"
  then {| recommended := SonarDeepResearch;
          reason := "Query requests comprehensive/exhaustive research" |}
  else if includes queryLower "why" ||
          includes queryLower "how does" ||
          includes queryLower "explain" ||
          includes queryLower "analyze" ||
          includes queryLower "compare" ||
          includes queryLower "evaluate" ||
          includes queryLower "trade-off" ||
          includes queryLower "pros and cons" ||
          includes queryLower "debug" ||
          includes queryLower "troubleshoot" ||
          includes queryLower "root cause"
  then {| recommended := SonarReasoningPro;
          reason := "Query requires reasoning, analysis, or causal explanation" |}
  else if (wordCount <? 10) &&
          (includes queryLower "what is" ||
           includes queryLower "who is" ||
           includes queryLower "when did" ||
           includes queryLower "where is" ||
           startsWith queryLower "define " ||
           includes queryLower "current price" ||
           includes queryLower "latest")
  then {| recommended := Sonar;
          reason := "Simple factual lookup query" |}
  else {| recommended := SonarReasoningPro;
          reason := "Default model for comprehensive analysis with reasoning traces" |}.

End Client.

(** ** [synthesis.ts]: the synthesis engine *)

Module Synthesis.
Import JS Client.

Inductive SynthesisPattern : Type :=
  | FactReasoning
  | QuickDeep
  | Truthtracer
  | MultiPerspective
  | UnknownPattern (name : string).

Record ModelResult : Type := {
  mr_model : PerplexityModel;
  mr_response : PerplexityResponse;
  mr_content : string;
  mr_citations : list string;
}.

Definition getModelsForPattern (pattern : SynthesisPattern)
    : list PerplexityModel :=
  match pattern with
  | FactReasoning => [SonarPro; SonarReasoningPro]
  | QuickDeep => [Sonar; SonarDeepResearch]
  | Truthtracer => [SonarPro; SonarReasoningPro; SonarDeepResearch]
  | MultiPerspective => [SonarPro; SonarReasoningPro]
  | UnknownPattern _ => [SonarReasoningPro]
  end.

(** The [filter] callback of [deduplicateCitations] reads and grows
    the set [seen]. *)
Fixpoint deduplicateGo (seen : gset string) (citations : list string)
    : list string :=
  match citations with
  | [] => []
  | url :: rest =>
      if decide (url ∈ seen) then deduplicateGo seen rest
      else url :: deduplicateGo ({[ url ]} ∪ seen) rest
  end.

Definition deduplicateCitations (citations : list string) : list string :=
  deduplicateGo ∅ citations.

(** [results.flatMap(r => r.citations)] *)
Definition flatCitations (results : list ModelResult) : list string :=
  concat (map mr_citations results).

(** [citationSets.every(set => set.has(url))] *)
Definition citedByAll (results : list ModelResult) (url : string) : bool :=
  forallb (fun r => bool_decide (url ∈ (list_to_set (mr_citations r) : gset string)))
          results.

(** [results[0].citations.filter(...)], read once [results] is known
    to have two elements or more. *)
Definition commonCitations (results : list ModelResult) : list string :=
  match results with
  | [] => []
  | r0 :: _ => List.filter (citedByAll results) (mr_citations r0)
  end.

Section Consistency.

(** The test on the spread of the content lengths,
    [Math.sqrt(variance) > avgLength * 0.5], is carried out in
    IEEE double arithmetic; it is a parameter of the model. *)
Variable significantVariance : list nat -> bool.

Record Consistency : Type := {
  c_agreements : list string;
  c_conflicts : list string;
  c_confidence : Confidence;
}.

Definition analyzeConsistency (results : list ModelResult) : Consistency :=
  if List.length results <? 2 then
    {| c_agreements := []; c_conflicts := []; c_confidence := Medium |}
  else
    let common := commonCitations results in
    let agreements :=
      if 2 <? List.length common
      then [ofNat (List.length common) +:+ " sources cited by all models"]
      else [] in
    let lengths := map (fun r => String.length (mr_content r)) results in
    let conflicts :=
      if significantVariance lengths
      then ["Significant variance in response depth between models"]
      else [] in
    let confidence :=
      if (3 <? List.length common) && (List.length conflicts =? 0) then High
      else if 1 <? List.length common then MediumHigh
      else if 1 <? List.length conflicts then Low
      else Medium in
    {| c_agreements := agreements;
       c_conflicts := conflicts;
       c_confidence := confidence |}.

(** U+2192, the arrow between model names, lies outside the code
    units of the model; it stands here as its three UTF-8 bytes. *)
Definition arrow : string :=
  String (ascii_of_N 226) (String (ascii_of_N 134)
    (String (ascii_of_N 146) EmptyString)).

Definition patternDesc (pattern : SynthesisPattern) : string :=
  match pattern with
  | FactReasoning => "Factual research followed by reasoning analysis"
  | QuickDeep => "Quick assessment followed by deep research"
  | Truthtracer => "Comprehensive fact-check with reasoning verification"
  | MultiPerspective => "Multi-perspective analysis"
  | UnknownPattern _ => "Multi-model synthesis"
  end.

Definition generateSummary (query : string) (results : list ModelResult)
    (pattern : SynthesisPattern) (confidence : Confidence) : string :=
  let modelNames :=
    join (" " +:+ arrow +:+ " ") (map (fun r => modelId (mr_model r)) results) in
  let totalCitations :=
    size (list_to_set (flatCitations results) : gset string) in
  "## Synthesis Summary" +:+ nl +:+
  nl +:+
  "**Query**: " +:+ query +:+ nl +:+
  "**Pattern**: " +:+ patternDesc pattern +:+ nl +:+
  "**Models**: " +:+ modelNames +:+ nl +:+
  "**Total Sources**: " +:+ ofNat totalCitations +:+ nl +:+
  "**Confidence**: " +:+ confidenceId confidence +:+ nl +:+
  nl +:+
  "---" +:+ nl +:+
  nl +:+
  join nl
    (imap (fun i r =>
       "### " +:+ ofNat (i + 1) +:+ ". " +:+ modelId (mr_model r) +:+ nl +:+
       nl +:+
       substring (mr_content r) 0 500 +:+
       (if 500 <? String.length (mr_content r) then "..." else EmptyString)
         +:+ nl +:+
       nl +:+
       "*[" +:+ ofNat (List.length (mr_citations r)) +:+ " citations]*" +:+ nl)
     results).

Definition combineResults (query : string) (results : list ModelResult)
    (pattern : SynthesisPattern) : SynthesisResult :=
  let allCitations := deduplicateCitations (flatCitations results) in
  let findings :=
    map (fun r => {| finding_model := mr_model r;
                     finding_content := mr_content r;
                     finding_citations := mr_citations r |}) results in
  let consistency := analyzeConsistency results in
  let summary :=
    generateSummary query results pattern (c_confidence consistency) in
  {| summary := summary;
     findings := findings;
     agreements := c_agreements consistency;
     conflicts := c_conflicts consistency;
     confidence := c_confidence consistency;
     allCitations := allCitations |}.

(** The [options] every step of [synthesize] passes to [search]. *)
Definition stepOptions (systemPrompt : option string) : RequestOptions := {|
  opt_model := Absent;
  opt_messages :=
    if truthyString systemPrompt
    then Value [ {| role := System; content := default EmptyString systemPrompt |} ]
    else Undefined;
  opt_max_tokens := Absent;
  opt_temperature := Absent;
  opt_top_p := Absent;
  opt_search_domain_filter := Absent;
  opt_search_recency_filter := Absent;
  opt_return_citations := Absent;
  opt_return_images := Absent;
  opt_return_related_questions := Absent;
  opt_stream := Absent;
|}.

Variable service : Service.

(** One turn of the loop [for (const model of models)]: a call of
    [search], awaited, then a [push] onto [results]. *)
Definition synthesisStep (query : string) (systemPrompt : option string)
    (m : PerplexityModel) (results : list ModelResult)
    : M Net (list ModelResult) :=
  let* response := search service query m (stepOptions systemPrompt) in
  let rawContent := firstContent response in
  let content := stripThinkingBlocks rawContent in
  ret (results ++ [ {| mr_model := m;
                       mr_response := response;
                       mr_content := content;
                       mr_citations := default [] (citations response) |} ]).

Fixpoint synthesisLoop (query : string) (systemPrompt : option string)
    (models : list PerplexityModel) (results : list ModelResult)
    : M Net (list ModelResult) :=
  match models with
  | [] => ret results
  | m :: rest =>
      let* results' := synthesisStep query systemPrompt m results in
      synthesisLoop query systemPrompt rest results'
  end.

Definition synthesize (query : string) (pattern : SynthesisPattern)
    (systemPrompt : option string) : M Net SynthesisResult :=
  let models := getModelsForPattern pattern in
  let* results := synthesisLoop query systemPrompt models [] in
  ret (combineResults query results pattern).

End Consistency.

(** The test of [significantVariance] over the reals: with [n]
    lengths of sum [S], the standard deviation exceeds half the mean
    exactly when [4 * sum (n * b - S)^2 > n * S^2]. *)
Definition exactVariance (lengths : list nat) : bool :=
  let n := Z.of_nat (List.length lengths) in
  let S := fold_right Z.add 0%Z (map Z.of_nat lengths) in
  let dev := fold_right Z.add 0%Z
               (map (fun b => (n * Z.of_nat b - S) ^ 2)%Z lengths) in
  (n * S ^ 2 <? 4 * dev)%Z.

Definition recommendPattern (query : string) : SynthesisPattern :=
  let queryLower := toLowerCase query in
  if includes queryLower "fact check" ||
     includes queryLower "is it true" ||
     includes queryLower "verify" ||
     includes queryLower "due diligence"
  then Truthtracer
  else if includes queryLower "comprehensive" ||
          includes queryLower "exhaustive" ||
          includes queryLower "deep dive"
  then QuickDeep
  else if includes queryLower "why" ||
          includes queryLower "how" ||
          includes queryLower "compare" ||
          includes queryLower "evaluate"
  then FactReasoning
  else MultiPerspective.

End Synthesis.

(** ** [research-store.ts]: the research store *)

Module Store.
Import JS.

(** What a [Date] object answers to the methods the store calls. *)
Record DateReading : Type := {
  toISOString : string;
  getFullYear : Z;
  getMonth : Z;
  getDate : Z;
  getHours : Z;
  getMinutes : Z;
  getSeconds : Z;
  timeZone : string;
  toLocaleTimeString : string;
}.

(** The object [saveRawResponse] serialises. *)
Record RawData : Type := {
  saved_at : string;
  raw_model : PerplexityModel;
  raw_topic : string;
  raw_response : PerplexityResponse;
}.

(** A file of the store: directly in the research directory, or in
    its [raw/] subdirectory. *)
Inductive Path : Type :=
  | InResearchDir (name : string)
  | InRawDir (name : string).

(** The platform under the store. *)
Record Host : Type := {
  (** the [n]-th [new Date()] of the process *)
  clock : nat -> DateReading;
  (** [new URL(url).hostname]; [None] when the constructor throws *)
  hostname : string -> option string;
  (** [Number.prototype.toLocaleString] in the locale of the host *)
  toLocaleString : Z -> string;
  (** [((promptTokens / 1_000_000) * input +
        (completionTokens / 1_000_000) * output).toFixed(4)]
      in IEEE double arithmetic *)
  costToFixed4 : Q -> Q -> Z -> Z -> string;
  (** whether [writeFileSync] succeeds on a path *)
  writable : Path -> bool;
}.

Inductive Dirent : Type :=
  | File (content : string)
  | Directory.

(** A call of [fs.writeFileSync]: of a text to a thread file, or of
    [JSON.stringify(rawData, null, 2)] to a raw file.  A raw file is
    modelled by the object whose serialisation it holds. *)
Inductive Write : Type :=
  | WriteThread (name : string) (text : string)
  | WriteRaw (name : string) (rawData : RawData).

Definition target (wr : Write) : Path :=
  match wr with
  | WriteThread name _ => InResearchDir name
  | WriteRaw name _ => InRawDir name
  end.

Record World : Type := {
  (** the entries of the research directory, [raw/] apart *)
  researchDir : gmap string Dirent;
  (** the files of [raw/] *)
  rawDir : gmap string RawData;
  (** every completed [writeFileSync], oldest first *)
  written : list Write;
  (** how many [Date] objects the process has created *)
  dates : nat;
}.

Definition emptyWorld : World :=
  {| researchDir := ∅; rawDir := ∅; written := []; dates := 0 |}.

(** Pricing per 1M tokens: input and output. *)
Definition MODEL_PRICING : gmap string (Q * Q) :=
  list_to_map
    [ ("sonar", (1, 1)%Q);
      ("sonar-pro", (3, 15)%Q);
      ("sonar-reasoning", (1, 5)%Q);
      ("sonar-reasoning-pro", (2, 8)%Q);
      ("sonar-deep-research", (2, 8)%Q) ].

(** [.replace(/[^a-z0-9]+/g, '-')]; [inRun] tells that the previous
    character belonged to the run being replaced. *)
Fixpoint hyphenate (s : string) (inRun : bool) : string :=
  match s with
  | EmptyString => EmptyString
  | String c s' =>
      if isLowerAlnum c then String c (hyphenate s' false)
      else if inRun then hyphenate s' true
      else String "-" (hyphenate s' true)
  end.

Definition dropLeadingHyphen (s : string) : string :=
  match s with
  | EmptyString => EmptyString
  | String c s' => if Ascii.eqb c "-" then s' else s
  end.

Fixpoint dropTrailingHyphen (s : string) : string :=
  match s with
  | EmptyString => EmptyString
  | String c s' =>
      if Ascii.eqb c "-" && isEmpty s' then EmptyString
      else String c (dropTrailingHyphen s')
  end.

(** [.replace(/^-|-$/g, '')]: a hyphen at index 0 and, when another
    character is left, a hyphen at the last index. *)
Definition trimHyphens (s : string) : string :=
  dropTrailingHyphen (dropLeadingHyphen s).

(** The chain [toLowerCase / replace / replace / substring(0, n)]
    shared by [generateFilename] and [saveRawResponse]. *)
Definition sanitize (topic : string) (n : nat) : string :=
  substring (trimHyphens (hyphenate (toLowerCase topic) false)) 0 n.

(** [iso.split('T')[0]] *)
Definition isoDate (d : DateReading) : string :=
  hd EmptyString (split "T" (toISOString d)).

(** The body of [generateFilename] once the date is read. *)
Definition filenameFor (topic : string) (d : DateReading) : string :=
  let date := isoDate d in
  let sanitizedTopic := sanitize topic 50 in
  sanitizedTopic +:+ "-" +:+ date +:+ ".md".

(** The body of [generateTimestamp] once the date is read. *)
Definition timestampFor (now : DateReading) : string :=
  let year := getFullYear now in
  let month := padStart0 2 (ofZ (getMonth now + 1)) in
  let day := padStart0 2 (ofZ (getDate now)) in
  let hours := padStart0 2 (ofZ (getHours now)) in
  let minutes := padStart0 2 (ofZ (getMinutes now)) in
  let seconds := padStart0 2 (ofZ (getSeconds now)) in
  ofZ year +:+ month +:+ day +:+ "_" +:+ hours +:+ minutes +:+ seconds.

(** The body of [formatDualTimestamp] once the date is read. *)
Definition dualTimestampFor (now : DateReading) : string :=
  toISOString now +:+ " (" +:+ timeZone now +:+ " "
    +:+ toLocaleTimeString now +:+ ")".

(** The body of [generateSynthesisSection] once the date is read. *)
Definition synthesisSectionFor (queryCount : nat) (d : DateReading) : string :=
  let today := isoDate d in
  "## Synthesis (Updated: " +:+ today +:+ ")" +:+ nl +:+
  nl +:+
  "*" +:+ ofNat queryCount +:+ " "
      +:+ (if queryCount =? 1 then "query" else "queries")
      +:+ " in this thread*" +:+ nl +:+
  nl +:+
  "### Key Conclusions" +:+ nl +:+
  "- *(Update after reviewing findings)*" +:+ nl +:+
  nl +:+
  "### Open Questions" +:+ nl +:+
  "- *(What remains unresolved)*" +:+ nl +:+
  nl +:+
  "### Confidence Assessment" +:+ nl +:+
  "- High confidence: *(topics)*" +:+ nl +:+
  "- Needs verification: *(topics)*" +:+ nl.

(** [/^## Query \d+:/] at the start of a line. *)
Fixpoint dropDigits (s : string) : string :=
  match s with
  | String c s' => if isDigit c then dropDigits s' else s
  | EmptyString => EmptyString
  end.

Definition isQueryHeader (line : string) : bool :=
  startsWith line "## Query " &&
  (let rest := drop 9 line in
   let after := dropDigits rest in
   (String.length after <? String.length rest) && startsWith after ":").

(** [content.match(/^## Query \d+:/gm)] counted. *)
Definition countQueryHeaders (content : string) : nat :=
  List.length (List.filter isQueryHeader (regexLines content)).

(** The three header forms of a thread, each a regular expression
    under the [m] flag tried on the lines in order:
    [/^# (.+?)(?:\n|$)/], [/^# (.+) Research$/] and
    [/^# Research Thread: (.+)$/]. *)
Definition v3Capture (line : string) : option string :=
  if startsWith line "# " && (2 <? String.length line)
  then Some (drop 2 line) else None.

Definition v2Capture (line : string) : option string :=
  if startsWith line "# " && endsWith (drop 2 line) " Research"
     && (9 <? String.length (drop 2 line))
  then Some (take (String.length line - 2 - 9) (drop 2 line)) else None.

Definition v1Capture (line : string) : option string :=
  if startsWith line "# Research Thread: " && (19 <? String.length line)
  then Some (drop 19 line) else None.

Fixpoint firstCapture (capture : string -> option string)
    (lines : list string) : option string :=
  match lines with
  | [] => None
  | line :: rest =>
      match capture line with
      | Some c => Some c
      | None => firstCapture capture rest
      end
  end.

Definition topicOf (filename content : string) : string :=
  let lines := regexLines content in
  match firstCapture v2Capture lines with
  | Some t => t
  | None =>
      match firstCapture v1Capture lines with
      | Some t => t
      | None =>
          match firstCapture v3Capture lines with
          | Some t => t
          | None => filename
          end
      end
  end.

(** The world after one more [Date] object is created. *)
Definition tick (w : World) : World :=
  {| researchDir := researchDir w;
     rawDir := rawDir w;
     written := written w;
     dates := S (dates w) |}.

(** The world after a write is completed. *)
Definition store (wr : Write) (w : World) : World :=
  {| researchDir :=
       match wr with
       | WriteThread name text => <[ name := File text ]> (researchDir w)
       | WriteRaw _ _ => researchDir w
       end;
     rawDir :=
       match wr with
       | WriteThread _ _ => rawDir w
       | WriteRaw name rawData => <[ name := rawData ]> (rawDir w)
       end;
     written := written w ++ [wr];
     dates := dates w |}.

Section Saving.

Variable host : Host.

(** [new Date()] *)
Definition newDate : M World DateReading :=
  fun w => (Ok (clock host (dates w)), tick w).

Definition pathName (p : Path) : string :=
  match p with
  | InResearchDir name => name
  | InRawDir name => "raw/" +:+ name
  end.

(** [fs.existsSync] on a path of the research directory *)
Definition existsSync (name : string) : M World bool :=
  fun w => (Ok (bool_decide (is_Some (researchDir w !! name))), w).

(** [fs.readFileSync(path, 'utf-8')] on a path of the research
    directory *)
Definition readFileSync (name : string) : M World string :=
  fun w =>
    match researchDir w !! name with
    | Some (File content) => (Ok content, w)
    | Some Directory => (Throw (SystemError "read" name), w)
    | None => (Throw (SystemError "open" name), w)
    end.

(** [fs.writeFileSync(path, data)]: the file is created or replaced
    as a whole. *)
Definition writeFileSync (wr : Write) : M World unit :=
  fun w =>
    if negb (writable host (target wr)) then
      (Throw (SystemError "open" (pathName (target wr))), w)
    else
      match wr with
      | WriteThread name _ =>
          match researchDir w !! name with
          | Some Directory => (Throw (SystemError "open" name), w)
          | _ => (Ok tt, store wr w)
          end
      | WriteRaw _ _ => (Ok tt, store wr w)
      end.

Definition calculateCost (m : PerplexityModel)
    (promptTokens completionTokens : Z) : string :=
  let pricing :=
    match MODEL_PRICING !! modelId m with
    | Some p => p
    | None => default (1, 1)%Q (MODEL_PRICING !! "sonar")
    end in
  "$" +:+ costToFixed4 host (fst pricing) (snd pricing)
            promptTokens completionTokens.

Definition formatDualTimestamp : M World string :=
  let* now := newDate in
  ret (dualTimestampFor now).

Definition extractDomain (url : string) : string :=
  match hostname host url with
  | Some h => if startsWith h "www." then drop 4 h else h
  | None => url
  end.

Definition formatCitations (citations : list string) : string :=
  match citations with
  | [] => "*No citations provided*"
  | _ =>
      join (nl +:+ nl)
        (imap (fun i url =>
           let domain := extractDomain url in
           "[" +:+ ofNat (i + 1) +:+ "] " +:+ domain +:+ nl +:+
           "    " +:+ url)
         citations)
  end.

Definition generateTimestamp : M World string :=
  let* now := newDate in
  ret (timestampFor now).

Definition saveRawResponse (topic : string) (response : PerplexityResponse)
    (m : PerplexityModel) : M World string :=
  let* timestamp := generateTimestamp in
  let sanitizedTopic := sanitize topic 30 in
  let filename := timestamp +:+ "_" +:+ sanitizedTopic +:+ ".json" in
  let* savedAt := newDate in
  let rawData := {| saved_at := toISOString savedAt;
                    raw_model := m;
                    raw_topic := topic;
                    raw_response := response |} in
  let* _ := writeFileSync (WriteRaw filename rawData) in
  ret filename.

Definition countQueriesInThread (filePath : string) : M World nat :=
  let* present := existsSync filePath in
  if negb present then ret 0
  else
    let* content := readFileSync filePath in
    ret (countQueryHeaders content).

Definition generateFilename (topic : string) : M World string :=
  let* d := newDate in
  ret (filenameFor topic d).

Definition generateSynthesisSection (queryCount : nat) : M World string :=
  let* d := newDate in
  ret (synthesisSectionFor queryCount d).

(** The text [saveResearch] accumulates in [entry]. *)
Definition formatEntry (query : string) (response : PerplexityResponse)
    (m : PerplexityModel) (modelRationale approvedPlan : option string)
    (timestamp rawFilename : string) (queryNum : nat) : string :=
  let rawContent := firstContent response in
  let content := stripThinkingBlocks rawContent in
  let citations := default [] (citations response) in
  let relatedQuestions := default [] (related_questions response) in
  let usage := usage response in
  let cost := calculateCost m (prompt_tokens usage) (completion_tokens usage) in
  let queryTitle :=
    if 60 <? String.length query then substring query 0 60 +:+ "..."
    else query in
  "## Query " +:+ ofNat queryNum +:+ ": " +:+ queryTitle +:+ nl +:+
  "**Timestamp**: " +:+ timestamp +:+ nl +:+
  "**Raw**: [raw/" +:+ rawFilename +:+ "](raw/" +:+ rawFilename +:+ ")" +:+ nl +:+
  "**Model**: " +:+ modelId m
    +:+ (if truthyString modelRationale
         then " (" +:+ default EmptyString modelRationale +:+ ")"
         else EmptyString)
    +:+ " | **Tokens**: " +:+ toLocaleString host (total_tokens usage)
    +:+ (if truthyZ (num_search_queries usage)
         then " | **Searches**: " +:+ ofZ (default 0%Z (num_search_queries usage))
         else EmptyString) +:+ nl +:+
  nl +:+
  (if truthyString approvedPlan
   then "### Approved Plan" +:+ nl +:+
        default EmptyString approvedPlan +:+ nl +:+
        nl
   else EmptyString) +:+
  "### Findings" +:+ nl +:+
  nl +:+
  content +:+ nl +:+
  nl +:+
  "### Citations" +:+ nl +:+
  nl +:+
  formatCitations citations +:+ nl +:+
  (if 0 <? List.length relatedQuestions
   then nl +:+
        "### Related Questions" +:+ nl +:+
        nl +:+
        join nl (imap (fun i q => ofNat (i + 1) +:+ ". " +:+ q) relatedQuestions)
          +:+ nl
   else EmptyString) +:+
  nl +:+
  "### Cost" +:+ nl +:+
  cost +:+ nl +:+
  nl +:+
  "---" +:+ nl +:+
  nl.

Definition synthesisMarker : string := "## Synthesis".

(** [existingContent] once the synthesis section found in it is
    removed. *)
Definition withoutSynthesis (existingContent : string) : string :=
  let synthesisIndex := indexOf existingContent synthesisMarker in
  if negb (synthesisIndex =? -1)%Z
  then trimEnd (substring existingContent 0 (Z.to_nat synthesisIndex))
         +:+ nl +:+ nl
  else existingContent.

(** The text of a new thread file. *)
Definition newThread (query : string) (systemPrompt : option string)
    (entry synthesis : string) : string :=
  let title :=
    if 80 <? String.length query then substring query 0 80 +:+ "..."
    else query in
  "# " +:+ title +:+ nl +:+
  nl +:+
  "Research thread for this topic." +:+ nl +:+
  (if truthyString systemPrompt
   then nl +:+ "Context: " +:+ default EmptyString systemPrompt
   else EmptyString) +:+ nl +:+
  nl +:+
  "---" +:+ nl +:+
  nl +:+
  entry +:+ synthesis.

Definition saveResearch (query : string) (response : PerplexityResponse)
    (m : PerplexityModel)
    (systemPrompt modelRationale approvedPlan : option string)
    : M World Path :=
  let* rawFilename := saveRawResponse query response m in
  let* filename := generateFilename query in
  let* timestamp := formatDualTimestamp in
  let* count := countQueriesInThread filename in
  let queryNum := count + 1 in
  let entry := formatEntry query response m modelRationale approvedPlan
                 timestamp rawFilename queryNum in
  let* present := existsSync filename in
  if present then
    let* existingContent := readFileSync filename in
    let existingContent := withoutSynthesis existingContent in
    let* synthesis := generateSynthesisSection queryNum in
    let updatedContent := existingContent +:+ entry +:+ synthesis in
    let* _ := writeFileSync (WriteThread filename updatedContent) in
    ret (InResearchDir filename)
  else
    let* synthesis := generateSynthesisSection queryNum in
    let header := newThread query systemPrompt entry synthesis in
    let* _ := writeFileSync (WriteThread filename header) in
    ret (InResearchDir filename).

End Saving.

(** [lines.slice(start, end)] *)
Definition slice {A : Type} (l : list A) (start end_ : nat) : list A :=
  firstn (end_ - start) (skipn start l).

Definition contextAt (lines : list string) (i : nat) : string :=
  let start := Nat.max 0 (i - 1) in
  let end_ := Nat.min (List.length lines) (i + 2) in
  trim (join nl (slice lines start end_)).

(** One turn of the loop over the lines in [searchResearch]. *)
Definition scanLine (searchTerms lines : list string)
    (matchingLines : list string) (i : nat) : list string :=
  let lineLower := toLowerCase (nth i lines EmptyString) in
  if existsb (fun term => includes lineLower term) searchTerms then
    let context := contextAt lines i in
    if negb (isEmpty context) && negb (bool_decide (context ∈ matchingLines))
    then matchingLines ++ [context]
    else matchingLines
  else matchingLines.

Definition matchingLinesOf (searchTerms : list string) (content : string)
    : list string :=
  let lines := split LF content in
  fold_left (scanLine searchTerms lines) (seq 0 (List.length lines)) [].

Record SearchHit : Type := {
  hit_file : string;
  hit_topic : string;
  hit_matches : list string;
}.

Definition searchTermsOf (keywords : string) : list string :=
  splitWhiteSpace (toLowerCase keywords).

Definition allTermsPresent (searchTerms : list string) (content : string)
    : bool :=
  let contentLower := toLowerCase content in
  forallb (fun term => includes contentLower term) searchTerms.

(** The body of the loop over the files in [searchResearch]: the hit
    pushed onto [results], if any. *)
Definition searchFile (searchTerms : list string)
    (filename content : string) : option SearchHit :=
  if negb (allTermsPresent searchTerms content) then None
  else
    let topic := topicOf filename content in
    let matchingLines := matchingLinesOf searchTerms content in
    if 0 <? List.length matchingLines then
      Some {| hit_file := filename;
              hit_topic := topic;
              hit_matches := slice matchingLines 0 5 |}
    else None.

(** [readdirSync(researchDir, { withFileTypes: true })] filtered by
    [e.isFile() && e.name.endsWith('.md')], each name with the content
    [readFileSync] gives. *)
Definition markdownFiles (w : World) : list (string * string) :=
  omap (fun e => match e with
                 | (name, File content) =>
                     if endsWith name ".md" then Some (name, content) else None
                 | (_, Directory) => None
                 end)
       (map_to_list (researchDir w)).

Definition searchResearch (w : World) (keywords : string) : list SearchHit :=
  let searchTerms := searchTermsOf keywords in
  omap (fun e => searchFile searchTerms (fst e) (snd e)) (markdownFiles w).

End Store.

(** ** [index.ts]: how the tool [deep_research] saves its result *)

Module Dispatcher.
Import JS.

Definition patternId (pattern : Synthesis.SynthesisPattern) : string :=
  match pattern with
  | Synthesis.FactReasoning => "fact-reasoning"
  | Synthesis.QuickDeep => "quick-deep"
  | Synthesis.Truthtracer => "truthtracer"
  | Synthesis.MultiPerspective => "multi-perspective"
  | Synthesis.UnknownPattern name => name
  end.

(** The response made up for the store; [now] is what [Date.now()]
    returned. *)
Definition syntheticResponse (result : SynthesisResult) (now : Z)
    : PerplexityResponse := {|
  id := "synthesis";
  response_model := "multi-model";
  created := now;
  choices := [ {| index := 0;
                  message := {| role := Assistant; content := summary result |};
                  finish_reason := "stop" |} ];
  citations := Some (allCitations result);
  related_questions := None;
  usage := {| prompt_tokens := 0; completion_tokens := 0; total_tokens := 0;
              citation_tokens := None; num_search_queries := None;
              reasoning_tokens := None |};
|}.

(** The call of [saveResearch] in the case ['deep_research']. *)
Definition saveSynthesis (host : Store.Host) (query : string)
    (pattern : Synthesis.SynthesisPattern) (patternRationale : string)
    (approvedPlan : option string) (result : SynthesisResult) (now : Z)
    : M Store.World Store.Path :=
  Store.saveResearch host ("[Deep Research] " +:+ query)
    (syntheticResponse result now) SonarDeepResearch
    (Some ("Multi-model synthesis (" +:+ patternId pattern +:+ ")"))
    (Some patternRationale) approvedPlan.

End Dispatcher.

(** ** [perplexity.ts]: the error of the API and its advice *)

Module APIError.

(** The getters of [PerplexityAPIError], on its [status]. *)
Definition isRateLimited (status : Z) : bool := (status =? 429)%Z.

Definition isUnauthorized (status : Z) : bool := (status =? 401)%Z.

Definition isServerError (status : Z) : bool := (500 <=? status)%Z.

Definition getSuggestedAction (status : Z) : string :=
  if isUnauthorized status then
    "Check your PERPLEXITY_API_KEY - it may be invalid or expired."
  else if isRateLimited status then
    "Rate limited. Wait a moment and try again."
  else if isServerError status then
    "Perplexity server error. Try again in a few seconds."
  else "Check your request parameters and try again.".

End APIError.

(** ** [research-store.ts]: reading a thread *)

Module Reader.
Import JS Store.

(** [path.join(researchDir, p)] names an entry of the research
    directory when [p] holds no separator [/]; what the file system
    holds at the other paths, which may lie outside the directory, is
    [elsewhere]. *)
Definition entryAt (elsewhere : string -> option Dirent) (w : World)
    (p : string) : option Dirent :=
  if includes p "/" then elsewhere p else researchDir w !! p.

(** [fs.readdirSync(researchDir)]: the names of the entries, among
    them the directory [raw]. *)
Definition readdirSync (w : World) : list string :=
  "raw" :: map fst (map_to_list (researchDir w)).

Definition readThread (elsewhere : string -> option Dirent) (w : World)
    (topicOrId : string) : outcome (option string) :=
  let filePath := topicOrId +:+ ".md" in
  match entryAt elsewhere w filePath with
  | Some (File content) => Ok (Some content)
  | Some Directory => Throw (SystemError "read" filePath)
  | None =>
      let files := readdirSync w in
      let found :=
        List.find (fun f => includes (toLowerCase f) (toLowerCase topicOrId)
                            && endsWith f ".md")
                  files in
      match found with
      | Some f =>
          match researchDir w !! f with
          | Some (File content) => Ok (Some content)
          | Some Directory => Throw (SystemError "read" f)
          | None => Throw (SystemError "open" f)
          end
      | None => Ok None
      end
  end.

End Reader.

(** ** [perplexity.ts]: the answer shown to the caller *)

Module Formatter.
Import JS.

(** [formatResponseWithCitations]; [hostname] is [new URL(url).hostname],
    [None] when the constructor throws. *)
Definition formatResponseWithCitations (hostname : string -> option string)
    (response : PerplexityResponse) : string :=
  let content := firstContent response in
  let citations := default [] (citations response) in
  let relatedQuestions := default [] (related_questions response) in
  let usage := usage response in
  let content := stripThinkingBlocks content in
  let formatted := content in
  let formatted :=
    if 0 <? List.length citations then
      formatted +:+ nl +:+ nl +:+ "---" +:+ nl +:+ nl +:+ "## Sources"
        +:+ nl +:+ nl
        +:+ foldr String.append EmptyString
              (imap (fun index url =>
                 match hostname url with
                 | Some domain =>
                     "[" +:+ ofNat (index + 1) +:+ "] " +:+ domain +:+ nl
                       +:+ "    " +:+ url +:+ nl
                 | None =>
                     "[" +:+ ofNat (index + 1) +:+ "] " +:+ url +:+ nl
                 end)
               citations)
    else formatted in
  let formatted :=
    if 0 <? List.length relatedQuestions then
      formatted +:+ nl +:+ "---" +:+ nl +:+ nl +:+ "## Related Questions"
        +:+ nl +:+ nl
        +:+ foldr String.append EmptyString
              (imap (fun index question =>
                 ofNat (index + 1) +:+ ". " +:+ question +:+ nl)
               relatedQuestions)
    else formatted in
  let formatted :=
    formatted +:+ nl +:+ "---" +:+ nl +:+ nl +:+ "*Model: "
      +:+ response_model response +:+ " | Tokens: "
      +:+ ofZ (total_tokens usage) +:+ "*" in
  if truthyZ (num_search_queries usage)
  then formatted +:+ " | *Searches: "
         +:+ ofZ (default 0%Z (num_search_queries usage)) +:+ "*"
  else formatted.

End Formatter.

(** ** [index.ts]: the tools *)

Module Server.
Import JS Client Store.

Inductive Context : Type :=
  | General | Technical | Academic | FactCheck | Business | Rca.

Definition SYSTEM_PROMPTS (context : Context) : string :=
  match context with
  | General => SYSTEM_PROMPTS_general
  | Technical =>
      "Prioritize official documentation, GitHub repositories, and high-quality technical sources. Include code examples when relevant. Note version compatibility."
  | Academic =>
      "Prioritize peer-reviewed sources and reputable publications. Note methodology limitations. Highlight conflicting findings."
  | FactCheck =>
      "Cross-reference claims against multiple independent sources. Distinguish verified facts from disputed claims. Rate confidence levels."
  | Business =>
      "Prioritize authoritative sources (SEC filings, official reports). Include quantitative data. Note potential biases."
  | Rca =>
      "You are a root cause analysis expert. Follow systematic debugging methodology:" +:+ nl +:+
      "1. Gather symptoms and error messages precisely" +:+ nl +:+
      "2. Generate multiple hypotheses for potential causes" +:+ nl +:+
      "3. For each hypothesis, identify evidence that would confirm or refute it" +:+ nl +:+
      "4. Prioritize hypotheses by likelihood and ease of verification" +:+ nl +:+
      "5. Document what was ruled out and why" +:+ nl +:+
      "6. Trace causal chains back to root cause, not just proximate cause" +:+ nl +:+
      "7. Distinguish between correlation and causation" +:+ nl +:+
      "8. Note environmental factors that may affect reproducibility" +:+ nl +:+
      "Preserve the investigation path - future sessions benefit from seeing the reasoning chain, not just conclusions."
  end.

(** What a tool returns; [isError] is absent where the source does not
    set it. *)
Record ToolResult : Type := {
  result_text : string;
  result_isError : bool;
}.

(** The state the tools work on: the requests sent to the API and the
    store. *)
Record Sys : Type := {
  net : Net;
  world : World;
}.

Definition onNet {A : Type} (c : M Net A) : M Sys A :=
  fun s =>
    let r := c (net s) in
    (fst r, {| net := snd r; world := world s |}).

Definition onStore {A : Type} (c : M World A) : M Sys A :=
  fun s =>
    let r := c (world s) in
    (fst r, {| net := net s; world := snd r |}).

(** [try { c } catch (error) { h(error) }] *)
Definition tryCatch {S A : Type} (c : M S A) (h : Exn -> M S A) : M S A :=
  fun s =>
    match c s with
    | (Ok a, s') => (Ok a, s')
    | (Throw e, s') => h e s'
    end.

(** The arguments of the tool [research], read as its schema types
    them. *)
Record ResearchArgs : Type := {
  research_query : string;
  research_approved_plan : option string;
  research_model : option PerplexityModel;
  research_context : option Context;
  research_recency : option Recency;
  research_domain_filter : option (list string);
  research_return_related_questions : option bool;
}.

Record DeepResearchArgs : Type := {
  deep_query : string;
  deep_approved_plan : option string;
  deep_pattern : option Synthesis.SynthesisPattern;
}.

(** The [searchOptions] of the tool [research]. *)
Definition searchOptions (context : Context) (recency : option Recency)
    (domainFilter : option (list string))
    (returnRelatedQuestions : option bool) : RequestOptions := {|
  opt_model := Absent;
  opt_messages :=
    Value [ {| role := System; content := SYSTEM_PROMPTS context |} ];
  opt_max_tokens := Absent;
  opt_temperature := Absent;
  opt_top_p := Absent;
  opt_search_domain_filter :=
    match domainFilter with
    | Some (d :: rest) => Value (d :: rest)
    | _ => Absent
    end;
  opt_search_recency_filter :=
    match recency with
    | Some r => Value r
    | None => Absent
    end;
  opt_return_citations := Absent;
  opt_return_images := Absent;
  opt_return_related_questions :=
    match returnRelatedQuestions with
    | Some true => Value true
    | _ => Absent
    end;
  opt_stream := Absent;
|}.

Definition isRca (context : Context) : bool :=
  match context with Rca => true | _ => false end.

(** The model of the tool [research] and the rationale noted with
    it. *)
Definition modelAndRationale (context : Context)
    (model : option PerplexityModel) (query : string)
    : PerplexityModel * string :=
  let model :=
    if isRca context && negb (bool_decide (is_Some model))
    then Some SonarReasoningPro else model in
  match model with
  | None =>
      let recommendation := analyzeQueryForModel query in
      (recommended recommendation, reason recommendation)
  | Some model =>
      if isRca context
      then (model, "RCA/debugging requires reasoning model")
      else (model, "user-specified")
  end.

Definition alternativeModel (model : PerplexityModel) : PerplexityModel :=
  match model with
  | SonarReasoningPro => SonarPro
  | _ => SonarReasoningPro
  end.

(** [!pattern] *)
Definition truthyPattern (pattern : option Synthesis.SynthesisPattern)
    : bool :=
  match pattern with
  | Some p => negb (isEmpty (Dispatcher.patternId p))
  | None => false
  end.

Definition simplerPattern (pattern : Synthesis.SynthesisPattern) : string :=
  match pattern with
  | Synthesis.Truthtracer => "fact-reasoning"
  | _ => "quick-deep"
  end.

Definition quote : string := String (ascii_of_N 34) EmptyString.

Section Tools.

Variable host : Host.
Variable service : Service.
Variable significantVariance : list nat -> bool.

(** The message of the error the platform raises for a failed system
    call. *)
Variable errnoMessage : string -> string -> string.

(** [path.join] of the research directory and a file of the store. *)
Variable fullPath : Path -> string.

(** [SynthesisEngine.formatSynthesis], whose text holds characters
    beyond U+00FF. *)
Variable formatSynthesis : SynthesisResult -> string.

(** What the file system holds outside the research directory. *)
Variable elsewhere : string -> option Dirent.

(** [error instanceof Error ? error.message : String(error)] *)
Definition errorMessage (e : Exn) : string :=
  match e with
  | Error message => message
  | PerplexityAPIError _ message => message
  | SyntaxError message => message
  | SystemError syscall path => errnoMessage syscall path
  end.

(** The case ['research']. *)
Definition research (args : ResearchArgs) : M Sys ToolResult :=
  let query := research_query args in
  let approvedPlan := research_approved_plan args in
  let context := default General (research_context args) in
  let chosen := modelAndRationale context (research_model args) query in
  let model := fst chosen in
  let modelRationale := snd chosen in
  let options :=
    searchOptions context (research_recency args)
      (research_domain_filter args)
      (research_return_related_questions args) in
  let* attempt :=
    tryCatch
      (let* response := onNet (search service query model options) in
       ret (inr response))
      (fun error => ret (inl error)) in
  match attempt with
  | inl error =>
      ret {| result_text :=
               "**API call failed**: " +:+ errorMessage error +:+ nl +:+
               nl +:+
               "**Options:**" +:+ nl +:+
               "1. **Retry** with same model (" +:+ modelId model +:+ ")"
                 +:+ nl +:+
               "2. **Try alternative model**: "
                 +:+ modelId (alternativeModel model) +:+ nl +:+
               "3. **Reformulate query** - simplify or clarify the question"
                 +:+ nl +:+
               "4. **Abort** - cancel this research" +:+ nl +:+
               nl +:+
               "What would you like to do?";
             result_isError := true |}
  | inr response =>
      let* filePath :=
        onStore (saveResearch host query response model
                   (Some (SYSTEM_PROMPTS context)) (Some modelRationale)
                   approvedPlan) in
      let formatted :=
        Formatter.formatResponseWithCitations (hostname host) response in
      ret {| result_text :=
               formatted +:+ nl +:+ nl +:+ "---" +:+ nl +:+ "*Saved to: "
                 +:+ fullPath filePath +:+ "*";
             result_isError := false |}
  end.

(** The case ['deep_research']; [now] is what [Date.now()] returns
    once the synthesis is done. *)
Definition deep_research (args : DeepResearchArgs) (now : Z)
    : M Sys ToolResult :=
  let query := deep_query args in
  let approvedPlan := deep_approved_plan args in
  let pattern :=
    if truthyPattern (deep_pattern args)
    then default Synthesis.MultiPerspective (deep_pattern args)
    else Synthesis.recommendPattern query in
  let patternRationale :=
    if truthyPattern (deep_pattern args)
    then "user-specified " +:+ Dispatcher.patternId pattern +:+ " pattern"
    else "auto-selected " +:+ Dispatcher.patternId pattern
           +:+ " pattern based on query analysis" in
  let* attempt :=
    tryCatch
      (let* result :=
         onNet (Synthesis.synthesize significantVariance service query
                  pattern None) in
       ret (inr result))
      (fun error => ret (inl error)) in
  match attempt with
  | inl error =>
      ret {| result_text :=
               "**Deep research failed**: " +:+ errorMessage error +:+ nl +:+
               nl +:+
               "**Options:**" +:+ nl +:+
               "1. **Retry** with same pattern ("
                 +:+ Dispatcher.patternId pattern +:+ ")" +:+ nl +:+
               "2. **Try simpler pattern**: " +:+ simplerPattern pattern
                 +:+ nl +:+
               "3. **Use single model** instead via research tool" +:+ nl +:+
               "4. **Abort** - cancel this research" +:+ nl +:+
               nl +:+
               "What would you like to do?";
             result_isError := true |}
  | inr result =>
      let* filePath :=
        onStore (Dispatcher.saveSynthesis host query pattern patternRationale
                   approvedPlan result now) in
      let formatted := formatSynthesis result in
      ret {| result_text :=
               formatted +:+ nl +:+ nl +:+ "---" +:+ nl +:+ "*Saved to: "
                 +:+ fullPath filePath +:+ "*";
             result_isError := false |}
  end.

(** The case ['read_research_thread']. *)
Definition read_research_thread (topic : string) : M Sys ToolResult :=
  fun s =>
    match Reader.readThread elsewhere (world s) topic with
    | Throw e => (Throw e, s)
    | Ok content =>
        if negb (truthyString content) then
          (Ok {| result_text :=
                   "Research thread " +:+ quote +:+ topic +:+ quote
                     +:+ " not found. Use list_research_threads to see available threads.";
                 result_isError := false |}, s)
        else
          (Ok {| result_text := default EmptyString content;
                 result_isError := false |}, s)
    end.

(** The [try] and [catch] around every case. *)
Definition guarded (tool : M Sys ToolResult) : M Sys ToolResult :=
  tryCatch tool
    (fun error =>
       ret {| result_text := "Error: " +:+ errorMessage error;
              result_isError := true |}).

End Tools.

End Server.

(** ** [research-store.ts]: the list of the raw files *)

Module RawFiles.
Import JS Store.

Record RawListing : Type := {
  listing_filename : string;
  listing_timestamp : string;
  listing_topic : string;
}.

Definition everyChar (p : ascii -> bool) (s : string) : bool :=
  forallb p (list_ascii_of_string s).

(** [.replace(/-/g, ' ')] *)
Fixpoint spaceHyphens (s : string) : string :=
  match s with
  | EmptyString => EmptyString
  | String c s' =>
      String (if Ascii.eqb c "-" then " "%char else c) (spaceHyphens s')
  end.

(** [filename.match(/^(\d{8}_\d{6})_(.+)\.json$/)]: the two groups.
    The name is eight digits, an underscore, six digits, an underscore,
    one character or more none of which ends a line, and [.json]. *)
Definition matchRawName (filename : string) : option (string * string) :=
  let stamp := take 15 filename in
  let rest := drop 15 filename in
  let topic := take (String.length rest - 6) (drop 1 rest) in
  if (String.length stamp =? 15)
     && everyChar isDigit (take 8 stamp)
     && startsWith (drop 8 stamp) "_"
     && everyChar isDigit (drop 9 stamp)
     && startsWith rest "_"
     && (6 <? String.length rest)
     && endsWith (drop 1 rest) ".json"
     && everyChar (fun c => negb (isLineTerminator c)) topic
  then Some (stamp, topic)
  else None.

(** The entry [listRawFiles] makes of a file name. *)
Definition rawListingOf (filename : string) : RawListing :=
  match matchRawName filename with
  | Some (stamp, topic) =>
      {| listing_filename := filename;
         listing_timestamp := stamp;
         listing_topic := spaceHyphens topic |}
  | None =>
      {| listing_filename := filename;
         listing_timestamp := EmptyString;
         listing_topic := filename |}
  end.

(** [listRawFiles]; [sortNewestFirst] is the [sort] of the platform
    with the comparison [b.timestamp.localeCompare(a.timestamp)]. *)
Definition listRawFiles
    (sortNewestFirst : list RawListing -> list RawListing) (w : World)
    : list RawListing :=
  let files :=
    List.filter (fun f => endsWith f ".json")
      (map fst (map_to_list (rawDir w))) in
  sortNewestFirst (map rawListingOf files).

End RawFiles.

(** ** Reference definitions *)

(** First occurrence wins: the head of a list is kept and its later
    copies are removed from what the rest keeps. *)
Fixpoint firstOccurrences (l : list string) : list string :=
  match l with
  | [] => []
  | x :: rest => x :: filter (fun y => y <> x) (firstOccurrences rest)
  end.


(** The citations of a step as a set. *)
Definition citationSet (r : Synthesis.ModelResult) : gset string :=
  list_to_set (Synthesis.mr_citations r).



(** The request a step of [synthesize] sends for a model. *)
Definition stepRequest (query : string) (systemPrompt : option string)
    (m : PerplexityModel) : PerplexityRequest :=
  Client.buildRequest query m (Synthesis.stepOptions systemPrompt).

(** The entry a step of [synthesize] pushes for a response. *)
Definition stepResult (m : PerplexityModel) (response : PerplexityResponse)
    : Synthesis.ModelResult := {|
  Synthesis.mr_model := m;
  Synthesis.mr_response := response;
  Synthesis.mr_content := stripThinkingBlocks (firstContent response);
  Synthesis.mr_citations := default [] (citations response);
|}.

(** Starting from the requests [sent], the service answers the steps
    for [models], called one after the other, with [responses]. *)
Fixpoint answers (service : Client.Service) (query : string)
    (systemPrompt : option string) (sent : Client.Net)
    (models : list PerplexityModel) (responses : list PerplexityResponse)
    : Prop :=
  match models, responses with
  | [], [] => True
  | m :: models', r :: responses' =>
      service sent (stepRequest query systemPrompt m) = Client.FetchJson r
      /\ answers service query systemPrompt
           (sent ++ [stepRequest query systemPrompt m]) models' responses'
  | _, _ => False
  end.

(** The phrases of the three rules of [analyzeQueryForModel]. *)
Definition deepResearchPhrases : list string :=
  [ "comprehensive"; "exhaustive"; "deep dive"; "research report";
    "due diligence"; "market analysis" ].

Definition reasoningPhrases : list string :=
  [ "why"; "how does"; "explain"; "analyze"; "compare"; "evaluate";
    "trade-off"; "pros and cons"; "debug"; "troubleshoot"; "root cause" ].

Definition lookupPhrases : list string :=
  [ "what is"; "who is"; "when did"; "where is"; "current price"; "latest" ].

(** A query mentions a phrase when it contains it, whatever the case
    of its letters. *)
Definition mentions (query phrase : string) : bool :=
  JS.includes (JS.toLowerCase query) phrase.

Definition mentionsAny (query : string) (phrases : list string) : bool :=
  existsb (mentions query) phrases.

(** A short query phrased as a lookup. *)
Definition shortLookup (query : string) : bool :=
  (List.length (JS.splitWhiteSpace query) <? 10) &&
  (mentionsAny query lookupPhrases ||
   JS.startsWith (JS.toLowerCase query) "define ").

(** The rules of [analyzeQueryForModel] in their order of priority. *)
Definition modelByPriority (query : string) : PerplexityModel :=
  if mentionsAny query deepResearchPhrases then SonarDeepResearch
  else if mentionsAny query reasoningPhrases then SonarReasoningPro
  else if shortLookup query then Sonar
  else SonarReasoningPro.

(** The name the raw backup is referred to by. *)
Definition rawBackupName (host : Store.Host) (query : string) (w : Store.World)
    : string :=
  Store.timestampFor (Store.clock host (Store.dates w)) +:+ "_"
    +:+ Store.sanitize query 30 +:+ ".json".

(** The raw backup a save begun in the world [w] writes first. *)
Definition rawBackup (host : Store.Host) (query : string)
    (response : PerplexityResponse) (m : PerplexityModel) (w : Store.World)
    : Store.Write :=
  Store.WriteRaw (rawBackupName host query w)
    {| Store.saved_at :=
         Store.toISOString (Store.clock host (S (Store.dates w)));
       Store.raw_model := m;
       Store.raw_topic := query;
       Store.raw_response := response |}.

(** The thread file of a save begun in the world [w]. *)
Definition threadName (host : Store.Host) (query : string) (w : Store.World)
    : string :=
  Store.filenameFor query (Store.clock host (2 + Store.dates w)).

(** The entry a save begun in the world [w] renders as the
    [queryNum]-th of its thread. *)
Definition savedEntry (host : Store.Host) (query : string)
    (response : PerplexityResponse) (m : PerplexityModel)
    (modelRationale approvedPlan : option string) (w : Store.World)
    (queryNum : nat) : string :=
  Store.formatEntry host query response m modelRationale approvedPlan
    (Store.dualTimestampFor (Store.clock host (3 + Store.dates w)))
    (rawBackupName host query w) queryNum.

(** The synthesis section a save begun in the world [w] renders. *)
Definition savedSynthesis (host : Store.Host) (w : Store.World)
    (queryNum : nat) : string :=
  Store.synthesisSectionFor queryNum (Store.clock host (4 + Store.dates w)).

(** The text a save begun in the world [w] writes to its thread: over
    an existing text, or as a new file. *)
Definition threadText (host : Store.Host) (query : string)
    (response : PerplexityResponse) (m : PerplexityModel)
    (systemPrompt modelRationale approvedPlan : option string)
    (w : Store.World) (existing : option string) : string :=
  match existing with
  | Some text =>
      let queryNum := Store.countQueryHeaders text + 1 in
      Store.withoutSynthesis text
        +:+ savedEntry host query response m modelRationale approvedPlan w queryNum
        +:+ savedSynthesis host w queryNum
  | None =>
      Store.newThread query systemPrompt
        (savedEntry host query response m modelRationale approvedPlan w 1)
        (savedSynthesis host w 1)
  end.

(** The date objects a save creates before it reads its thread, and
    all of them. *)
Definition ticks (n : nat) (w : Store.World) : Store.World :=
  Nat.iter n Store.tick w.


(** Whether some character of a string is of a class. *)
Fixpoint anyChar (p : ascii -> bool) (s : string) : bool :=
  match s with
  | EmptyString => false
  | String c rest => p c || anyChar p rest
  end.

(** A text with a character that is not white space. *)
Definition notBlank (s : string) : bool :=
  anyChar (fun c => negb (JS.isWhiteSpace c)) s.

(** What [searchResearch] is specified to make of one file: the lines
    that contain a term, each shown with the line before and the line
    after, the empty windows left out, every window once in the order
    of the file, five at most. *)
Definition lineMatches (searchTerms lines : list string) (i : nat) : bool :=
  existsb (fun term => JS.includes (JS.toLowerCase (nth i lines EmptyString)) term)
          searchTerms.

Definition snippetCandidates (searchTerms lines : list string) : list string :=
  List.filter (fun context => negb (JS.isEmpty context))
    (map (Store.contextAt lines)
       (List.filter (lineMatches searchTerms lines)
          (seq 0 (List.length lines)))).

Definition snippets (searchTerms : list string) (content : string)
    : list string :=
  firstn 5 (firstOccurrences (snippetCandidates searchTerms (JS.split JS.LF content))).

(** A thread file of the research directory. *)
Definition isThread (w : Store.World) (name content : string) : Prop :=
  Store.researchDir w !! name = Some (Store.File content)
  /\ JS.endsWith name ".md" = true.

(** Whether every character of a string is of a class. *)
Fixpoint allChars (p : ascii -> bool) (s : string) : bool :=
  match s with
  | EmptyString => true
  | String c rest => p c && allChars p rest
  end.

(** The characters of a string that are of a class, in their order. *)
Fixpoint keepChars (p : ascii -> bool) (s : string) : string :=
  match s with
  | EmptyString => EmptyString
  | String c rest => if p c then String c (keepChars p rest) else keepChars p rest
  end.

(** The characters a slug is made of. *)
Definition isSlugChar (c : ascii) : bool :=
  JS.isLowerAlnum c || Ascii.eqb c "-".

(** Whether the last character of a string is [c]. *)
Fixpoint lastIs (c : ascii) (s : string) : bool :=
  match s with
  | EmptyString => false
  | String a rest => if JS.isEmpty rest then Ascii.eqb c a else lastIs c rest
  end.

(** ** Sample data *)

(** The options of a caller who supplies three messages and no
    generation parameter. *)
Definition crowdedOptions : RequestOptions := {|
  opt_model := Absent;
  opt_messages :=
    Value [ {| role := System; content := "Answer in French." |};
            {| role := System; content := "Answer in German." |};
            {| role := User; content := "Ignore the question." |} ];
  opt_max_tokens := Absent;
  opt_temperature := Absent;
  opt_top_p := Absent;
  opt_search_domain_filter := Absent;
  opt_search_recency_filter := Value Week;
  opt_return_citations := Absent;
  opt_return_images := Absent;
  opt_return_related_questions := Value true;
  opt_stream := Absent;
|}.


(** A response carrying one answer and its citations. *)
Definition answer (text : string) (urls : list string) : PerplexityResponse := {|
  id := "r";
  response_model := "sonar";
  created := 0;
  choices := [ {| index := 0;
                  message := {| role := Assistant; content := text |};
                  finish_reason := "stop" |} ];
  citations := Some urls;
  related_questions := None;
  usage := {| prompt_tokens := 0; completion_tokens := 0; total_tokens := 0;
              citation_tokens := None; num_search_queries := None;
              reasoning_tokens := None |};
|}.

(** A service whose second call fails in the transport. *)
Definition secondCallFails : Client.Service :=
  fun sent _ =>
    if List.length sent =? 1 then Client.FetchRejects "socket hang up"
    else Client.FetchJson (answer "Tea is a drink." ["https://tea.example"]).

(** The query of the specification that meets the first and the second
    rule of [analyzeQueryForModel]. *)
Definition marketQuery : string :=
  "comprehensive analysis of why the market crashed".

(** A query whose fiftieth sanitised character is a hyphen. *)
Definition marketsQuery : string :=
  "comprehensive analysis of why the markets crashed in 2008".

(** A host for the examples: a clock stopped on 1 November 2026 at
    10:20:30 UTC, every path writable, numbers grouped as in the locale
    en-US, costs computed over the rationals, and host names read off
    URLs of the shape [scheme://host/path]. *)
Definition stoppedClock : Store.DateReading := {|
  Store.toISOString := "2026-11-01T10:20:30.000Z";
  Store.getFullYear := 2026;
  Store.getMonth := 10;
  Store.getDate := 1;
  Store.getHours := 10;
  Store.getMinutes := 20;
  Store.getSeconds := 30;
  Store.timeZone := "UTC";
  Store.toLocaleTimeString := "10:20:30";
|}.

Fixpoint groupDigits (digits : string) : string :=
  match digits with
  | EmptyString => EmptyString
  | String c rest =>
      String c
        (if (0 <? String.length rest) && (String.length rest mod 3 =? 0)
         then String "," (groupDigits rest)
         else groupDigits rest)
  end.

Definition groupedNumber (z : Z) : string :=
  if (z <? 0)%Z then "-" +:+ groupDigits (JS.ofZ (- z))
  else groupDigits (JS.ofZ z).

Definition rationalCost (input output : Q) (promptTokens completionTokens : Z)
    : string :=
  let cost := (inject_Z promptTokens / 1000000 * input
               + inject_Z completionTokens / 1000000 * output)%Q in
  let tenThousandths := Qfloor (cost * 10000 + (1 # 2))%Q in
  JS.ofZ (tenThousandths / 10000) +:+ "."
    +:+ JS.padStart0 4 (JS.ofZ (tenThousandths mod 10000)).

Definition hostAfterScheme (url : string) : option string :=
  let rest :=
    if JS.startsWith url "https://" then Some (JS.drop 8 url)
    else if JS.startsWith url "http://" then Some (JS.drop 7 url)
    else None in
  match rest with
  | Some r =>
      let h := hd EmptyString (JS.split "/" r) in
      if JS.isEmpty h then None else Some h
  | None => None
  end.

Definition stoppedHost : Store.Host := {|
  Store.clock := fun _ => stoppedClock;
  Store.hostname := hostAfterScheme;
  Store.toLocaleString := groupedNumber;
  Store.costToFixed4 := rationalCost;
  Store.writable := fun _ => true;
|}.

(** A service that answers every call, and the synthesis it leads to. *)
Definition alwaysAnswers : Client.Service :=
  fun _ _ => Client.FetchJson (answer "Tea is a drink." ["https://tea.example/leaf"]).

Definition teaSynthesis : SynthesisResult :=
  match fst (Synthesis.synthesize Synthesis.exactVariance alwaysAnswers
               "tea" Synthesis.FactReasoning None [])
  with
  | Ok result => result
  | Throw _ =>
      {| summary := EmptyString; findings := []; agreements := [];
         conflicts := []; confidence := Medium; allCitations := [] |}
  end.

(** The tool [deep_research] saving the same synthesis twice on one
    day. *)
Definition saveTea : M Store.World Store.Path :=
  Dispatcher.saveSynthesis stoppedHost "tea" Synthesis.FactReasoning
    "auto-selected fact-reasoning pattern based on query analysis" None
    teaSynthesis 1793528430000.

Definition afterFirstTea : Store.World := snd (saveTea Store.emptyWorld).
Definition afterSecondTea : Store.World := snd (saveTea afterFirstTea).

Definition teaThread : string := "deep-research-tea-2026-11-01.md".

(** The entry the first save renders. *)
Definition firstTeaEntry : string :=
  savedEntry stoppedHost "[Deep Research] tea"
    (Dispatcher.syntheticResponse teaSynthesis 1793528430000) SonarDeepResearch
    (Some "auto-selected fact-reasoning pattern based on query analysis") None
    Store.emptyWorld 1.

Definition threadOf (w : Store.World) (name : string) : string :=
  match Store.researchDir w !! name with
  | Some (Store.File text) => text
  | _ => EmptyString
  end.

(** Research directories for the examples of [searchResearch]. *)
Definition directoryOf (files : list (string * string)) : Store.World := {|
  Store.researchDir := list_to_map (map (fun f => (fst f, Store.File (snd f))) files);
  Store.rawDir := ∅;
  Store.written := [];
  Store.dates := 0;
|}.

Definition journal : Store.World :=
  directoryOf
    [ ("tea.md",
       "# Tea" +:+ JS.nl +:+
       "Alpha is the first letter." +:+ JS.nl +:+
       JS.nl +:+
       "The second letter is BETA." +:+ JS.nl);
      ("coffee.md", "alpha alone");
      ("blank.md", JS.nl) ].

(** A directory whose one thread is an empty file, and one whose one
    thread holds a line break and nothing else. *)
Definition emptyFileDirectory : Store.World :=
  directoryOf [ ("empty.md", EmptyString) ].

Definition blankFileDirectory : Store.World :=
  directoryOf [ ("blank.md", JS.nl) ].

(** Three steps that cite the same four sources in answers of one
    length. *)
Definition threeAgreeing : list Synthesis.ModelResult :=
  let urls := [ "https://a.example"; "https://b.example";
                "https://c.example"; "https://d.example" ] in
  [ stepResult SonarPro (answer "Tea is a drink." urls);
    stepResult SonarReasoningPro (answer "Tea is a plant." urls);
    stepResult SonarDeepResearch (answer "Tea is a trade." urls) ].

(** A save through the tool [research] of an answer that quotes a
    header of another thread, done twice on one day. *)
Definition quotingAnswer : PerplexityResponse :=
  answer ("As noted before:" +:+ JS.nl +:+ "## Query 7: is tea healthy" +:+ JS.nl
            +:+ "the answer is yes.")
         [].

Definition saveQuote : M Store.World Store.Path :=
  Store.saveResearch stoppedHost "is tea healthy" quotingAnswer Sonar
    None (Some "user-specified") None.

Definition afterFirstQuote : Store.World := snd (saveQuote Store.emptyWorld).
Definition afterSecondQuote : Store.World := snd (saveQuote afterFirstQuote).

Definition quoteThread : string := "is-tea-healthy-2026-11-01.md".

(** ** Further reference definitions *)

(** The four patterns of the type [SynthesisPattern]. *)
Definition isNamedPattern (pattern : Synthesis.SynthesisPattern) : Prop :=
  match pattern with
  | Synthesis.UnknownPattern _ => False
  | _ => True
  end.

(** The phrases of the three rules of [recommendPattern]. *)
Definition factCheckPhrases : list string :=
  [ "fact check"; "is it true"; "verify"; "due diligence" ].

Definition comprehensivePhrases : list string :=
  [ "comprehensive"; "exhaustive"; "deep dive" ].

Definition analyticalPhrases : list string :=
  [ "why"; "how"; "compare"; "evaluate" ].

(** The rules of [recommendPattern] in their order of priority. *)
Definition patternByPriority (query : string) : Synthesis.SynthesisPattern :=
  if mentionsAny query factCheckPhrases then Synthesis.Truthtracer
  else if mentionsAny query comprehensivePhrases then Synthesis.QuickDeep
  else if mentionsAny query analyticalPhrases then Synthesis.FactReasoning
  else Synthesis.MultiPerspective.

(** No occurrence of [t] begins inside the part [a] of [a +:+ s]. *)
Definition noneBegins (a s t : string) : Prop :=
  forall x y,
    a = x +:+ y -> y <> EmptyString -> JS.startsWith (y +:+ s) t = false.

(** The rule that ends the head of a thread and every entry of it. *)
Definition rule : string := "---" +:+ JS.nl +:+ JS.nl.

(** The head of a new thread: its title and its context. *)
Definition threadHead (query : string) (systemPrompt : option string)
    : string :=
  let title :=
    if 80 <? String.length query then JS.substring query 0 80 +:+ "..."
    else query in
  "# " +:+ title +:+ JS.nl +:+
  JS.nl +:+
  "Research thread for this topic." +:+ JS.nl +:+
  (if JS.truthyString systemPrompt
   then JS.nl +:+ "Context: " +:+ default EmptyString systemPrompt
   else EmptyString) +:+ JS.nl +:+
  JS.nl.

(** Texts one after the other. *)
Definition allOf (texts : list string) : string :=
  foldr String.append EmptyString texts.

(** A thread that is made of a head, of entries that each end with the
    rule, and of one synthesis section, the only place where the marker
    of the synthesis section occurs. *)
Definition isThreadOf (text head : string) (entries : list string)
    (section : string) : Prop :=
  text = head +:+ rule +:+ allOf entries +:+ section
  /\ JS.startsWith section Store.synthesisMarker = true
  /\ JS.includes (head +:+ rule +:+ allOf entries) Store.synthesisMarker
     = false
  /\ Forall (fun entry => exists body, entry = body +:+ rule) entries.

(** Two saves of one answer for one query on one day. *)
Definition leafQuery : string := "is tea a drink".

Definition saveLeaf : M Store.World Store.Path :=
  Store.saveResearch stoppedHost leafQuery
    (answer "Tea is a drink." ["https://tea.example/leaf"]) Sonar
    None (Some "user-specified") None.

Definition afterFirstLeaf : Store.World := snd (saveLeaf Store.emptyWorld).

Definition leafThread : string := "is-tea-a-drink-2026-11-01.md".

Definition leafEntry (w : Store.World) (queryNum : nat) : string :=
  savedEntry stoppedHost leafQuery
    (answer "Tea is a drink." ["https://tea.example/leaf"]) Sonar
    (Some "user-specified") None w queryNum.

(** The lines of an entry down to the heading of its findings. *)
Definition entryLead (host : Store.Host) (query : string)
    (response : PerplexityResponse) (m : PerplexityModel)
    (modelRationale approvedPlan : option string)
    (timestamp rawFilename : string) (queryNum : nat) : string :=
  let usage := usage response in
  let queryTitle :=
    if 60 <? String.length query then JS.substring query 0 60 +:+ "..."
    else query in
  "## Query " +:+ JS.ofNat queryNum +:+ ": " +:+ queryTitle +:+ JS.nl +:+
  "**Timestamp**: " +:+ timestamp +:+ JS.nl +:+
  "**Raw**: [raw/" +:+ rawFilename +:+ "](raw/" +:+ rawFilename +:+ ")"
    +:+ JS.nl +:+
  "**Model**: " +:+ modelId m
    +:+ (if JS.truthyString modelRationale
         then " (" +:+ default EmptyString modelRationale +:+ ")"
         else EmptyString)
    +:+ " | **Tokens**: " +:+ Store.toLocaleString host (total_tokens usage)
    +:+ (if JS.truthyZ (num_search_queries usage)
         then " | **Searches**: "
                +:+ JS.ofZ (default 0%Z (num_search_queries usage))
         else EmptyString) +:+ JS.nl +:+
  JS.nl +:+
  (if JS.truthyString approvedPlan
   then "### Approved Plan" +:+ JS.nl +:+
        default EmptyString approvedPlan +:+ JS.nl +:+
        JS.nl
   else EmptyString) +:+
  "### Findings".

(** Two queries that agree in the first thirty characters of their
    slugs. *)
Definition teaBenefits : string := "What are the health benefits of tea?".

Definition coffeeBenefits : string :=
  "What are the health benefits of coffee?".

(** A service that answers no call. *)
Definition neverAnswers : Client.Service :=
  fun _ _ => Client.FetchRejects "socket hang up".

(** Calls of the tools for the query [leafQuery], with nothing else
    asked for. *)
Definition leafResearch : Server.ResearchArgs := {|
  Server.research_query := leafQuery;
  Server.research_approved_plan := None;
  Server.research_model := None;
  Server.research_context := None;
  Server.research_recency := None;
  Server.research_domain_filter := None;
  Server.research_return_related_questions := None;
|}.

Definition leafDeepResearch : Server.DeepResearchArgs := {|
  Server.deep_query := leafQuery;
  Server.deep_approved_plan := None;
  Server.deep_pattern := None;
|}.

Definition freshSystem : Server.Sys :=
  {| Server.net := []; Server.world := Store.emptyWorld |}.

(** A message for the errors of the file system. *)
Definition plainErrno (syscall path : string) : string :=
  syscall +:+ " " +:+ path.

(** Two steps of which the first cites one source four times. *)
Definition oneSourceFourTimes : list Synthesis.ModelResult :=
  [ stepResult SonarPro
      (answer "Tea is a drink."
         [ "https://a.example"; "https://a.example";
           "https://a.example"; "https://a.example" ]);
    stepResult SonarReasoningPro
      (answer "Tea is a plant." [ "https://a.example" ]) ].

(** A reading of the clock in a year of four digits. *)
Definition fourDigitYear (now : Store.DateReading) : Prop :=
  (1000 <= Store.getFullYear now <= 9999
   /\ 0 <= Store.getMonth now <= 11
   /\ 1 <= Store.getDate now <= 31
   /\ 0 <= Store.getHours now <= 23
   /\ 0 <= Store.getMinutes now <= 59
   /\ 0 <= Store.getSeconds now <= 59)%Z.

(** A text of [n] digits. *)
Definition isDigits (n : nat) (s : string) : bool :=
  (String.length s =? n) && RawFiles.everyChar JS.isDigit s.

(** Two results of a step that a summary does not tell apart: they
    agree in the model, in the citations, in the first five hundred
    characters of the content, and in whether there are more. *)
Definition sameExcerpt (r r' : Synthesis.ModelResult) : Prop :=
  Synthesis.mr_model r = Synthesis.mr_model r'
  /\ Synthesis.mr_citations r = Synthesis.mr_citations r'
  /\ JS.substring (Synthesis.mr_content r) 0 500
     = JS.substring (Synthesis.mr_content r') 0 500
  /\ (500 <? String.length (Synthesis.mr_content r))
     = (500 <? String.length (Synthesis.mr_content r')).

(** Two answers of 501 characters that differ in the last. *)
Definition longAnswer (last : string) : list Synthesis.ModelResult :=
  [ stepResult SonarPro (answer (JS.zeros 500 +:+ last) []);
    stepResult SonarReasoningPro (answer "Tea is a plant." []) ].

(** * Properties *)

(** ** Citation deduplication *)

Section Deduplication.
Import Synthesis.

Lemma deduplicateGo_firstOccurrences (l : list string) :
  forall seen : gset string,
    deduplicateGo seen l = filter (fun y => y ∉ seen) (firstOccurrences l).
Proof.
  induction l as [|x rest IH]; intros seen; simpl; [done|].
  destruct (decide (x ∈ seen)) as [Hin|Hout].
  - rewrite filter_cons_False by tauto.
    rewrite IH, list_filter_filter.
    apply list_filter_iff. intros y. split; [|tauto].
    intros Hy. split; [done|]. congruence.
  - rewrite filter_cons_True by done.
    rewrite IH, list_filter_filter. f_equal.
    apply list_filter_iff. intros y.
    rewrite not_elem_of_union, not_elem_of_singleton. tauto.
Qed.

Lemma deduplicateCitations_firstOccurrences (l : list string) :
  deduplicateCitations l = firstOccurrences l.
Proof.
  unfold deduplicateCitations. rewrite deduplicateGo_firstOccurrences.
  induction (firstOccurrences l) as [|y r IH]; [done|].
  rewrite filter_cons_True by set_solver. by rewrite IH.
Qed.

Lemma firstOccurrences_elem (l : list string) (x : string) :
  x ∈ firstOccurrences l <-> x ∈ l.
Proof.
  induction l as [|a rest IH]; simpl; [done|].
  rewrite !elem_of_cons, list_elem_of_filter, IH.
  destruct (decide (x = a)); tauto.
Qed.

Lemma firstOccurrences_NoDup (l : list string) : NoDup (firstOccurrences l).
Proof.
  induction l as [|a rest IH]; simpl; [constructor|].
  apply NoDup_cons. split.
  - rewrite list_elem_of_filter. tauto.
  - by apply NoDup_filter.
Qed.

(** Filtering keeps the order of the elements it keeps. *)
Lemma filter_lookup_order (P : string -> Prop) `{!forall x, Decision (P x)}
    (l : list string) :
  forall i j x y,
    filter P l !! i = Some x -> filter P l !! j = Some y -> i < j ->
    exists i' j', l !! i' = Some x /\ l !! j' = Some y /\ i' < j'.
Proof.
  induction l as [|b l IH]; intros i j x y Hi Hj Hlt; [done|].
  rewrite filter_cons in Hi, Hj. destruct (decide (P b)) as [Hb|Hb].
  - destruct i as [|i]; destruct j as [|j]; try lia; simpl in *.
    + apply list_elem_of_lookup_2, list_elem_of_filter in Hj as [_ Hy].
      apply list_elem_of_lookup_1 in Hy as [k Hk].
      exists 0, (S k). repeat split; [done|done|lia].
    + destruct (IH i j x y Hi Hj) as (i' & j' & ? & ? & ?); [lia|].
      exists (S i'), (S j'). repeat split; [done|done|lia].
  - destruct (IH i j x y Hi Hj Hlt) as (i' & j' & ? & ? & ?).
    exists (S i'), (S j'). repeat split; [done|done|lia].
Qed.

(** In [firstOccurrences l], [x] stands before [y] only if [x] shows
    up in [l] at a place before which neither has been seen. *)
Lemma firstOccurrences_order (l : list string) :
  forall i j x y,
    firstOccurrences l !! i = Some x ->
    firstOccurrences l !! j = Some y -> i < j ->
    exists l1 l2, l = l1 ++ x :: l2 /\ (x ∉ l1) /\ (y ∉ l1).
Proof.
  induction l as [|a rest IH]; intros i j x y Hi Hj Hlt; [done|].
  simpl in Hi, Hj. destruct i as [|i]; destruct j as [|j]; try lia.
  - simpl in Hi. injection Hi as ->.
    exists [], rest. split; [done|]. split; apply not_elem_of_nil.
  - simpl in Hi, Hj.
    pose proof (list_elem_of_lookup_2 _ _ _ Hi) as Hx.
    pose proof (list_elem_of_lookup_2 _ _ _ Hj) as Hy.
    apply list_elem_of_filter in Hx as [Hxa _].
    apply list_elem_of_filter in Hy as [Hya _].
    destruct (filter_lookup_order _ _ i j x y Hi Hj) as (i' & j' & Hi' & Hj' & Hlt');
      [lia|].
    destruct (IH i' j' x y Hi' Hj' Hlt') as (l1 & l2 & -> & Hx1 & Hy1).
    exists (a :: l1), l2. split; [done|].
    rewrite !not_elem_of_cons. tauto.
Qed.

(** C7. The citations [combineResults] returns are the first
    occurrences of the concatenated per-step citation lists: they
    equal the reference deduplication, hold every cited URL exactly
    once, and list the URLs in the order of their first appearance;
    the steps [a,b,a,c] and [b,d] combine to [a,b,c,d]. *)
Theorem combineResults_citations_first_seen
    (significantVariance : list nat -> bool) (query : string)
    (results : list ModelResult) (pattern : SynthesisPattern) :
  let steps := map mr_citations results in
  let combined :=
    allCitations (combineResults significantVariance query results pattern) in
  combined = firstOccurrences (concat steps)
  /\ NoDup combined
  /\ (forall url, url ∈ combined <-> exists step, step ∈ steps /\ url ∈ step)
  /\ (forall i j x y,
        combined !! i = Some x -> combined !! j = Some y -> i < j ->
        exists before after,
          concat steps = before ++ x :: after /\ (x ∉ before) /\ (y ∉ before))
  /\ deduplicateCitations (concat [["a"; "b"; "a"; "c"]; ["b"; "d"]])
     = ["a"; "b"; "c"; "d"].
Proof.
  intros steps combined.
  assert (Hc : combined = firstOccurrences (concat steps)).
  { subst combined steps. unfold combineResults, flatCitations. simpl.
    apply deduplicateCitations_firstOccurrences. }
  split; [exact Hc|]. rewrite Hc. split; [apply firstOccurrences_NoDup|].
  split.
  { intros url. rewrite firstOccurrences_elem, list_elem_of_In, in_concat.
    split; intros (step & H1 & H2); exists step;
      rewrite ?list_elem_of_In in *; tauto. }
  split; [apply firstOccurrences_order|].
  vm_compute. reflexivity.
Qed.

End Deduplication.

(** ** The consistency analysis *)

Section ConsistencyProperties.
Import Synthesis.

Variable significantVariance : list nat -> bool.

Lemma citedByAll_true (results : list ModelResult) (url : string) :
  citedByAll results url = true <->
  forall step, step ∈ results -> url ∈ mr_citations step.
Proof.
  unfold citedByAll. rewrite forallb_forall. split.
  - intros H step Hstep. apply list_elem_of_In, H in Hstep.
    apply bool_decide_eq_true in Hstep. by apply elem_of_list_to_set in Hstep.
  - intros H step Hstep. apply bool_decide_eq_true, elem_of_list_to_set, H.
    by apply list_elem_of_In.
Qed.


End ConsistencyProperties.

Section ConsistencyRemarks.
Import Synthesis.

Variable significantVariance : list nat -> bool.


Lemma analyzeConsistency_never_low (results : list ModelResult) :
  c_confidence (analyzeConsistency significantVariance results) <> Low.
Proof.
  unfold analyzeConsistency.
  destruct (List.length results <? 2); [done|]. cbn [c_confidence].
  destruct (significantVariance _); cbn [List.length Nat.ltb Nat.leb Nat.eqb];
    rewrite ?andb_true_r, ?andb_false_r;
    repeat match goal with |- context [if ?b then _ else _] => destruct b end;
    done.
Qed.

(** When the first step cites no URL twice, the common citations are
    counted as a set: their number is the size of the intersection of
    the citation sets. *)
Lemma commonCitations_size (r0 : ModelResult) (rest : list ModelResult) :
  NoDup (mr_citations r0) ->
  List.length (commonCitations (r0 :: rest)) =
  size (foldr (fun r acc => citationSet r ∩ acc) (citationSet r0) rest).
Proof.
  intros Hnd. unfold commonCitations.
  set (common := List.filter _ _).
  assert (Hcommon : NoDup common).
  { subst common. apply NoDup_ListNoDup, List.NoDup_filter.
    by apply NoDup_ListNoDup. }
  rewrite <- (size_list_to_set (C := gset string) common Hcommon).
  f_equal. apply set_eq. intros url.
  rewrite elem_of_list_to_set. subst common.
  rewrite list_elem_of_In, filter_In, <- list_elem_of_In, citedByAll_true.
  assert (Hfold : url ∈ foldr (fun r acc => citationSet r ∩ acc) (citationSet r0) rest
                  <-> url ∈ mr_citations r0 /\
                      forall step, step ∈ rest -> url ∈ mr_citations step).
  { clear. induction rest as [|r rest IH]; simpl.
    - unfold citationSet. rewrite elem_of_list_to_set. split; [|tauto].
      intros H. split; [done|]. intros step Hs. by apply elem_of_nil in Hs.
    - rewrite elem_of_intersection, IH. unfold citationSet.
      rewrite elem_of_list_to_set. split.
      + intros (Hr & H0 & Hrest). split; [done|].
        intros step [->|Hs]%elem_of_cons; auto.
      + intros (H0 & Hall). split; [apply Hall; by left|].
        split; [done|]. intros step Hs. apply Hall. by right. }
  rewrite Hfold. split.
  - intros (H0 & Hall). split; [done|]. intros step Hs. apply Hall. by right.
  - intros (H0 & Hall). split; [done|].
    intros step [->|Hs]%elem_of_cons; auto.
Qed.

End ConsistencyRemarks.

(** ** The confidence ladder *)

Section ConfidenceLadder.
Import Synthesis.

Variable significantVariance : list nat -> bool.





End ConfidenceLadder.



(** ** The request built by [search] *)

Section SearchRequest.
Import Client.

Lemma search_appends_request (service : Service) (query : string)
    (m : PerplexityModel) (options : RequestOptions) (sent : Net) :
  snd (search service query m options sent) =
  sent ++ [buildRequest query m options].
Proof.
  unfold search.
  by destruct (service sent (buildRequest query m options)).
Qed.

(** C5. [search] sends one request, built from its arguments alone.
    Its messages are exactly two: a system message, whose content is
    that of the first message of the options when that one has the
    role system and the general prompt otherwise, then a user message
    carrying the query; whatever else the caller put among the
    messages is dropped.  The maximum of tokens is 4000, the
    temperature 0.2 and the citations are asked for, unless the
    options carry the property themselves. *)
Theorem search_request_shape (service : Service) (query : string)
    (m : PerplexityModel) (options : RequestOptions) (sent : Net) :
  let request := buildRequest query m options in
  snd (search service query m options sent) = sent ++ [request]
  /\ (exists systemPrompt,
        messages request =
          [ {| role := System; content := systemPrompt |};
            {| role := User; content := query |} ]
        /\ (forall first others,
              opt_messages options = Value (first :: others) ->
              role first = System -> systemPrompt = content first)
        /\ ((forall first others,
               opt_messages options = Value (first :: others) ->
               role first <> System) ->
            systemPrompt = SYSTEM_PROMPTS_general))
  /\ (opt_max_tokens options = Absent -> max_tokens request = Value 4000%Z)
  /\ (opt_temperature options = Absent ->
      temperature request = Value (2 # 10)%Q)
  /\ (opt_return_citations options = Absent ->
      return_citations request = Value true)
  /\ (opt_max_tokens options <> Absent ->
      max_tokens request = opt_max_tokens options)
  /\ (opt_temperature options <> Absent ->
      temperature request = opt_temperature options)
  /\ (opt_return_citations options <> Absent ->
      return_citations request = opt_return_citations options).
Proof.
  intros request. split; [apply search_appends_request|].
  split.
  { exists (systemPromptOf options). split; [done|]. split.
    - intros first others Hm Hrole. unfold systemPromptOf.
      by rewrite Hm, Hrole.
    - intros Hno. unfold systemPromptOf.
      destruct (opt_messages options) as [| |[|first others]] eqn:Hm; try done.
      specialize (Hno first others eq_refl).
      by destruct (role first). }
  subst request. simpl.
  repeat split; intros H; try (by rewrite H);
    match goal with
    | |- spread _ ?p = _ => by destruct p
    end.
Qed.

Lemma search_request_shape_witness :
  messages (buildRequest "tea" Sonar crowdedOptions) =
    [ {| role := System; content := "Answer in French." |};
      {| role := User; content := "tea" |} ]
  /\ max_tokens (buildRequest "tea" Sonar crowdedOptions) = Value 4000%Z.
Proof.
  destruct (search_request_shape (fun _ _ => FetchRejects "down")
              "tea" Sonar crowdedOptions [])
    as (_ & (sp & Hm & Hsys & _) & Hmax & _).
  split.
  - rewrite Hm. by rewrite (Hsys _ _ eq_refl eq_refl).
  - by apply Hmax.
Defined.

End SearchRequest.

(** ** Failure of a synthesis step *)

Section SynthesisFailure.
Import Client Synthesis.

Variable significantVariance : list nat -> bool.
Variable service : Service.
Variables (query : string) (systemPrompt : option string).

Local Abbreviation request := (stepRequest query systemPrompt).

Lemma synthesisStep_ok (m : PerplexityModel) (results : list ModelResult)
    (sent : Net) (r : PerplexityResponse) :
  service sent (request m) = FetchJson r ->
  synthesisStep service query systemPrompt m results sent =
  (Ok (results ++ [stepResult m r]), sent ++ [request m]).
Proof.
  intros Hr. unfold synthesisStep, bind, search.
  fold (request m). by rewrite Hr.
Qed.

Lemma synthesisStep_throw (m : PerplexityModel) (results : list ModelResult)
    (sent : Net) (e : Exn) :
  fst (search service query m (stepOptions systemPrompt) sent) = Throw e ->
  synthesisStep service query systemPrompt m results sent =
  (Throw e, sent ++ [request m]).
Proof.
  intros He. unfold synthesisStep, bind.
  pose proof (search_appends_request service query m
                (stepOptions systemPrompt) sent) as Hsent.
  destruct (search service query m (stepOptions systemPrompt) sent)
    as [[r|e'] sent'] eqn:Hs; simpl in *; [discriminate|].
  by injection He as ->; subst sent'.
Qed.

(** The loop stops at the first step whose call fails. *)
Lemma synthesisLoop_first_failure (m : PerplexityModel)
    (later : list PerplexityModel) (e : Exn) (finished : list PerplexityModel) :
  forall (results : list ModelResult) (sent : Net)
         (responses : list PerplexityResponse),
    answers service query systemPrompt sent finished responses ->
    fst (search service query m (stepOptions systemPrompt)
           (sent ++ map request finished)) = Throw e ->
    synthesisLoop service query systemPrompt (finished ++ m :: later)
      results sent =
    (Throw e, sent ++ map request (finished ++ [m])).
Proof.
  induction finished as [|d finished IH]; intros results sent responses Hans He.
  - simpl in *. rewrite app_nil_r in He. unfold bind.
    by rewrite (synthesisStep_throw _ _ _ _ He).
  - destruct responses as [|r responses]; [done|].
    destruct Hans as [Hd Hans]. simpl. unfold bind.
    rewrite (synthesisStep_ok _ _ _ _ Hd).
    rewrite (IH _ _ responses Hans).
    + by rewrite <- app_assoc.
    + simpl in He. by rewrite <- app_assoc.
Qed.

(** When every call succeeds the steps run in the order of the
    pattern and their results are combined. *)
Lemma synthesisLoop_all_answered (models : list PerplexityModel) :
  forall (results : list ModelResult) (sent : Net)
         (responses : list PerplexityResponse),
    answers service query systemPrompt sent models responses ->
    synthesisLoop service query systemPrompt models results sent =
    (Ok (results ++ zip_with stepResult models responses),
     sent ++ map request models).
Proof.
  induction models as [|d models IH]; intros results sent responses Hans.
  - destruct responses; [|done]. simpl. unfold ret. by rewrite !app_nil_r.
  - destruct responses as [|r responses]; [done|].
    destruct Hans as [Hd Hans]. simpl. unfold bind.
    rewrite (synthesisStep_ok _ _ _ _ Hd), (IH _ _ responses Hans).
    by rewrite <- !app_assoc.
Qed.

Lemma synthesize_all_answered (pattern : SynthesisPattern) (sent : Net)
    (responses : list PerplexityResponse) :
  answers service query systemPrompt sent (getModelsForPattern pattern) responses ->
  synthesize significantVariance service query pattern systemPrompt sent =
  (Ok (combineResults significantVariance query
         (zip_with stepResult (getModelsForPattern pattern) responses) pattern),
   sent ++ map request (getModelsForPattern pattern)).
Proof.
  intros Hans. unfold synthesize, bind.
  by rewrite (synthesisLoop_all_answered _ [] sent responses Hans).
Qed.

(** C6. [synthesize] runs the steps of its pattern one after the
    other and stops at the first that fails: when the calls for the
    steps [finished] are answered and the call for the next step [m]
    raises [e], [synthesize] raises [e], no [SynthesisResult] is
    returned, and the requests sent are those of [finished] and [m],
    in that order: no step of [later] is called. *)
Theorem synthesize_propagates_first_failure (pattern : SynthesisPattern)
    (finished later : list PerplexityModel) (m : PerplexityModel)
    (responses : list PerplexityResponse) (e : Exn) (sent : Net) :
  getModelsForPattern pattern = finished ++ m :: later ->
  answers service query systemPrompt sent finished responses ->
  fst (search service query m (stepOptions systemPrompt)
         (sent ++ map request finished)) = Throw e ->
  synthesize significantVariance service query pattern systemPrompt sent =
  (Throw e, sent ++ map request (finished ++ [m])).
Proof.
  intros Hmodels Hans He. unfold synthesize, bind. rewrite Hmodels.
  by rewrite (synthesisLoop_first_failure m later e finished [] sent responses).
Qed.

End SynthesisFailure.

Lemma synthesize_propagates_first_failure_witness :
  Synthesis.synthesize Synthesis.exactVariance secondCallFails
    "is tea healthy" Synthesis.Truthtracer None [] =
  (Throw (Error "Network error calling Perplexity API: socket hang up"),
   [ stepRequest "is tea healthy" None SonarPro;
     stepRequest "is tea healthy" None SonarReasoningPro ]).
Proof.
  apply (synthesize_propagates_first_failure Synthesis.exactVariance
           secondCallFails "is tea healthy" None Synthesis.Truthtracer
           [SonarPro] [SonarDeepResearch] SonarReasoningPro
           [answer "Tea is a drink." ["https://tea.example"]]).
  - reflexivity.
  - simpl. split; reflexivity.
  - reflexivity.
Defined.

(** ** Model selection *)

Section ModelSelection.
Import JS Client.

Lemma toLowerCaseUnit_whiteSpace (c : ascii) :
  isWhiteSpace (toLowerCaseUnit c) = isWhiteSpace c.
Proof. by destruct c as [[] [] [] [] [] [] [] []]. Qed.

Lemma startsWith_toLowerCase (p : string) :
  forall s, startsWith s p = true ->
            startsWith (toLowerCase s) (toLowerCase p) = true.
Proof.
  induction p as [|a p IH]; intros s H; [reflexivity|].
  destruct s as [|b s]; simpl in *; [done|].
  apply andb_true_iff in H as [Hab Hs]. apply Ascii.eqb_eq in Hab as ->.
  by rewrite Ascii.eqb_refl, IH.
Qed.

Lemma includes_toLowerCase (s p : string) :
  includes s p = true -> includes (toLowerCase s) (toLowerCase p) = true.
Proof.
  induction s as [|c s IH]; intros H.
  - cbn [includes] in *. apply orb_true_iff in H as [H|H]; [|done].
    apply (startsWith_toLowerCase p EmptyString) in H.
    cbn [toLowerCase includes] in *. by rewrite H.
  - cbn [includes] in H. apply orb_true_iff in H as [H|H].
    + apply (startsWith_toLowerCase p (String c s)) in H.
      cbn [toLowerCase includes] in *. by rewrite H.
    + cbn [toLowerCase includes]. rewrite (IH H). apply orb_true_r.
Qed.

(** The number of words does not depend on the case of the letters. *)
Lemma splitWhiteSpaceGo_toLowerCase_length (s : string) :
  forall inRun,
    List.length (splitWhiteSpaceGo (toLowerCase s) inRun) =
    List.length (splitWhiteSpaceGo s inRun).
Proof.
  induction s as [|c s IH]; intros inRun; [done|]. simpl.
  rewrite toLowerCaseUnit_whiteSpace.
  destruct (isWhiteSpace c).
  - destruct inRun; simpl; by rewrite IH.
  - specialize (IH false).
    destruct (splitWhiteSpaceGo (toLowerCase s) false),
             (splitWhiteSpaceGo s false); simpl in *; congruence.
Qed.

Lemma analyzeQueryForModel_by_priority (query : string) :
  recommended (analyzeQueryForModel query) = modelByPriority query.
Proof.
  unfold analyzeQueryForModel, modelByPriority, shortLookup, mentionsAny,
    deepResearchPhrases, reasoningPhrases, lookupPhrases, mentions.
  cbn [existsb]. rewrite !orb_false_r, <- !orb_assoc.
  set (ql := toLowerCase query).
  destruct (includes ql "comprehensive" || _); [done|].
  destruct (includes ql "why" || _); [done|].
  assert (Hswap : forall a b c d e f g : bool,
             (a || (b || (c || (d || (e || (f || g)))))) =
             (a || (b || (c || (d || (f || (g || e)))))))
    by (intros [] [] [] [] [] [] []; reflexivity).
  rewrite Hswap.
  by destruct (_ && _).
Qed.

(** C4. [analyzeQueryForModel] is a function of the query with its
    letters lowered, and it tries its rules in a fixed order: the
    phrases of deep research, then those of reasoning, then the short
    lookup, then the reasoning model.  So a query that contains a
    phrase of the first rule and a phrase of the second is given the
    deep-research model, not the reasoning model. *)
Theorem analyzeQueryForModel_priority (query : string) :
  recommended (analyzeQueryForModel query) = modelByPriority query
  /\ (forall query',
        toLowerCase query' = toLowerCase query ->
        analyzeQueryForModel query' = analyzeQueryForModel query)
  /\ (forall deep reasoning,
        deep ∈ deepResearchPhrases -> reasoning ∈ reasoningPhrases ->
        includes query deep = true \/ mentions query deep = true ->
        includes query reasoning = true \/ mentions query reasoning = true ->
        recommended (analyzeQueryForModel query) = SonarDeepResearch
        /\ recommended (analyzeQueryForModel query) <> SonarReasoningPro).
Proof.
  split; [apply analyzeQueryForModel_by_priority|]. split.
  - intros query' Hlow. unfold analyzeQueryForModel. rewrite Hlow.
    replace (List.length (splitWhiteSpace query'))
      with (List.length (splitWhiteSpace query)); [done|].
    unfold splitWhiteSpace.
    rewrite <- (splitWhiteSpaceGo_toLowerCase_length query),
            <- (splitWhiteSpaceGo_toLowerCase_length query').
    by rewrite Hlow.
  - intros deep reasoning Hdeep _ Hd _.
    assert (Hm : mentions query deep = true).
    { destruct Hd as [Hd|Hd]; [|done]. unfold mentions.
      replace deep with (toLowerCase deep); [by apply includes_toLowerCase|].
      unfold deepResearchPhrases in Hdeep.
      repeat (apply elem_of_cons in Hdeep as [->|Hdeep]; [done|]).
      by apply elem_of_nil in Hdeep. }
    assert (Hany : mentionsAny query deepResearchPhrases = true).
    { apply existsb_exists. exists deep. split; [|done].
      by apply list_elem_of_In. }
    rewrite analyzeQueryForModel_by_priority. unfold modelByPriority.
    by rewrite Hany.
Qed.

Lemma analyzeQueryForModel_priority_witness :
  recommended (analyzeQueryForModel marketQuery) = SonarDeepResearch
  /\ recommended (analyzeQueryForModel marketQuery) <> SonarReasoningPro.
Proof.
  apply (proj2 (proj2 (analyzeQueryForModel_priority marketQuery))
           "comprehensive" "why").
  - by left.
  - by left.
  - left. reflexivity.
  - left. reflexivity.
Defined.

End ModelSelection.

(** ** File names *)

Section Filenames.
Import JS Store.

(** C3, at the query [marketsQuery]: the code trims the hyphens and
    truncates afterwards, so the slug of [generateFilename] ends with
    the hyphen that stood at its fiftieth place. *)
Theorem generateFilename_slug_ends_with_hyphen (host : Host) (w : World) :
  sanitize marketsQuery 50 =
    "comprehensive-analysis-of-why-the-markets-crashed-"
  /\ endsWith (sanitize marketsQuery 50) "-" = true
  /\ fst (generateFilename host marketsQuery w) =
     Ok ("comprehensive-analysis-of-why-the-markets-crashed-"
           +:+ "-" +:+ isoDate (clock host (dates w)) +:+ ".md").
Proof. repeat split. Qed.

End Filenames.

(** ** What holds of every slug *)

Section Slugs.
Import JS Store.

Lemma alnum_not_hyphen (c : ascii) :
  isLowerAlnum c = true -> Ascii.eqb c "-" = false.
Proof.
  intros H. destruct (Ascii.eqb_spec c "-") as [->|]; [discriminate H|done].
Qed.

Lemma startsWith_take (t : string) :
  forall n s, startsWith (take n s) t = true -> startsWith s t = true.
Proof.
  induction t as [|a t IH]; intros n s H; [done|].
  destruct n as [|n], s as [|b s]; try done. simpl in *.
  apply andb_true_iff in H as [-> H]. by rewrite (IH n s H).
Qed.

Lemma includes_take (t : string) (n : nat) (s : string) :
  includes (take n s) t = true -> includes s t = true.
Proof.
  revert n. induction s as [|c s IH]; intros n H.
  - by destruct n.
  - destruct n as [|n].
    + cbn [take includes] in H. rewrite orb_false_r in H.
      destruct t; [done|discriminate H].
    + cbn [take includes] in *. apply orb_true_iff in H as [H|H].
      * apply (startsWith_take t (S n) (String c s)) in H. by rewrite H.
      * rewrite (IH n H). apply orb_true_r.
Qed.

Lemma allChars_take (p : ascii -> bool) (n : nat) :
  forall s, allChars p s = true -> allChars p (take n s) = true.
Proof.
  induction n as [|n IH]; intros [|c s] H; try done. simpl in *.
  apply andb_true_iff in H as [-> H]. by rewrite IH.
Qed.

Lemma length_take_le (n : nat) :
  forall s, String.length (take n s) <= n.
Proof.
  induction n as [|n IH]; intros [|c s]; simpl; try lia.
  specialize (IH s). lia.
Qed.

Lemma take_all (n : nat) :
  forall s, String.length s <= n -> take n s = s.
Proof.
  induction n as [|n IH]; intros [|c s] H; simpl in *; try done; [lia|].
  rewrite IH; [done|lia].
Qed.

Lemma dropTrailingHyphen_take (s : string) :
  exists k, dropTrailingHyphen s = take k s.
Proof.
  induction s as [|c s [k IH]]; [by exists 0|]. simpl.
  destruct (Ascii.eqb c "-" && isEmpty s); [by exists 0|].
  exists (S k). simpl. by rewrite IH.
Qed.

(** [hyphenate] keeps the letters and digits, writes hyphens for the
    rest, and never two of them in a row. *)
Lemma hyphenate_chars (s : string) :
  forall inRun, allChars isSlugChar (hyphenate s inRun) = true.
Proof.
  induction s as [|c s IH]; intros inRun; [done|]. simpl.
  destruct (isLowerAlnum c) eqn:Hc.
  - simpl. unfold isSlugChar at 1. by rewrite Hc, IH.
  - destruct inRun; [apply IH|]. simpl. apply IH.
Qed.

Lemma hyphenate_keeps_alnum (s : string) :
  forall inRun,
    keepChars isLowerAlnum (hyphenate s inRun) = keepChars isLowerAlnum s.
Proof.
  induction s as [|c s IH]; intros inRun; [done|]. simpl.
  destruct (isLowerAlnum c) eqn:Hc.
  - simpl. by rewrite Hc, IH.
  - destruct inRun; [apply IH|]. simpl. apply IH.
Qed.

Lemma hyphenate_no_run (s : string) :
  forall inRun,
    includes (hyphenate s inRun) "--" = false
    /\ (inRun = true -> startsWith (hyphenate s inRun) "-" = false).
Proof.
  induction s as [|c s IH]; intros inRun; [by destruct inRun|].
  cbn [hyphenate]. destruct (isLowerAlnum c) eqn:Hc.
  - destruct (IH false) as [IH1 _].
    assert (Hne : Ascii.eqb "-" c = false)
      by (rewrite Ascii.eqb_sym; by apply alnum_not_hyphen).
    cbn [includes startsWith]. rewrite IH1, Hne. by split.
  - destruct (IH true) as [IH1 IH2]. destruct inRun; [by split; auto|].
    split; [|done]. cbn [includes]. rewrite IH1, orb_false_r.
    cbn [startsWith]. rewrite Ascii.eqb_refl. cbn [andb].
    specialize (IH2 eq_refl). by destruct (hyphenate s true).
Qed.

Lemma dropLeadingHyphen_shape (h : string) :
  includes h "--" = false ->
  includes (dropLeadingHyphen h) "--" = false
  /\ startsWith (dropLeadingHyphen h) "-" = false
  /\ (forall p, allChars p h = true -> allChars p (dropLeadingHyphen h) = true).
Proof.
  destruct h as [|c h]; [done|]. intros H. cbn [includes] in H.
  apply orb_false_iff in H as [Hstart Hrest]. cbn [dropLeadingHyphen].
  destruct (Ascii.eqb_spec c "-") as [->|Hc].
  - split; [done|]. split.
    + cbn [startsWith] in Hstart. by rewrite Ascii.eqb_refl in Hstart.
    + intros p Hp. cbn [allChars] in Hp. by apply andb_true_iff in Hp as [_ Hp].
  - split; [cbn [includes]; by rewrite Hstart, Hrest|]. split; [|done].
    cbn [startsWith].
    assert (Ascii.eqb "-" c = false) as -> by (apply Ascii.eqb_neq; congruence).
    done.
Qed.

Lemma endsWith_lastIs (c : ascii) (s : string) :
  endsWith s (String c EmptyString) = lastIs c s.
Proof.
  unfold endsWith. cbn [rev_app].
  assert (H : forall acc,
             startsWith (rev_app s acc) (String c EmptyString) =
             if isEmpty s then startsWith acc (String c EmptyString)
             else lastIs c s).
  { induction s as [|a s IH]; intros acc; [done|]. cbn [rev_app isEmpty lastIs].
    rewrite IH. destruct s; [|done]. simpl. by rewrite andb_true_r. }
  rewrite H. by destruct s.
Qed.

Lemma dropTrailingHyphen_empty (s : string) :
  dropTrailingHyphen s = EmptyString -> s = EmptyString \/ s = "-".
Proof.
  destruct s as [|c s]; [by left|]. simpl.
  destruct (Ascii.eqb_spec c "-") as [->|]; destruct s; simpl; try done.
  by right.
Qed.

Lemma dropTrailingHyphen_last (s : string) :
  includes s "--" = false -> lastIs "-" (dropTrailingHyphen s) = false.
Proof.
  induction s as [|c s IH]; [done|]. intros H. cbn [includes] in H.
  apply orb_false_iff in H as [Hstart Hrest]. specialize (IH Hrest).
  cbn [dropTrailingHyphen].
  destruct (Ascii.eqb c "-" && isEmpty s) eqn:Hlast; [done|].
  cbn [lastIs]. destruct (dropTrailingHyphen s) eqn:Hd; [|done].
  cbn [isEmpty]. rewrite Ascii.eqb_sym.
  destruct (dropTrailingHyphen_empty s Hd) as [->| ->].
  - by rewrite andb_true_r in Hlast.
  - simpl in Hstart. destruct (Ascii.eqb_spec "-" c) as [<-|Hc]; [done|].
    rewrite Ascii.eqb_sym. by apply Ascii.eqb_neq.
Qed.

(** The part of C3 the code keeps.  A file name depends on the query
    and on the date alone and ends with [-<date>.md]; its slug has at
    most 50 characters, all of them lower-case letters, digits and
    hyphens; it holds the letters and digits of the lowered query in
    their order; no two hyphens follow each other, and none stands
    first.  None stands last either when nothing was cut off. *)
Lemma sanitize_shape (topic : string) (n : nat) :
  let slug := sanitize topic n in
  String.length slug <= n
  /\ allChars isSlugChar slug = true
  /\ includes slug "--" = false
  /\ startsWith slug "-" = false
  /\ (String.length (trimHyphens (hyphenate (toLowerCase topic) false)) <= n ->
      endsWith slug "-" = false
      /\ keepChars isLowerAlnum slug = keepChars isLowerAlnum (toLowerCase topic)).
Proof.
  intros slug. subst slug. unfold sanitize, substring. cbn [Nat.max Nat.min drop].
  rewrite Nat.sub_0_r.
  set (h := hyphenate (toLowerCase topic) false).
  destruct (hyphenate_no_run (toLowerCase topic) false) as [Hrun _]. fold h in Hrun.
  destruct (dropLeadingHyphen_shape h Hrun) as (Hrun' & Hfirst & Hchars).
  unfold trimHyphens.
  destruct (dropTrailingHyphen_take (dropLeadingHyphen h)) as [k Hk].
  split; [apply length_take_le|]. split.
  { apply allChars_take. rewrite Hk. apply allChars_take, Hchars, hyphenate_chars. }
  split.
  { destruct (includes (take n _) "--") eqn:H; [|done].
    apply includes_take in H. rewrite Hk in H. apply includes_take in H.
    by rewrite H in Hrun'. }
  split.
  { destruct (startsWith (take n _) "-") eqn:H; [|done].
    apply startsWith_take in H. rewrite Hk in H. apply startsWith_take in H.
    by rewrite H in Hfirst. }
  intros Hlen. rewrite take_all by done. split.
  - rewrite endsWith_lastIs. by apply dropTrailingHyphen_last.
  - rewrite <- (hyphenate_keeps_alnum (toLowerCase topic) false). fold h.
    clear. generalize h. intros s.
    assert (Hlead : keepChars isLowerAlnum (dropLeadingHyphen s)
                    = keepChars isLowerAlnum s).
    { destruct s as [|c s]; [done|]. simpl.
      destruct (Ascii.eqb_spec c "-") as [->|]; [done|done]. }
    rewrite <- Hlead. generalize (dropLeadingHyphen s). clear. intros s.
    induction s as [|c s IH]; [done|]. simpl.
    destruct (Ascii.eqb_spec c "-") as [->|]; destruct s; simpl in *;
      try done; by rewrite IH.
Qed.

Lemma generateFilename_deterministic (host : Host) (topic : string) (w : World) :
  fst (generateFilename host topic w) =
  Ok (sanitize topic 50 +:+ "-" +:+ isoDate (clock host (dates w)) +:+ ".md").
Proof. reflexivity. Qed.

End Slugs.

(** ** One run of [saveResearch] *)

Section SaveRun.
Import JS Store.

Variable host : Host.

Lemma saveRawResponse_run (query : string) (response : PerplexityResponse)
    (m : PerplexityModel) (w : World) :
  saveRawResponse host query response m w =
  if writable host (InRawDir (rawBackupName host query w))
  then (Ok (rawBackupName host query w),
        store (rawBackup host query response m w) (ticks 2 w))
  else (Throw (SystemError "open"
                 (pathName (InRawDir (rawBackupName host query w)))),
        ticks 2 w).
Proof.
  cbv [saveRawResponse generateTimestamp bind ret newDate writeFileSync target].
  fold (rawBackupName host query w).
  cbn [tick dates]. fold (rawBackup host query response m w).
  by destruct (writable host (InRawDir (rawBackupName host query w))).
Qed.

Lemma saveResearch_run (query : string) (response : PerplexityResponse)
    (m : PerplexityModel)
    (systemPrompt modelRationale approvedPlan : option string) (w : World) :
  let rawPath := InRawDir (rawBackupName host query w) in
  let name := threadName host query w in
  let w2 := store (rawBackup host query response m w) (ticks 2 w) in
  saveResearch host query response m systemPrompt modelRationale approvedPlan w =
  if negb (writable host rawPath) then
    (Throw (SystemError "open" (pathName rawPath)), ticks 2 w)
  else
    match researchDir w !! name with
    | Some Directory => (Throw (SystemError "read" name), ticks 2 w2)
    | existing =>
        let existing :=
          match existing with
          | Some (File text) => Some text
          | _ => None
          end in
        if writable host (InResearchDir name)
        then (Ok (InResearchDir name),
              store (WriteThread name
                       (threadText host query response m systemPrompt
                          modelRationale approvedPlan w existing))
                    (ticks 3 w2))
        else (Throw (SystemError "open" name), ticks 3 w2)
    end.
Proof.
  intros rawPath name w2.
  unfold saveResearch. unfold bind at 1. rewrite saveRawResponse_run.
  fold rawPath. destruct (writable host rawPath) eqn:Hraw; [|done].
  fold w2. cbn [negb].
  cbv [bind ret generateFilename formatDualTimestamp newDate
       countQueriesInThread existsSync readFileSync generateSynthesisSection
       writeFileSync target pathName].
  change (dates w2) with (2 + dates w).
  change (dates (tick w2)) with (3 + dates w).
  fold (threadName host query w). fold name.
  fold (rawBackupName host query w).
  destruct (researchDir w !! name) as [[text|]|] eqn:Hname;
    repeat first
      [ rewrite Hname
      | rewrite bool_decide_eq_true_2 by eauto
      | rewrite bool_decide_eq_false_2 by (intros [? ?]; congruence)
      | progress cbn [negb]
      | progress cbv beta iota zeta
      | progress change (researchDir (tick ?x)) with (researchDir x)
      | progress change (researchDir w2) with (researchDir w) ];
    try done;
    by destruct (writable host (InResearchDir name)).
Qed.

(** A save leaves the other threads of the directory alone. *)
Lemma saveResearch_other_threads (query : string)
    (response : PerplexityResponse) (m : PerplexityModel)
    (systemPrompt modelRationale approvedPlan : option string) (w : World)
    (other : string) :
  other <> threadName host query w ->
  researchDir (snd (saveResearch host query response m
                      systemPrompt modelRationale approvedPlan w)) !! other
  = researchDir w !! other.
Proof.
  intros Hother. rewrite saveResearch_run.
  destruct (writable host (InRawDir (rawBackupName host query w)));
    cbn [negb]; [|done].
  destruct (researchDir w !! threadName host query w) as [[text|]|];
    try done;
    (destruct (writable host (InResearchDir (threadName host query w)));
     [|done]; cbn; by rewrite lookup_insert_ne).
Qed.

(** The thread after a save that succeeds: what [threadText] makes of
    the thread before. *)
Lemma saveResearch_thread_text (query : string)
    (response : PerplexityResponse) (m : PerplexityModel)
    (systemPrompt modelRationale approvedPlan : option string) (w : World) :
  (forall p, writable host p = true) ->
  researchDir w !! threadName host query w <> Some Directory ->
  let run := saveResearch host query response m
               systemPrompt modelRationale approvedPlan w in
  fst run = Ok (InResearchDir (threadName host query w))
  /\ researchDir (snd run) !! threadName host query w =
     Some (File (threadText host query response m systemPrompt modelRationale
                   approvedPlan w
                   match researchDir w !! threadName host query w with
                   | Some (File text) => Some text
                   | _ => None
                   end)).
Proof.
  intros Hw Hdir run. subst run. rewrite saveResearch_run, !Hw. cbn [negb].
  destruct (researchDir w !! threadName host query w) as [[text|]|];
    try done; cbn; by rewrite lookup_insert_eq.
Qed.


End SaveRun.

(** ** Appending to a thread *)

Section Appending.
Import JS Store.

(** What an append keeps of a thread: all of it when the marker does
    not occur, and otherwise what stands before the first occurrence of
    the marker, wherever that is. *)
Lemma withoutSynthesis_cut (text : string) :
  (indexOf text synthesisMarker = (-1)%Z -> withoutSynthesis text = text)
  /\ (forall i : nat,
        indexOf text synthesisMarker = Z.of_nat i ->
        withoutSynthesis text = trimEnd (take i text) +:+ nl +:+ nl).
Proof.
  unfold withoutSynthesis. cbv zeta. split.
  - by intros ->.
  - intros i ->. destruct (Z.eqb_spec (Z.of_nat i) (-1)); [lia|].
    cbn [negb]. unfold substring.
    rewrite Nat2Z.id, Nat.max_0_l, Nat.min_0_l, Nat.sub_0_r.
    by destruct text.
Qed.

(** C1, at two saves of the tool [deep_research] for one query on one
    day.  The summary saved as findings begins with the words
    [## Synthesis Summary]; the second save looks for the first
    [## Synthesis] of the thread, finds it inside the first entry,
    and cuts the thread there: both headers are in the thread, the
    first entry is not. *)
Theorem saveResearch_second_save_cuts_first_entry :
  fst (saveTea emptyWorld) = Ok (InResearchDir teaThread)
  /\ fst (saveTea afterFirstTea) = Ok (InResearchDir teaThread)
  /\ includes (threadOf afterFirstTea teaThread) firstTeaEntry = true
  /\ (indexOf (threadOf afterFirstTea teaThread) synthesisMarker
      <? indexOf (threadOf afterFirstTea teaThread) "## Synthesis (Updated:")%Z
     = true
  /\ includes (threadOf afterSecondTea teaThread) firstTeaEntry = false
  /\ countQueryHeaders (threadOf afterSecondTea teaThread) = 2.
Proof. vm_compute. repeat split. Qed.

(** The same defect in the numbering: the headers are counted with
    [/^## Query \d+:/gm] over the whole thread, so a header quoted in
    the findings of the first entry is counted, and the second entry is
    numbered 3. *)
Lemma saveResearch_counts_quoted_header :
  countQueryHeaders (threadOf afterFirstQuote quoteThread) = 2
  /\ includes (threadOf afterSecondQuote quoteThread)
       ("## Query 3: is tea healthy" +:+ nl) = true
  /\ includes (threadOf afterSecondQuote quoteThread)
       ("## Query 2: is tea healthy" +:+ nl) = false.
Proof. vm_compute. repeat split. Qed.

End Appending.

(** ** Searching the threads *)

Section StringFacts.
Import JS.

Lemma anyChar_app (p : ascii -> bool) (a b : string) :
  anyChar p (a +:+ b) = anyChar p a || anyChar p b.
Proof.
  induction a as [|c a IH]; [done|]. simpl. by rewrite IH, orb_assoc.
Qed.

Lemma startsWith_anyChar (p : ascii -> bool) (t : string) :
  forall s, startsWith s t = true -> anyChar p t = true -> anyChar p s = true.
Proof.
  induction t as [|a t IH]; intros s Hs Ht; [done|].
  destruct s as [|b s]; [done|]. simpl in *.
  apply andb_true_iff in Hs as [Hab Hs]. apply Ascii.eqb_eq in Hab as ->.
  apply orb_true_iff in Ht as [Ht|Ht]; [by rewrite Ht|].
  rewrite (IH s Hs Ht). apply orb_true_r.
Qed.

Lemma includes_anyChar (p : ascii -> bool) (s t : string) :
  includes s t = true -> anyChar p t = true -> anyChar p s = true.
Proof.
  induction s as [|c s IH]; intros Hs Ht; cbn [includes] in Hs;
    apply orb_true_iff in Hs as [Hs|Hs];
    eauto using startsWith_anyChar; try done.
  simpl. rewrite (IH Hs Ht). apply orb_true_r.
Qed.

Lemma includes_empty (s : string) : includes s EmptyString = true.
Proof. by destruct s. Qed.

Lemma toLowerCase_anyChar (p : ascii -> bool) (s : string) :
  (forall c, p (toLowerCaseUnit c) = p c) ->
  anyChar p (toLowerCase s) = anyChar p s.
Proof.
  intros Hp. induction s as [|c s IH]; [done|]. simpl. by rewrite Hp, IH.
Qed.

Lemma toLowerCaseUnit_LF (c : ascii) :
  Ascii.eqb LF (toLowerCaseUnit c) = Ascii.eqb LF c.
Proof. by destruct c as [[] [] [] [] [] [] [] []]. Qed.

Lemma toLowerCase_notBlank (s : string) :
  notBlank (toLowerCase s) = notBlank s.
Proof.
  apply toLowerCase_anyChar. intros c. by rewrite toLowerCaseUnit_whiteSpace.
Qed.

(** [trim] leaves nothing exactly of the blank texts. *)
Lemma trimStart_notBlank (s : string) : notBlank (trimStart s) = notBlank s.
Proof.
  unfold notBlank in *. induction s as [|c s IH]; [done|]. simpl.
  destruct (isWhiteSpace c) eqn:Hc; [by rewrite IH|].
  simpl. by rewrite Hc.
Qed.

Lemma trimEnd_isEmpty (s : string) : isEmpty (trimEnd s) = negb (notBlank s).
Proof.
  induction s as [|c s IH]; [done|]. cbn [trimEnd].
  unfold notBlank in *. cbn [anyChar]. rewrite negb_orb, negb_involutive, <- IH.
  by destruct (isWhiteSpace c), (isEmpty (trimEnd s)).
Qed.

Lemma trim_isEmpty (s : string) : isEmpty (trim s) = negb (notBlank s).
Proof. unfold trim. by rewrite trimEnd_isEmpty, trimStart_notBlank. Qed.

(** The pieces of [splitBy]. *)
Lemma splitBy_cons (isSep : ascii -> bool) (s : string) :
  exists h t, splitBy isSep s = h :: t.
Proof.
  induction s as [|c s (h & t & IH)]; simpl; [by eauto|].
  destruct (isSep c); [by eauto|]. rewrite IH. by eauto.
Qed.

Lemma splitBy_anyChar_piece (isSep p : ascii -> bool) (s : string) :
  forall piece, piece ∈ splitBy isSep s -> anyChar p piece = true ->
                anyChar p s = true.
Proof.
  induction s as [|c s IH]; intros piece Hin Hp; simpl in *.
  - apply list_elem_of_singleton in Hin as ->. done.
  - destruct (isSep c).
    + apply elem_of_cons in Hin as [->|Hin]; [done|].
      rewrite (IH piece Hin Hp). apply orb_true_r.
    + destruct (splitBy_cons isSep s) as (h & t & Hs). rewrite Hs in *.
      apply elem_of_cons in Hin as [->|Hin].
      * simpl in Hp. apply orb_true_iff in Hp as [Hp|Hp]; [by rewrite Hp|].
        rewrite (IH h) by (done || by left). apply orb_true_r.
      * rewrite (IH piece) by (done || by right). apply orb_true_r.
Qed.

Lemma anyChar_splitBy_piece (isSep p : ascii -> bool) (s : string) :
  (forall c, isSep c = true -> p c = false) ->
  anyChar p s = true ->
  exists piece, piece ∈ splitBy isSep s /\ anyChar p piece = true.
Proof.
  intros Hsep. induction s as [|c s IH]; intros Hp; [done|]. simpl in *.
  destruct (splitBy_cons isSep s) as (h & t & Hs).
  destruct (isSep c) eqn:Hc.
  - rewrite (Hsep c Hc) in Hp. destruct (IH Hp) as (piece & Hin & Hpiece).
    exists piece. split; [by right|done].
  - rewrite Hs in *. apply orb_true_iff in Hp as [Hp|Hp].
    + exists (String c h). split; [by left|]. simpl. by rewrite Hp.
    + destruct (IH Hp) as (piece & Hin & Hpiece).
      apply elem_of_cons in Hin as [->|Hin].
      * exists (String c h). split; [by left|]. simpl. rewrite Hpiece.
        apply orb_true_r.
      * exists piece. split; [by right|done].
Qed.

(** A text without separator found in [s] is found in one piece. *)
Lemma startsWith_first_piece (isSep : ascii -> bool) (t : string) :
  forall s, startsWith s t = true -> anyChar isSep t = false ->
            startsWith (hd EmptyString (splitBy isSep s)) t = true.
Proof.
  induction t as [|a t IH]; intros s Hs Ht; [done|].
  destruct s as [|b s]; [done|]. simpl in *.
  apply andb_true_iff in Hs as [Hab Hs]. apply Ascii.eqb_eq in Hab as <-.
  apply orb_false_iff in Ht as [Ha Ht]. rewrite Ha.
  specialize (IH s Hs Ht).
  destruct (splitBy_cons isSep s) as (h & tl & Hsplit). rewrite Hsplit in *.
  simpl in *. by rewrite Ascii.eqb_refl, IH.
Qed.

Lemma includes_piece (isSep : ascii -> bool) (t s : string) :
  includes s t = true -> anyChar isSep t = false ->
  exists piece, piece ∈ splitBy isSep s /\ includes piece t = true.
Proof.
  intros Hs Ht. induction s as [|c s IH].
  - exists EmptyString. split; [by left|done].
  - cbn [includes] in Hs. apply orb_true_iff in Hs as [Hs|Hs].
    + pose proof (startsWith_first_piece isSep t _ Hs Ht) as Hfirst.
      destruct (splitBy_cons isSep (String c s)) as (h & tl & Hsplit).
      rewrite Hsplit in *. exists h. split; [by left|].
      simpl in Hfirst. destruct h; cbn [includes]; by rewrite Hfirst.
    + destruct (IH Hs) as (piece & Hin & Hpiece). simpl.
      destruct (splitBy_cons isSep s) as (h & tl & Hsplit). rewrite Hsplit in *.
      destruct (isSep c).
      * exists piece. split; [by right|done].
      * apply elem_of_cons in Hin as [->|Hin].
        -- exists (String c h). split; [by left|].
           cbn [includes]. rewrite Hpiece. apply orb_true_r.
        -- exists piece. split; [by right|done].
Qed.

Lemma splitBy_toLowerCase (s : string) :
  split LF (toLowerCase s) = map toLowerCase (split LF s).
Proof.
  unfold split. induction s as [|c s IH]; [done|].
  cbn [splitBy toLowerCase map].
  rewrite toLowerCaseUnit_LF. destruct (Ascii.eqb LF c); [by rewrite IH|].
  rewrite IH. by destruct (splitBy (Ascii.eqb LF) s).
Qed.

(** The terms of [split(/\s+/)]. *)
Lemma splitWhiteSpaceGo_terms (s : string) :
  forall inRun,
    splitWhiteSpaceGo s inRun <> []
    /\ Forall (fun t => anyChar isWhiteSpace t = false)
              (splitWhiteSpaceGo s inRun).
Proof.
  induction s as [|c s IH]; intros inRun; simpl.
  - split; [done|]. by repeat constructor.
  - destruct (isWhiteSpace c) eqn:Hc.
    + destruct inRun; [apply IH|]. split; [done|].
      constructor; [done|apply IH].
    + destruct (IH false) as [Hne Hall].
      destruct (splitWhiteSpaceGo s false) as [|h t]; [done|].
      split; [done|]. inversion Hall; subst.
      constructor; [|done]. simpl. by rewrite Hc.
Qed.

Lemma splitWhiteSpaceGo_blank (s : string) :
  notBlank s = false ->
  forall inRun, Forall (fun t => t = EmptyString) (splitWhiteSpaceGo s inRun).
Proof.
  induction s as [|c s IH]; intros Hs inRun; simpl.
  - by repeat constructor.
  - unfold notBlank in Hs. simpl in Hs. apply orb_false_iff in Hs as [Hc Hs].
    apply negb_false_iff in Hc. rewrite Hc.
    destruct inRun; [by apply IH|]. constructor; [done|by apply IH].
Qed.

Lemma join_cons (sep x y : string) (l : list string) :
  join sep (x :: y :: l) = x +:+ sep +:+ join sep (y :: l).
Proof. reflexivity. Qed.

Lemma anyChar_join (p : ascii -> bool) (sep : string) (l : list string) :
  forall piece, piece ∈ l -> anyChar p piece = true ->
                anyChar p (join sep l) = true.
Proof.
  induction l as [|x l IH]; intros piece Hin Hp; [by apply elem_of_nil in Hin|].
  apply elem_of_cons in Hin as [->|Hin].
  - destruct l; simpl; [done|]. by rewrite anyChar_app, Hp.
  - destruct l as [|y l]; [by apply elem_of_nil in Hin|].
    rewrite join_cons, !anyChar_app, (IH piece Hin Hp). by rewrite !orb_true_r.
Qed.

Lemma join_anyChar (p : ascii -> bool) (sep : string) (l : list string) :
  anyChar p sep = false -> anyChar p (join sep l) = true ->
  exists piece, piece ∈ l /\ anyChar p piece = true.
Proof.
  intros Hsep. induction l as [|x l IH]; intros Hp; [done|].
  destruct l as [|y l].
  - exists x. split; [by left|done].
  - rewrite join_cons, !anyChar_app, Hsep in Hp. cbn [orb] in Hp.
    apply orb_true_iff in Hp as [Hp|Hp].
    + exists x. split; [by left|done].
    + destruct (IH Hp) as (piece & Hin & Hpiece).
      exists piece. split; [by right|done].
Qed.

End StringFacts.

Section SearchFacts.
Import JS Store.

Lemma firstOccurrences_nil (l : list string) :
  firstOccurrences l = [] <-> l = [].
Proof. by destruct l. Qed.

Lemma filter_unseen_drop (seen : list string) (x : string) (l : list string) :
  x ∈ seen ->
  filter (fun y => y ∉ seen) (filter (fun y => y <> x) l) =
  filter (fun y => y ∉ seen) l.
Proof.
  intros Hx. rewrite list_filter_filter. apply list_filter_iff.
  intros y. split; [tauto|]. intros Hy. split; [done|]. congruence.
Qed.

Lemma filter_unseen_snoc (seen : list string) (x : string) (l : list string) :
  filter (fun y => y ∉ seen ++ [x]) l =
  filter (fun y => y ∉ seen) (filter (fun y => y <> x) l).
Proof.
  rewrite list_filter_filter. apply list_filter_iff. intros y.
  rewrite not_elem_of_app, not_elem_of_cons. split; [tauto|].
  intros [? ?]. split; [done|]. split; [done|apply not_elem_of_nil].
Qed.

(** The loop over the lines collects the first occurrences of the
    candidate windows. *)
Lemma fold_scanLine (searchTerms lines : list string) (indices : list nat) :
  forall matchingLines,
    fold_left (scanLine searchTerms lines) indices matchingLines =
    matchingLines ++
    filter (fun y => y ∉ matchingLines)
      (firstOccurrences
         (List.filter (fun context => negb (isEmpty context))
            (map (contextAt lines)
               (List.filter (lineMatches searchTerms lines) indices)))).
Proof.
  induction indices as [|i indices IH]; intros acc.
  - simpl. by rewrite app_nil_r.
  - cbn [fold_left List.filter]. unfold scanLine at 2.
    fold (lineMatches searchTerms lines i).
    destruct (lineMatches searchTerms lines i); [|apply IH].
    cbn [map List.filter]. cbv zeta.
    destruct (isEmpty (contextAt lines i)); cbn [negb andb]; [apply IH|].
    destruct (bool_decide_reflect (contextAt lines i ∈ acc)) as [Hin|Hout];
      cbn [negb firstOccurrences]; rewrite IH.
    + rewrite filter_cons_False by tauto. by rewrite filter_unseen_drop.
    + rewrite filter_cons_True by done.
      by rewrite <- app_assoc, filter_unseen_snoc.
Qed.

Lemma matchingLinesOf_firstOccurrences (searchTerms : list string)
    (content : string) :
  matchingLinesOf searchTerms content =
  firstOccurrences (snippetCandidates searchTerms (split LF content)).
Proof.
  unfold matchingLinesOf. cbv zeta. rewrite fold_scanLine. cbn [app].
  unfold snippetCandidates.
  induction (firstOccurrences _) as [|y r IH]; [done|].
  rewrite filter_cons_True by apply not_elem_of_nil. by rewrite IH.
Qed.

Lemma snippetCandidates_elem (searchTerms lines : list string)
    (context : string) :
  In context (snippetCandidates searchTerms lines) <->
  exists i, i < List.length lines
            /\ lineMatches searchTerms lines i = true
            /\ context = contextAt lines i
            /\ isEmpty context = false.
Proof.
  unfold snippetCandidates. rewrite filter_In, in_map_iff. split.
  - intros [(i & <- & Hi) Hne]. apply filter_In in Hi as [Hi Hm].
    apply in_seq in Hi. exists i. rewrite negb_true_iff in Hne.
    repeat split; [lia|done|done].
  - intros (i & Hi & Hm & -> & Hne). split; [|by rewrite Hne].
    exists i. split; [done|]. apply filter_In. split; [|done].
    apply in_seq. lia.
Qed.

(** The window around a line holds the line, and lines only. *)
Lemma slice_window (lines : list string) (i : nat) (line : string) :
  lines !! i = Some line ->
  line ∈ slice lines (Nat.max 0 (i - 1)) (Nat.min (List.length lines) (i + 2)).
Proof.
  intros Hi. pose proof (lookup_lt_Some _ _ _ Hi) as Hlt.
  unfold slice. apply elem_of_take. exists (i - (i - 1)).
  rewrite lookup_drop. split; [|lia].
  rewrite <- Hi. f_equal. lia.
Qed.

Lemma slice_subseteq (lines : list string) (a b : nat) (line : string) :
  line ∈ slice lines a b -> line ∈ lines.
Proof.
  unfold slice. intros H. by apply subseteq_take, subseteq_drop in H.
Qed.

Lemma nl_blank : anyChar (fun c => negb (isWhiteSpace c)) nl = false.
Proof. reflexivity. Qed.

Lemma contextAt_notBlank (lines : list string) (i : nat) :
  isEmpty (contextAt lines i) = false <->
  exists line,
    line ∈ slice lines (Nat.max 0 (i - 1)) (Nat.min (List.length lines) (i + 2))
    /\ notBlank line = true.
Proof.
  unfold contextAt. cbv zeta. rewrite trim_isEmpty, negb_false_iff. split.
  - intros H. by apply join_anyChar in H.
  - intros (line & Hin & Hline). by apply (anyChar_join _ _ _ line).
Qed.

Lemma anyChar_mono (p q : ascii -> bool) (s : string) :
  (forall c, p c = true -> q c = true) ->
  anyChar q s = false -> anyChar p s = false.
Proof.
  intros Hpq. induction s as [|c s IH]; [done|]. simpl.
  intros [Hc Hs]%orb_false_iff. rewrite (IH Hs), orb_false_r.
  destruct (p c) eqn:Hp; [|done]. by rewrite (Hpq c Hp) in Hc.
Qed.

Lemma LF_whiteSpace (c : ascii) :
  Ascii.eqb LF c = true -> isWhiteSpace c = true.
Proof. intros H. by apply Ascii.eqb_eq in H as <-. Qed.

Lemma term_notBlank (t : string) :
  t <> EmptyString -> anyChar isWhiteSpace t = false -> notBlank t = true.
Proof.
  destruct t as [|c t]; [done|]. intros _ H. simpl in H.
  apply orb_false_iff in H as [Hc _]. unfold notBlank. simpl. by rewrite Hc.
Qed.

(** Which files yield a window: when every term is present, those
    that are not blank. *)
Lemma some_window_iff (searchTerms : list string) (content : string) :
  searchTerms <> [] ->
  Forall (fun t => anyChar isWhiteSpace t = false) searchTerms ->
  allTermsPresent searchTerms content = true ->
  (snippetCandidates searchTerms (split LF content) <> [] <->
   notBlank content = true).
Proof.
  intros Hne Hterms Hall. set (lines := split LF content).
  assert (Hcand : snippetCandidates searchTerms lines <> [] <->
                  exists i, i < List.length lines
                            /\ lineMatches searchTerms lines i = true
                            /\ isEmpty (contextAt lines i) = false).
  { split.
    - intros H. destruct (snippetCandidates searchTerms lines) as [|x r] eqn:Hx;
        [done|].
      assert (Hin : In x (snippetCandidates searchTerms lines))
        by (rewrite Hx; by left).
      apply snippetCandidates_elem in Hin as (i & ? & ? & -> & ?). eauto.
    - intros (i & Hi & Hm & Hc) Hnil.
      assert (Hin : In (contextAt lines i) (snippetCandidates searchTerms lines))
        by (apply snippetCandidates_elem; eauto 6).
      by rewrite Hnil in Hin. }
  rewrite Hcand. clear Hcand. split.
  - intros (i & _ & _ & Hc).
    apply contextAt_notBlank in Hc as (line & Hin & Hline).
    apply slice_subseteq in Hin.
    by apply (splitBy_anyChar_piece (Ascii.eqb LF) _ content line).
  - intros Hcontent.
    assert (Hline : exists i line term,
               lines !! i = Some line /\ notBlank line = true
               /\ term ∈ searchTerms
               /\ includes (toLowerCase line) term = true).
    { destruct (existsb (fun t => negb (isEmpty t)) searchTerms) eqn:Hsome.
      - apply existsb_exists in Hsome as (t & Ht & Hte).
        assert (t <> EmptyString) by (by destruct t).
        assert (Hws : anyChar isWhiteSpace t = false).
        { rewrite Forall_forall in Hterms. by apply Hterms, list_elem_of_In. }
        unfold allTermsPresent in Hall. cbv zeta in Hall.
        rewrite forallb_forall in Hall. specialize (Hall t Ht).
        apply (includes_piece (Ascii.eqb LF)) in Hall as (piece & Hin & Hp);
          [|by apply (anyChar_mono _ isWhiteSpace), Hws; apply LF_whiteSpace].
        fold (split LF (toLowerCase content)) in Hin.
        rewrite splitBy_toLowerCase in Hin. fold lines in Hin.
        apply list_elem_of_In, in_map_iff in Hin as (line & <- & Hin).
        apply list_elem_of_In, list_elem_of_lookup_1 in Hin as [i Hi].
        exists i, line, t. repeat split; [done| |by apply list_elem_of_In|done].
        rewrite <- toLowerCase_notBlank.
        apply (includes_anyChar _ _ t); [done|by apply term_notBlank].
      - destruct searchTerms as [|t0 rest]; [done|].
        assert (t0 = EmptyString) as ->.
        { simpl in Hsome. apply orb_false_iff in Hsome as [H0 _].
          by destruct t0. }
        apply (anyChar_splitBy_piece (Ascii.eqb LF)) in Hcontent
          as (line & Hin & Hline).
        2: { intros c Hc. by rewrite (LF_whiteSpace c Hc). }
        apply list_elem_of_lookup_1 in Hin as [i Hi].
        exists i, line, EmptyString.
        repeat split; [done|done|by left|apply includes_empty]. }
    destruct Hline as (i & line & term & Hi & Hline & Hterm & Hinc).
    exists i. split; [by apply lookup_lt_Some in Hi|]. split.
    + unfold lineMatches. apply existsb_exists. exists term.
      split; [by apply list_elem_of_In|].
      by rewrite (nth_lookup_Some _ _ _ _ Hi).
    + apply contextAt_notBlank. exists line. split; [|done].
      by apply slice_window.
Qed.

(** What the loop over the files makes of one file. *)
Lemma searchFile_hit (searchTerms : list string) (filename content : string) :
  searchTerms <> [] ->
  Forall (fun t => anyChar isWhiteSpace t = false) searchTerms ->
  searchFile searchTerms filename content =
  if allTermsPresent searchTerms content && notBlank content
  then Some {| hit_file := filename;
               hit_topic := topicOf filename content;
               hit_matches := snippets searchTerms content |}
  else None.
Proof.
  intros Hne Hterms. unfold searchFile.
  destruct (allTermsPresent searchTerms content) eqn:Hall; [|done].
  cbn [negb andb]. cbv zeta.
  rewrite matchingLinesOf_firstOccurrences.
  pose proof (some_window_iff searchTerms content Hne Hterms Hall) as Hiff.
  unfold snippets.
  destruct (snippetCandidates _ _) as [|x r]; destruct (notBlank content);
    try done.
  - destruct Hiff as [_ Hiff]. by destruct (Hiff eq_refl).
  - destruct Hiff as [Hiff _]. by discriminate Hiff.
Qed.

Lemma searchTermsOf_terms (keywords : string) :
  searchTermsOf keywords <> []
  /\ Forall (fun t => anyChar isWhiteSpace t = false) (searchTermsOf keywords).
Proof. apply splitWhiteSpaceGo_terms. Qed.

Lemma markdownFiles_elem (w : World) (name content : string) :
  (name, content) ∈ markdownFiles w <-> isThread w name content.
Proof.
  unfold markdownFiles, isThread. rewrite list_elem_of_omap. split.
  - intros ([n [c|]] & Hin & Hf); [|done].
    apply elem_of_map_to_list in Hin.
    destruct (endsWith n ".md") eqn:Hmd; [|done].
    by injection Hf as -> ->.
  - intros [Hfile Hmd]. exists (name, File content).
    split; [by apply elem_of_map_to_list|]. by rewrite Hmd.
Qed.

(** The hits of [searchResearch]. *)
Lemma searchResearch_elem (w : World) (keywords : string) (hit : SearchHit) :
  hit ∈ searchResearch w keywords <->
  exists content,
    isThread w (hit_file hit) content
    /\ allTermsPresent (searchTermsOf keywords) content = true
    /\ notBlank content = true
    /\ hit_topic hit = topicOf (hit_file hit) content
    /\ hit_matches hit = snippets (searchTermsOf keywords) content.
Proof.
  destruct (searchTermsOf_terms keywords) as [Hne Hterms].
  unfold searchResearch. cbv zeta. rewrite list_elem_of_omap. split.
  - intros ([name content] & Hin & Hhit). apply markdownFiles_elem in Hin.
    cbn [fst snd] in Hhit. rewrite searchFile_hit in Hhit by done.
    destruct (allTermsPresent _ content) eqn:Hall; [|done].
    destruct (notBlank content) eqn:Hnb; [|done].
    cbn [andb] in Hhit. injection Hhit as <-. exists content.
    cbn [hit_file hit_topic hit_matches]. split; [done|]. by repeat split.
  - intros (content & Hthread & Hall & Hnb & Htopic & Hmatches).
    exists (hit_file hit, content). split; [by apply markdownFiles_elem|].
    cbn [fst snd]. rewrite searchFile_hit, Hall, Hnb by done.
    destruct hit. simpl in *. by subst.
Qed.

Lemma snippets_shape (searchTerms : list string) (content : string) :
  List.length (snippets searchTerms content) <= 5
  /\ NoDup (snippets searchTerms content)
  /\ forall snippet,
       snippet ∈ snippets searchTerms content ->
       exists i,
         i < List.length (split LF content)
         /\ lineMatches searchTerms (split LF content) i = true
         /\ snippet = contextAt (split LF content) i
         /\ snippet <> EmptyString.
Proof.
  unfold snippets. split; [apply firstn_le_length|]. split.
  - eapply sublist_NoDup; [apply firstOccurrences_NoDup|apply sublist_take].
  - intros snippet Hin. apply subseteq_take in Hin.
    rewrite firstOccurrences_elem, list_elem_of_In in Hin.
    apply snippetCandidates_elem in Hin as (i & Hi & Hm & -> & Hne).
    exists i. repeat split; [done|done|]. intros Heq. by rewrite Heq in Hne.
Qed.

End SearchFacts.

Section SearchProperties.
Import JS Store.

Lemma allTermsPresent_forall (searchTerms : list string) (content : string) :
  allTermsPresent searchTerms content = true <->
  forall term, term ∈ searchTerms ->
               includes (toLowerCase content) term = true.
Proof.
  unfold allTermsPresent. cbv zeta. rewrite forallb_forall.
  split; intros H term Hin; apply H; by apply list_elem_of_In.
Qed.

(** A term that is not empty shows that the content is not blank. *)
Lemma present_term_notBlank (keywords content term : string) :
  term ∈ searchTermsOf keywords -> term <> EmptyString ->
  includes (toLowerCase content) term = true ->
  notBlank content = true.
Proof.
  intros Hin Hne Hinc.
  destruct (searchTermsOf_terms keywords) as [_ Hterms].
  rewrite Forall_forall in Hterms.
  rewrite <- toLowerCase_notBlank.
  apply (includes_anyChar _ _ term); [done|].
  apply term_notBlank; [done|]. by apply Hterms.
Qed.

(** C9, amended.  [searchResearch] splits the lowered keywords at the
    runs of white space and returns one hit for each thread file in
    whose content every term occurs, whatever the case and on
    whatever lines, and which is not blank; a file that is blank is
    never returned, and once a term is not empty the files returned
    are exactly those holding every term.  The snippets of a hit are
    one at least and five at most, without repetition, in the order of
    the file, and each is the trimmed window of a line holding a term,
    the line before and the line after. *)
Theorem searchResearch_every_term (w : World) (keywords : string) :
  let terms := splitWhiteSpace (toLowerCase keywords) in
  (forall hit,
     hit ∈ searchResearch w keywords <->
     exists content,
       isThread w (hit_file hit) content
       /\ (forall term, term ∈ terms ->
                        includes (toLowerCase content) term = true)
       /\ notBlank content = true
       /\ hit_topic hit = topicOf (hit_file hit) content
       /\ hit_matches hit = snippets terms content)
  /\ (forall name content,
        isThread w name content ->
        (exists term, term ∈ terms /\ term <> EmptyString) ->
        ((exists hit, hit ∈ searchResearch w keywords /\ hit_file hit = name)
         <-> forall term, term ∈ terms ->
                          includes (toLowerCase content) term = true))
  /\ (forall content,
        List.length (snippets terms content) <= 5
        /\ NoDup (snippets terms content)
        /\ forall snippet,
             snippet ∈ snippets terms content ->
             exists i,
               let lines := split LF content in
               i < List.length lines
               /\ (exists term,
                     term ∈ terms
                     /\ includes (toLowerCase (nth i lines EmptyString)) term
                        = true)
               /\ snippet =
                  trim (join nl (slice lines (Nat.max 0 (i - 1))
                                   (Nat.min (List.length lines) (i + 2)))))
  /\ (forall hit,
        hit ∈ searchResearch w keywords ->
        1 <= List.length (hit_matches hit) <= 5).
Proof.
  intros terms. split; [|split; [|split]].
  - intros hit. rewrite searchResearch_elem.
    by setoid_rewrite allTermsPresent_forall.
  - intros name content Hthread (term & Hterm & Hne). split.
    + intros (hit & Hhit & <-).
      apply searchResearch_elem in Hhit as (content' & [Hfile _] & Hall & _).
      destruct Hthread as [Hfile' _].
      assert (content' = content) as -> by congruence.
      by apply allTermsPresent_forall.
    + intros Hall.
      exists {| hit_file := name;
                hit_topic := topicOf name content;
                hit_matches := snippets terms content |}.
      split; [|done]. apply searchResearch_elem. exists content.
      cbn [hit_file hit_topic hit_matches].
      split; [done|]. split; [by apply allTermsPresent_forall|].
      split; [|done].
      by apply (present_term_notBlank keywords content term), Hall.
  - intros content.
    destruct (snippets_shape terms content) as (Hlen & Hnd & Hwin).
    split; [done|]. split; [done|].
    intros snippet Hin. destruct (Hwin snippet Hin) as (i & Hi & Hm & -> & _).
    exists i. cbv zeta. split; [done|]. split; [|done].
    unfold lineMatches in Hm. apply existsb_exists in Hm as (term & Ht & Hinc).
    exists term. split; [by apply list_elem_of_In|done].
  - intros hit Hhit.
    apply searchResearch_elem in Hhit as (content & _ & Hall & Hnb & _ & ->).
    destruct (searchTermsOf_terms keywords) as [Hne Hterms].
    split; [|apply snippets_shape].
    apply (some_window_iff _ content Hne Hterms Hall) in Hnb.
    unfold snippets.
    destruct (snippetCandidates _ _) as [|x r]; [done|]. simpl. lia.
Qed.

Lemma searchResearch_every_term_witness :
  exists hit, hit ∈ searchResearch journal "Alpha  BETA"
              /\ hit_file hit = "tea.md".
Proof.
  apply (proj1 (proj2 (searchResearch_every_term journal "Alpha  BETA"))
           "tea.md"
           ("# Tea" +:+ nl +:+ "Alpha is the first letter." +:+ nl +:+ nl
              +:+ "The second letter is BETA." +:+ nl)).
  - split; reflexivity.
  - exists "alpha". split; [by left|done].
  - intros term Hterm. vm_compute in Hterm.
    repeat (apply elem_of_cons in Hterm as [->|Hterm]; [reflexivity|]).
    by apply elem_of_nil in Hterm.
Defined.

(** C9 as stated fails on an empty file: every term of the keywords
    [" "] occurs in it, and it is not returned. *)
Lemma searchResearch_omits_empty_file :
  isThread emptyFileDirectory "empty.md" EmptyString
  /\ (forall term, term ∈ splitWhiteSpace (toLowerCase " ") ->
                   includes (toLowerCase EmptyString) term = true)
  /\ searchResearch emptyFileDirectory " " = [].
Proof.
  split; [by split|]. split; [|reflexivity].
  intros term Hterm. vm_compute in Hterm.
  repeat (apply elem_of_cons in Hterm as [->|Hterm]; [reflexivity|]).
  by apply elem_of_nil in Hterm.
Qed.

(** The terms of keywords that are empty or blank are empty. *)
Lemma blank_keywords_terms (keywords : string) :
  notBlank keywords = false ->
  Forall (fun t => t = EmptyString) (searchTermsOf keywords).
Proof.
  intros Hblank. apply splitWhiteSpaceGo_blank.
  by rewrite toLowerCase_notBlank.
Qed.

(** C10, amended.  With keywords that are empty or blank every thread
    file holds every term, and [searchResearch] returns the thread
    files that are not blank, each with one to five snippets; it
    returns nothing exactly when every thread file is blank. *)
Theorem searchResearch_blank_keywords (w : World) (keywords : string) :
  notBlank keywords = false ->
  (forall name content,
     isThread w name content ->
     allTermsPresent (searchTermsOf keywords) content = true)
  /\ (forall name,
        (exists hit, hit ∈ searchResearch w keywords /\ hit_file hit = name)
        <-> exists content, isThread w name content /\ notBlank content = true)
  /\ (forall hit,
        hit ∈ searchResearch w keywords ->
        1 <= List.length (hit_matches hit) <= 5)
  /\ (searchResearch w keywords = [] <->
      forall name content, isThread w name content -> notBlank content = false).
Proof.
  intros Hblank.
  pose proof (blank_keywords_terms keywords Hblank) as Hempty.
  destruct (searchTermsOf_terms keywords) as [Hne Hterms].
  assert (Hall : forall content,
             allTermsPresent (searchTermsOf keywords) content = true).
  { intros content. apply allTermsPresent_forall. intros term Hterm.
    rewrite Forall_forall in Hempty. rewrite (Hempty term Hterm).
    apply includes_empty. }
  assert (Hfiles : forall name,
             (exists hit, hit ∈ searchResearch w keywords /\ hit_file hit = name)
             <-> exists content, isThread w name content /\ notBlank content = true).
  { intros name. split.
    - intros (hit & Hhit & <-).
      apply searchResearch_elem in Hhit as (content & ? & _ & ? & _). eauto.
    - intros (content & Hthread & Hnb).
      exists {| hit_file := name;
                hit_topic := topicOf name content;
                hit_matches := snippets (searchTermsOf keywords) content |}.
      split; [|done]. apply searchResearch_elem. exists content.
      cbn [hit_file hit_topic hit_matches]. split; [done|]. by repeat split. }
  split; [by intros|]. split; [done|]. split.
  - intros hit Hhit.
    apply searchResearch_elem in Hhit as (content & _ & _ & Hnb & _ & ->).
    split; [|apply snippets_shape].
    apply (some_window_iff _ content Hne Hterms (Hall content)) in Hnb.
    unfold snippets.
    destruct (snippetCandidates _ _) as [|x r]; [done|]. simpl. lia.
  - split.
    + intros Hnil name content Hthread.
      destruct (notBlank content) eqn:Hnb; [|done].
      destruct (proj2 (Hfiles name)) as (hit & Hhit & _); [by eauto|].
      rewrite Hnil in Hhit. by apply elem_of_nil in Hhit.
    + intros Hblanks.
      destruct (searchResearch w keywords) as [|hit hits] eqn:Hs; [done|].
      destruct (proj1 (Hfiles (hit_file hit))) as (content & Hthread & Hnb).
      { exists hit. split; [by left|done]. }
      by rewrite (Hblanks _ _ Hthread) in Hnb.
Qed.

Lemma searchResearch_blank_keywords_witness :
  exists hit, hit ∈ searchResearch journal " " /\ hit_file hit = "coffee.md".
Proof.
  apply (proj1 (proj2 (searchResearch_blank_keywords journal " " eq_refl))
           "coffee.md").
  exists "alpha alone". by repeat split.
Defined.

(** C10 as stated fails in both of its conclusions.  In [journal], which
    holds threads that are not blank, the search with empty keywords
    leaves out the thread [blank.md], a file that is not empty and
    holds every term; in a directory whose one thread is that file, the
    search returns nothing. *)
Lemma searchResearch_omits_blank_file :
  isThread journal "blank.md" nl
  /\ nl <> EmptyString
  /\ allTermsPresent (searchTermsOf EmptyString) nl = true
  /\ isThread journal "coffee.md" "alpha alone"
  /\ (forall hit, hit ∈ searchResearch journal EmptyString ->
                  hit_file hit <> "blank.md")
  /\ isThread blankFileDirectory "blank.md" nl
  /\ searchResearch blankFileDirectory EmptyString = [].
Proof.
  repeat split; try done.
  intros hit Hhit. vm_compute in Hhit.
  repeat (apply elem_of_cons in Hhit as [->|Hhit]; [done|]).
  by apply elem_of_nil in Hhit.
Qed.

End SearchProperties.

(** * Further properties *)

(** ** The advice of an API error *)

Section ErrorAdvice.
Import Client APIError.

(** X1. The three classes of an API error exclude each other, so the
    order in which [getSuggestedAction] tries them does not matter:
    the advice is that of the one class the status is in, and the
    general advice exactly when it is in none.  The error [search]
    raises for an answer that is not ok carries the status of that
    answer. *)
Theorem getSuggestedAction_classes (status : Z) :
  (isUnauthorized status = true ->
     isRateLimited status = false /\ isServerError status = false)
  /\ (isRateLimited status = true ->
        isUnauthorized status = false /\ isServerError status = false)
  /\ (isServerError status = true ->
        isUnauthorized status = false /\ isRateLimited status = false)
  /\ (getSuggestedAction status =
        "Check your PERPLEXITY_API_KEY - it may be invalid or expired."
      <-> status = 401%Z)
  /\ (getSuggestedAction status = "Rate limited. Wait a moment and try again."
      <-> status = 429%Z)
  /\ (getSuggestedAction status =
        "Perplexity server error. Try again in a few seconds."
      <-> (500 <= status)%Z)
  /\ (getSuggestedAction status = "Check your request parameters and try again."
      <-> status <> 401%Z /\ status <> 429%Z /\ (status < 500)%Z)
  /\ (forall service query m options sent body,
        service sent (buildRequest query m options) = FetchNotOk status body ->
        exists message,
          fst (search service query m options sent) =
          Throw (PerplexityAPIError status message)).
Proof.
  unfold getSuggestedAction, isUnauthorized, isRateLimited, isServerError.
  destruct (Z.eqb_spec status 401), (Z.eqb_spec status 429),
    (Z.leb_spec 500 status);
    repeat split; try (intros; discriminate); try (intros; lia);
    try (intros; done);
    try (intros service query m options sent body Hs; unfold search;
         rewrite Hs; by eexists).
Qed.

Lemma getSuggestedAction_classes_witness :
  APIError.getSuggestedAction 503 =
  "Perplexity server error. Try again in a few seconds.".
Proof.
  apply (proj2 (proj1 (proj2 (proj2 (proj2 (proj2 (proj2
           (getSuggestedAction_classes 503)))))))).
  lia.
Defined.

End ErrorAdvice.

(** ** The choice of a pattern *)

Section PatternChoice.
Import JS Synthesis.

Lemma recommendPattern_by_priority (query : string) :
  recommendPattern query = patternByPriority query.
Proof.
  unfold recommendPattern, patternByPriority, mentionsAny, mentions,
    factCheckPhrases, comprehensivePhrases, analyticalPhrases.
  cbn [existsb]. by rewrite !orb_false_r, <- !orb_assoc.
Qed.

(** X2. [recommendPattern] reads the query with its letters lowered and
    tries its rules in a fixed order: fact checking, then comprehensive
    research, then analysis.  It always answers one of the four named
    patterns, so a synthesis whose pattern was chosen by it runs two or
    three steps and never the single step kept for unknown patterns. *)
Theorem recommendPattern_named (query : string) :
  recommendPattern query = patternByPriority query
  /\ (forall query', toLowerCase query' = toLowerCase query ->
                     recommendPattern query' = recommendPattern query)
  /\ isNamedPattern (recommendPattern query)
  /\ 2 <= List.length (getModelsForPattern (recommendPattern query)) <= 3
  /\ (forall phrase, phrase ∈ factCheckPhrases ->
        mentions query phrase = true -> recommendPattern query = Truthtracer).
Proof.
  split; [apply recommendPattern_by_priority|]. split.
  { intros query' H. unfold recommendPattern. by rewrite H. }
  rewrite recommendPattern_by_priority. unfold patternByPriority.
  split; [|split].
  - by repeat destruct (mentionsAny _ _).
  - repeat destruct (mentionsAny _ _); simpl; lia.
  - intros phrase Hin Hm.
    assert (mentionsAny query factCheckPhrases = true) as ->; [|done].
    apply existsb_exists. exists phrase. split; [by apply list_elem_of_In|done].
Qed.

End PatternChoice.

Lemma recommendPattern_named_witness :
  Synthesis.recommendPattern "Please VERIFY why tea is a drink"
  = Synthesis.Truthtracer.
Proof.
  apply (proj2 (proj2 (proj2 (proj2
           (recommendPattern_named "Please VERIFY why tea is a drink"))))
           "verify").
  - apply elem_of_cons. right. apply elem_of_cons. right.
    apply elem_of_cons. by left.
  - reflexivity.
Defined.

(** ** Agreement, conflict and confidence *)

Section ConsistencyInvariants.
Import Synthesis.

Variable significantVariance : list nat -> bool.

(** X3. What [analyzeConsistency] answers hangs together: a conflict
    rules out the confidence high, an agreement note means the
    confidence is high or medium-high, the confidence high comes with
    an agreement note and without conflict, and the confidence is never
    low, since one conflict at most is ever noted. *)
Theorem analyzeConsistency_coherent (results : list ModelResult) :
  let r := analyzeConsistency significantVariance results in
  (c_conflicts r <> [] -> c_confidence r <> High)
  /\ (c_agreements r <> [] ->
      c_confidence r = High \/ c_confidence r = MediumHigh)
  /\ (c_confidence r = High -> c_agreements r <> [] /\ c_conflicts r = [])
  /\ c_confidence r <> Low
  /\ List.length (c_agreements r) <= 1
  /\ List.length (c_conflicts r) <= 1.
Proof.
  intros r. subst r. unfold analyzeConsistency.
  destruct (List.length results <? 2);
    [cbn; intuition (try congruence; try lia)|].
  cbn [c_agreements c_conflicts c_confidence].
  set (n := List.length (commonCitations results)).
  destruct (Nat.ltb_spec 3 n); destruct (Nat.ltb_spec 2 n);
    destruct (Nat.ltb_spec 1 n); try lia;
    destruct (significantVariance _);
    cbn; intuition (try congruence; try lia).
Qed.

End ConsistencyInvariants.

Lemma analyzeConsistency_coherent_witness :
  Synthesis.c_agreements
    (Synthesis.analyzeConsistency Synthesis.exactVariance threeAgreeing) <> []
  /\ Synthesis.c_conflicts
       (Synthesis.analyzeConsistency Synthesis.exactVariance threeAgreeing) = [].
Proof.
  apply (proj1 (proj2 (proj2
           (analyzeConsistency_coherent Synthesis.exactVariance threeAgreeing)))).
  reflexivity.
Defined.

(** ** The requests of a synthesis *)

Section SynthesisRequests.
Import Client Synthesis.

Variable significantVariance : list nat -> bool.
Variable service : Service.
Variables (query : string) (systemPrompt : option string).

(** Whatever the service answers, the loop sends the requests of the
    first steps of its list, one each, and ends well only after the
    last; its results are then made of what the service has answered
    to each. *)
Lemma synthesisLoop_requests (models : list PerplexityModel) :
  forall (results : list ModelResult) (sent : Net),
    exists k,
      k <= List.length models
      /\ (models <> [] -> 1 <= k)
      /\ snd (synthesisLoop service query systemPrompt models results sent) =
         sent ++ map (stepRequest query systemPrompt) (firstn k models)
      /\ match fst (synthesisLoop service query systemPrompt models results sent)
         with
         | Ok results' =>
             k = List.length models
             /\ exists responses,
                  answers service query systemPrompt sent models responses
                  /\ List.length responses = List.length models
                  /\ results' = results ++ zip_with stepResult models responses
         | Throw _ => True
         end.
Proof.
  induction models as [|m models IH]; intros results sent.
  - exists 0. simpl. rewrite app_nil_r.
    split; [done|]. split; [done|]. split; [done|]. split; [done|].
    exists []. by rewrite app_nil_r.
  - cbn [synthesisLoop]. unfold bind.
    destruct (service sent (stepRequest query systemPrompt m)) as [msg|st body|msg|r] eqn:Hs.
    1-3: exists 1; unfold synthesisStep, bind, search;
         fold (stepRequest query systemPrompt m); rewrite Hs; simpl;
         repeat split; try lia; done.
    rewrite (synthesisStep_ok service query systemPrompt m results sent r Hs).
    destruct (IH (results ++ [stepResult m r])
                 (sent ++ [stepRequest query systemPrompt m]))
      as (k & Hk & _ & Hsent & Hout).
    exists (S k). split; [simpl; lia|]. split; [lia|]. split.
    + rewrite Hsent. simpl. by rewrite <- app_assoc.
    + destruct (fst (synthesisLoop _ _ _ _ _ _)) as [results'|e]; [|done].
      destruct Hout as (-> & responses & Hans & Hlen & ->). split; [done|].
      exists (r :: responses). split; [by split|]. split; [simpl; lia|].
      simpl. by rewrite <- app_assoc.
Qed.

(** X4. Whatever the service answers, [synthesize] sends at least one
    request and at most three, one for each of the first steps of its
    pattern and in their order: no step is tried twice and none is
    skipped.  A result is returned only after the requests of all the
    steps, and then it is what [combineResults] makes of the answers
    the service has given to them: it holds one finding for each
    step, in the order of the pattern, with the content of the answer
    to that step, stripped as [formatResponseWithCitations] strips it,
    and with its citations. *)
Theorem synthesize_requests (pattern : SynthesisPattern) (sent : Net) :
  let run := synthesize significantVariance service query pattern
               systemPrompt sent in
  let models := getModelsForPattern pattern in
  exists k,
    1 <= k <= List.length models
    /\ List.length models <= 3
    /\ snd run = sent ++ map (stepRequest query systemPrompt) (firstn k models)
    /\ forall result,
         fst run = Ok result ->
         k = List.length models
         /\ map finding_model (findings result) = models
         /\ exists responses,
              answers service query systemPrompt sent models responses
              /\ List.length responses = List.length models
              /\ result
                 = combineResults significantVariance query
                     (zip_with stepResult models responses) pattern
              /\ findings result
                 = zip_with
                     (fun m r =>
                        {| finding_model := m;
                           finding_content :=
                             stripThinkingBlocks (firstContent r);
                           finding_citations := default [] (citations r) |})
                     models responses
              /\ map finding_content (findings result) =
                 map (fun r => stripThinkingBlocks (firstContent r)) responses
              /\ map finding_citations (findings result) =
                 map (fun r => default [] (citations r)) responses.
Proof.
  intros run models. subst run. unfold synthesize. cbv zeta. fold models.
  destruct (synthesisLoop_requests models [] sent) as (k & Hk & Hk1 & Hsent & Hout).
  exists k. split; [split; [|done]|].
  { apply Hk1. subst models. by destruct pattern. }
  split; [subst models; destruct pattern; simpl; lia|].
  unfold bind.
  destruct (synthesisLoop service query systemPrompt models [] sent)
    as [[results|e] sent'] eqn:Hloop; cbn [fst snd] in *; [|by split].
  split; [done|]. intros result [= <-].
  destruct Hout as (-> & responses & Hans & Hlen & ->). split; [done|].
  cbn [app combineResults findings]. rewrite map_map. cbn [finding_model].
  assert (Hzip : forall (f : ModelResult -> string) g,
             (forall m r, f (stepResult m r) = g r) ->
             map f (zip_with stepResult models responses) = map g responses).
  { intros f g Hfg. clear -Hlen Hfg. revert responses Hlen.
    induction models as [|m ms IH]; intros [|r rs] Hlen; simpl in *;
      try done; try lia.
    rewrite Hfg, IH; [done|lia]. }
  split.
  - clear -Hlen. revert responses Hlen.
    induction models as [|m ms IH]; intros [|r rs] Hlen; simpl in *;
      try done; try lia.
    rewrite IH; [done|lia].
  - exists responses. split; [done|]. split; [done|]. split; [done|].
    split.
    { clear. revert responses.
      induction models as [|m ms IH]; intros [|r rs]; simpl; try done.
      by rewrite IH. }
    rewrite !map_map. split.
    + by apply Hzip.
    + clear -Hlen. revert responses Hlen.
      induction models as [|m ms IH]; intros [|r rs] Hlen; simpl in *;
        try done; try lia.
      rewrite IH; [done|lia].
Qed.

End SynthesisRequests.

Lemma synthesize_requests_witness :
  exists result,
    fst (Synthesis.synthesize Synthesis.exactVariance alwaysAnswers "tea"
           Synthesis.Truthtracer None []) = Ok result
    /\ map finding_model (findings result)
       = [SonarPro; SonarReasoningPro; SonarDeepResearch].
Proof.
  destruct (synthesize_requests Synthesis.exactVariance alwaysAnswers "tea"
              None Synthesis.Truthtracer [])
    as (k & _ & _ & _ & Hresult).
  eexists. split; [vm_compute; reflexivity|].
  apply (Hresult _ eq_refl).
Defined.
(** ** Texts put together *)

Section AppendFacts.
Import JS.

Lemma append_cons (c : ascii) (a b : string) :
  String c a +:+ b = String c (a +:+ b).
Proof. reflexivity. Qed.

Lemma append_empty_r (s : string) : s +:+ EmptyString = s.
Proof. induction s as [|c s IH]; [done|]. rewrite !append_cons. by rewrite IH. Qed.

Lemma append_assoc (a b c : string) : (a +:+ b) +:+ c = a +:+ (b +:+ c).
Proof. induction a as [|x a IH]; [done|]. rewrite !append_cons. by rewrite IH. Qed.

Lemma length_append (a b : string) :
  String.length (a +:+ b) = String.length a + String.length b.
Proof.
  induction a as [|x a IH]; [done|]. rewrite !append_cons; cbn [String.length].
  by rewrite IH.
Qed.

Lemma startsWith_append (p s : string) : startsWith (p +:+ s) p = true.
Proof.
  induction p as [|c p IH]; [done|]. rewrite !append_cons; cbn [startsWith].
  by rewrite Ascii.eqb_refl, IH.
Qed.

Lemma startsWith_prefix (p : string) :
  forall s, startsWith s p = true -> exists r, s = p +:+ r.
Proof.
  induction p as [|c p IH]; intros s H; [by exists s|].
  destruct s as [|b s]; [done|]. simpl in H.
  apply andb_true_iff in H as [Hc H]. apply Ascii.eqb_eq in Hc as ->.
  destruct (IH s H) as [r ->]. by exists r.
Qed.

Lemma startsWith_append_l (p : string) :
  forall a b, startsWith a p = true -> startsWith (a +:+ b) p = true.
Proof.
  intros a b H. destruct (startsWith_prefix p a H) as [r ->].
  rewrite append_assoc. apply startsWith_append.
Qed.

(** A text that begins a concatenation either begins its first part,
    or runs over the end of it. *)
Lemma startsWith_append_inv (p : string) :
  forall a b,
    startsWith (a +:+ b) p = true ->
    startsWith a p = true
    \/ exists k, k <> EmptyString /\ p = a +:+ k /\ startsWith b k = true.
Proof.
  induction p as [|c p IH]; intros a b H; [by left|].
  destruct a as [|x a].
  - right. exists (String c p). by repeat split.
  - rewrite !append_cons in H; cbn [startsWith] in H. apply andb_true_iff in H as [Hc H].
    apply Ascii.eqb_eq in Hc as ->.
    destruct (IH a b H) as [Ha|(k & Hk & -> & Hb)].
    + left. simpl. by rewrite Ascii.eqb_refl.
    + right. by exists k.
Qed.

Lemma includes_append_r (t : string) :
  forall a b, includes b t = true -> includes (a +:+ b) t = true.
Proof.
  induction a as [|c a IH]; intros b H; [done|].
  rewrite !append_cons; cbn [includes]. rewrite (IH b H). apply orb_true_r.
Qed.

Lemma includes_startsWith (s t : string) :
  startsWith s t = true -> includes s t = true.
Proof. intros H. destruct s; simpl in *; by rewrite H. Qed.

Lemma take_append (a b : string) : take (String.length a) (a +:+ b) = a.
Proof.
  induction a as [|c a IH]; [by destruct b|].
  rewrite !append_cons; cbn [String.length take]. by rewrite IH.
Qed.

Lemma drop_append (a b : string) : drop (String.length a) (a +:+ b) = b.
Proof. induction a as [|c a IH]; [by destruct b|]. done. Qed.

Lemma indexOfFrom_here (s t : string) (i : Z) :
  startsWith s t = true -> indexOfFrom s t i = i.
Proof. intros H. destruct s; cbn [indexOfFrom]; by rewrite H. Qed.

Lemma indexOfFrom_none (t : string) :
  forall s i, includes s t = false -> indexOfFrom s t i = (-1)%Z.
Proof.
  induction s as [|c s IH]; intros i H; cbn [includes indexOfFrom] in *;
    apply orb_false_iff in H as [-> H]; [done|]. by apply IH.
Qed.

Lemma indexOfFrom_found (t : string) :
  forall s i, includes s t = true -> (i <= indexOfFrom s t i)%Z.
Proof.
  induction s as [|c s IH]; intros i H; cbn [includes indexOfFrom] in *.
  - destruct (startsWith _ _); [lia|done].
  - destruct (startsWith _ _); [lia|]. simpl in H.
    specialize (IH (i + 1)%Z H). lia.
Qed.

Lemma noneBegins_tail (c : ascii) (a s t : string) :
  noneBegins (String c a) s t -> noneBegins a s t.
Proof. intros H x y -> Hy. by apply (H (String c x) y). Qed.

Lemma indexOfFrom_skip (t s : string) :
  forall a i,
    noneBegins a s t ->
    indexOfFrom (a +:+ s) t i = indexOfFrom s t (i + Z.of_nat (String.length a)).
Proof.
  induction a as [|c a IH]; intros i H.
  - simpl. by rewrite Z.add_0_r.
  - rewrite !append_cons; cbn [indexOfFrom].
    change (String c (a +:+ s)) with (String c a +:+ s).
    rewrite (H EmptyString (String c a) eq_refl) by done.
    rewrite (IH (i + 1)%Z) by (by eapply noneBegins_tail).
    f_equal. cbn [String.length]. lia.
Qed.

Lemma includes_skip (t s : string) :
  forall a, noneBegins a s t -> includes (a +:+ s) t = includes s t.
Proof.
  induction a as [|c a IH]; intros H; [done|].
  rewrite !append_cons; cbn [includes].
  change (String c (a +:+ s)) with (String c a +:+ s).
  rewrite (H EmptyString (String c a) eq_refl) by done.
  apply IH. by eapply noneBegins_tail.
Qed.

(** The first character of [t] does not occur again in [t]: no
    occurrence of [t] overlaps another. *)
Lemma noneBegins_first (c0 : ascii) (t' a r : string) :
  anyChar (Ascii.eqb c0) t' = false ->
  includes a (String c0 t') = false ->
  noneBegins a (String c0 t' +:+ r) (String c0 t').
Proof.
  intros Hc Ha x y -> Hy.
  destruct (startsWith (y +:+ String c0 t' +:+ r) (String c0 t')) eqn:H; [|done].
  apply startsWith_append_inv in H as [H|(k & Hk & Ht & Hb)].
  - apply includes_startsWith, (includes_append_r _ x) in H. congruence.
  - destruct y as [|c y]; [done|]. destruct k as [|d k]; [done|].
    rewrite !append_cons in Ht. injection Ht as <- ->.
    rewrite !append_cons in Hb; cbn [startsWith] in Hb. apply andb_true_iff in Hb as [Hd _].
    rewrite anyChar_app in Hc. cbn [anyChar] in Hc.
    rewrite Ascii.eqb_sym, Hd in Hc.
    by rewrite orb_true_r in Hc.
Qed.

(** The part [a] ends with a character that does not occur in [t]. *)
Lemma noneBegins_last (c : ascii) (a s t : string) :
  anyChar (Ascii.eqb c) t = false ->
  includes (a +:+ String c EmptyString) t = false ->
  noneBegins (a +:+ String c EmptyString) s t.
Proof.
  intros Hc Ha x y Hxy Hy.
  destruct (startsWith (y +:+ s) t) eqn:H; [|done].
  apply startsWith_append_inv in H as [H|(k & Hk & -> & Hb)].
  - apply includes_startsWith, (includes_append_r _ x) in H. congruence.
  - assert (Hin : anyChar (Ascii.eqb c) y = true).
    { assert (Hall : anyChar (Ascii.eqb c) (x +:+ y) = true
                     -> lastIs c (x +:+ y) = true -> y <> EmptyString
                     -> lastIs c y = true).
      { clear. induction x as [|d x IH]; [done|]. intros _ Hl Hy.
        rewrite !append_cons in Hl; cbn [lastIs] in Hl.
        destruct (x +:+ y) eqn:E.
        - destruct x, y; done.
        - cbn [isEmpty] in Hl. apply IH; [|done|done].
          clear -Hl. revert Hl. generalize (String a s). clear.
          induction s as [|e s IH]; [done|]. cbn [lastIs anyChar].
          destruct (isEmpty s) eqn:Es.
          + intros ->. done.
          + intros H. rewrite (IH H). apply orb_true_r. }
      assert (Hlast : lastIs c (a +:+ String c EmptyString) = true).
      { clear. induction a as [|d a IH]; [simpl; apply Ascii.eqb_refl|].
        rewrite !append_cons; cbn [lastIs]. destruct (a +:+ String c EmptyString) eqn:E;
          [by destruct a|]. done. }
      rewrite Hxy in Hlast.
      assert (Hany : forall z, lastIs c z = true -> anyChar (Ascii.eqb c) z = true).
      { clear. induction z as [|e z IH]; [done|]. cbn [lastIs anyChar].
        destruct (isEmpty z); [by intros ->|].
        intros H. rewrite (IH H). apply orb_true_r. }
      apply Hany, Hall; [|done|done]. by apply Hany. }
    rewrite anyChar_app, Hin in Hc. done.
Qed.

Lemma trimEnd_append (a b : string) :
  notBlank b = true -> trimEnd (a +:+ b) = a +:+ trimEnd b.
Proof.
  intros Hb. induction a as [|c a IH]; [done|].
  rewrite !append_cons; cbn [trimEnd]. rewrite IH.
  assert (isEmpty (a +:+ trimEnd b) = false) as ->; [|by rewrite andb_false_r].
  pose proof (trimEnd_isEmpty b) as H. rewrite Hb in H.
  destruct (trimEnd b); [done|]. by destruct a.
Qed.

End AppendFacts.

(** ** Thinking blocks *)

Section Thinking.
Import JS.

Lemma stripThinkGo_skip (x y : string) :
  stripThinkGo (x +:+ y) (String.length x) = stripThinkGo y 0.
Proof.
  induction x as [|c x IH]; [done|]. done.
Qed.

Lemma stripThinkGo_keep :
  forall a s,
    noneBegins a s "<think>" ->
    stripThinkGo (a +:+ s) 0 = a +:+ stripThinkGo s 0.
Proof.
  induction a as [|c a IH]; intros s H; [done|].
  rewrite !append_cons; cbn [stripThinkGo].
  change (String c (a +:+ s)) with (String c a +:+ s).
  rewrite (H EmptyString (String c a) eq_refl) by done.
  rewrite IH; [done|]. by eapply noneBegins_tail.
Qed.

Lemma includes_tail (c : ascii) (s t : string) :
  includes (String c s) t = false -> includes s t = false.
Proof. cbn [includes]. by intros [_ H]%orb_false_iff. Qed.

Lemma includes_drop (t : string) :
  forall n s, includes s t = false -> includes (drop n s) t = false.
Proof.
  induction n as [|n IH]; intros [|c s] H; try done.
  cbn [drop]. by eapply IH, includes_tail.
Qed.

Lemma stripThinkGo_unopened :
  forall s, includes s "<think>" = false -> stripThinkGo s 0 = s.
Proof.
  induction s as [|c s IH]; intros H; [done|].
  pose proof (includes_tail _ _ _ H) as Hs.
  cbn [includes] in H. apply orb_false_iff in H as [H _].
  cbn [stripThinkGo]. rewrite H. by rewrite IH.
Qed.

Lemma stripThinkGo_unclosed :
  forall s, includes s "</think>" = false -> stripThinkGo s 0 = s.
Proof.
  induction s as [|c s IH]; intros H; [done|].
  pose proof (includes_tail _ _ _ H) as Hs.
  cbn [stripThinkGo].
  destruct (startsWith (String c s) "<think>"); [|by rewrite IH].
  unfold indexOf.
  rewrite (indexOfFrom_none _ (drop 7 (String c s)) 0%Z)
    by (by apply includes_drop).
  cbn [Z.ltb Z.compare]. by rewrite IH.
Qed.

Lemma stripThinkGo_block (a b c : string) :
  includes a "<think>" = false ->
  includes b "</think>" = false ->
  stripThinkGo (a +:+ "<think>" +:+ b +:+ "</think>" +:+ c) 0
  = a +:+ stripThinkGo c 0.
Proof.
  intros Ha Hb.
  rewrite stripThinkGo_keep by (by apply (noneBegins_first "<" "think>")).
  f_equal.
  change ("<think>" +:+ b +:+ "</think>" +:+ c)
    with (String "<" ("think>" +:+ b +:+ "</think>" +:+ c)).
  cbn [stripThinkGo].
  change (startsWith (String "<" ("think>" +:+ b +:+ "</think>" +:+ c)) "<think>")
    with (startsWith ("<think>" +:+ b +:+ "</think>" +:+ c) "<think>").
  rewrite startsWith_append.
  change (drop 7 (String "<" ("think>" +:+ b +:+ "</think>" +:+ c)))
    with (b +:+ "</think>" +:+ c).
  unfold indexOf.
  rewrite indexOfFrom_skip by (by apply (noneBegins_first "<" "/think>")).
  assert (indexOfFrom ("</think>" +:+ c) "</think>"
            (0 + Z.of_nat (String.length b)) = Z.of_nat (String.length b)) as ->.
  { rewrite indexOfFrom_here by apply startsWith_append. lia. }
  destruct (Z.ltb_spec (Z.of_nat (String.length b)) 0); [lia|].
  rewrite Nat2Z.id.
  replace (7 + String.length b + 8 - 1)
    with (String.length ("think>" +:+ b +:+ "</think>")).
  - rewrite <- (stripThinkGo_skip ("think>" +:+ b +:+ "</think>") c).
    by rewrite !append_assoc.
  - rewrite !length_append. cbn [String.length]. lia.
Qed.

(** X5. [stripThinkingBlocks] removes a block from its opening tag to
    the first closing tag after it, whatever stands between, and goes
    on behind that closing tag; the text before the first opening tag
    is kept.  A text without opening tag, or without closing tag, is
    only trimmed: a block that is opened and never closed stays in the
    text. *)
Theorem stripThinkingBlocks_blocks :
  (forall content,
     includes content "<think>" = false \/ includes content "</think>" = false ->
     stripThinkingBlocks content = trim content)
  /\ (forall a b c,
        includes a "<think>" = false ->
        includes b "</think>" = false ->
        stripThinkGo (a +:+ "<think>" +:+ b +:+ "</think>" +:+ c) 0
        = a +:+ stripThinkGo c 0
        /\ (includes c "<think>" = false ->
            stripThinkingBlocks (a +:+ "<think>" +:+ b +:+ "</think>" +:+ c)
            = trim (a +:+ c))).
Proof.
  split.
  - intros content [H|H]; unfold stripThinkingBlocks.
    + by rewrite stripThinkGo_unopened.
    + by rewrite stripThinkGo_unclosed.
  - intros a b c Ha Hb. split; [by apply stripThinkGo_block|].
    intros Hc. unfold stripThinkingBlocks.
    by rewrite stripThinkGo_block, (stripThinkGo_unopened c).
Qed.

Lemma stripThinkingBlocks_blocks_witness :
  stripThinkingBlocks
    ("Tea " +:+ "<think>" +:+ "is it <think> though" +:+ "</think>"
       +:+ "is a drink.</think> ")
  = "Tea is a drink.</think>".
Proof.
  rewrite (proj2 (proj2 stripThinkingBlocks_blocks "Tea "
                    "is it <think> though" "is a drink.</think> "
                    eq_refl eq_refl) eq_refl).
  reflexivity.
Defined.

End Thinking.
(** ** Threads that keep their entries *)

Section KeptEntries.
Import JS Store.

Variable host : Host.

Lemma append_peel (a rest e : string) :
  rest = e +:+ rule -> a +:+ rest = (a +:+ e) +:+ rule.
Proof. intros ->. by rewrite append_assoc. Qed.

Lemma append_peel_end : rule = EmptyString +:+ rule.
Proof. reflexivity. Qed.

Lemma formatEntry_rule (query : string) (response : PerplexityResponse)
    (m : PerplexityModel) (modelRationale approvedPlan : option string)
    (timestamp rawFilename : string) (queryNum : nat) :
  exists body,
    formatEntry host query response m modelRationale approvedPlan
      timestamp rawFilename queryNum = body +:+ rule.
Proof.
  unfold formatEntry. cbv zeta. eexists.
  repeat first [ apply append_peel_end | apply append_peel ].
Qed.

Lemma newThread_head (query : string) (systemPrompt : option string)
    (entry synthesis : string) :
  newThread query systemPrompt entry synthesis =
  threadHead query systemPrompt +:+ rule +:+ entry +:+ synthesis.
Proof.
  unfold newThread, threadHead, rule. cbv zeta.
  by rewrite !append_assoc.
Qed.

Lemma synthesisSectionFor_marker (queryCount : nat) (d : DateReading) :
  startsWith (synthesisSectionFor queryCount d) synthesisMarker = true.
Proof. reflexivity. Qed.

Lemma allOf_snoc (texts : list string) (text : string) :
  allOf (texts ++ [text]) = allOf texts +:+ text.
Proof.
  induction texts as [|t texts IH].
  - cbn [allOf foldr app]. by rewrite append_empty_r.
  - change (allOf ((t :: texts) ++ [text]))
      with (t +:+ allOf (texts ++ [text])).
    change (allOf (t :: texts)) with (t +:+ allOf texts).
    by rewrite IH, append_assoc.
Qed.

Lemma kept_rule (entries : list string) :
  forall head,
    Forall (fun entry => exists body, entry = body +:+ rule) entries ->
    exists k, head +:+ rule +:+ allOf entries = k +:+ rule.
Proof.
  induction entries as [|e entries IH]; intros head H.
  - exists head. cbn [allOf foldr]. by rewrite append_empty_r.
  - apply Forall_cons in H as [[body ->] H].
    destruct (IH (head +:+ rule +:+ body) H) as [k Hk].
    exists k. rewrite <- Hk. cbn [allOf foldr]. by rewrite !append_assoc.
Qed.

Lemma noneBegins_rule (k s : string) :
  includes (k +:+ rule) synthesisMarker = false ->
  noneBegins (k +:+ rule) s synthesisMarker.
Proof.
  intros H.
  assert (E : k +:+ rule = (k +:+ "---" +:+ nl) +:+ String LF EmptyString).
  { unfold rule. by rewrite !append_assoc. }
  rewrite E in *. by apply noneBegins_last.
Qed.

(** What an append keeps of a thread that ends with its only synthesis
    section: everything before that section. *)
Lemma withoutSynthesis_kept (k section : string) :
  includes (k +:+ rule) synthesisMarker = false ->
  startsWith section synthesisMarker = true ->
  withoutSynthesis ((k +:+ rule) +:+ section) = k +:+ rule.
Proof.
  intros Hk Hs.
  destruct (withoutSynthesis_cut ((k +:+ rule) +:+ section)) as [_ Hcut].
  rewrite (Hcut (String.length (k +:+ rule))).
  - rewrite take_append. unfold rule at 1.
    rewrite trimEnd_append by reflexivity.
    change (trimEnd ("---" +:+ nl +:+ nl)) with "---".
    unfold rule. by rewrite !append_assoc.
  - unfold indexOf. rewrite indexOfFrom_skip by (by apply noneBegins_rule).
    rewrite indexOfFrom_here by done. lia.
Qed.

(** X6. A thread made of a head, of entries and of one synthesis
    section stays one when [saveResearch] adds to it: as long as the
    new entry does not hold the words [## Synthesis] itself, the head
    and every entry are kept as they are and in their order, the new
    entry comes last, and the synthesis section is replaced by a new
    one.  A thread that [saveResearch] creates is of that shape. *)
Theorem saveResearch_keeps_entries (query : string)
    (response : PerplexityResponse) (m : PerplexityModel)
    (systemPrompt modelRationale approvedPlan : option string) (w : World) :
  (forall p, writable host p = true) ->
  let name := threadName host query w in
  let run := saveResearch host query response m
               systemPrompt modelRationale approvedPlan w in
  let entry := savedEntry host query response m modelRationale approvedPlan w in
  (researchDir w !! name = None ->
   includes (threadHead query systemPrompt +:+ rule +:+ entry 1)
     synthesisMarker = false ->
   exists text,
     researchDir (snd run) !! name = Some (File text)
     /\ isThreadOf text (threadHead query systemPrompt) [entry 1]
          (savedSynthesis host w 1))
  /\ (forall old head entries section,
        researchDir w !! name = Some (File old) ->
        isThreadOf old head entries section ->
        let queryNum := countQueryHeaders old + 1 in
        includes (entry queryNum) synthesisMarker = false ->
        exists text,
          researchDir (snd run) !! name = Some (File text)
          /\ isThreadOf text head (entries ++ [entry queryNum])
               (savedSynthesis host w queryNum)).
Proof.
  intros Hw name run entry. split.
  - intros Hnone Hentry.
    destruct (saveResearch_thread_text host query response m systemPrompt
                modelRationale approvedPlan w Hw) as [_ Htext].
    { fold name. by rewrite Hnone. }
    fold name run in Htext. rewrite Hnone in Htext.
    eexists. split; [exact Htext|].
    unfold isThreadOf. cbn [threadText allOf foldr].
    rewrite newThread_head, append_empty_r. fold (entry 1).
    repeat split; try done.
    apply Forall_singleton. apply formatEntry_rule.
  - intros old head entries section Hold (-> & Hsec & Hkept & Hrules)
      queryNum Hentry.
    destruct (saveResearch_thread_text host query response m systemPrompt
                modelRationale approvedPlan w Hw) as [_ Htext].
    { fold name. by rewrite Hold. }
    fold name run in Htext. rewrite Hold in Htext.
    eexists. split; [exact Htext|].
    unfold isThreadOf. cbn [threadText]. fold queryNum. fold (entry queryNum).
    destruct (kept_rule entries head Hrules) as [k Hk].
    assert (Eold : head +:+ rule +:+ allOf entries +:+ section
                   = (k +:+ rule) +:+ section).
    { by rewrite <- Hk, !append_assoc. }
    rewrite Hk in Hkept.
    rewrite Eold. rewrite withoutSynthesis_kept by done.
    rewrite allOf_snoc. split; [|split; [done|split]].
    + rewrite <- Hk. by rewrite !append_assoc.
    + rewrite <- !append_assoc.
      rewrite (append_assoc head), Hk.
      rewrite includes_skip by (by apply noneBegins_rule). done.
    + apply Forall_app. split; [done|].
      apply Forall_singleton. apply formatEntry_rule.
Qed.

End KeptEntries.

Lemma saveResearch_keeps_entries_witness :
  exists text,
    Store.researchDir (snd (saveLeaf afterFirstLeaf)) !! leafThread
    = Some (Store.File text)
    /\ isThreadOf text (threadHead leafQuery None)
         ([leafEntry Store.emptyWorld 1] ++ [leafEntry afterFirstLeaf 2])
         (savedSynthesis stoppedHost afterFirstLeaf 2).
Proof.
  apply (proj2 (saveResearch_keeps_entries stoppedHost leafQuery
                  (answer "Tea is a drink." ["https://tea.example/leaf"])
                  Sonar None (Some "user-specified") None afterFirstLeaf
                  (fun _ => eq_refl))
           (threadOf afterFirstLeaf leafThread) (threadHead leafQuery None)
           [leafEntry Store.emptyWorld 1]
           (savedSynthesis stoppedHost Store.emptyWorld 1)).
  - vm_compute. reflexivity.
  - split; [vm_compute; reflexivity|].
    split; [vm_compute; reflexivity|].
    split; [vm_compute; reflexivity|].
    apply Forall_singleton. apply formatEntry_rule.
  - vm_compute. reflexivity.
Defined.

(** ** The numbers of the entries *)

Section Numbering.
Import JS Store.

Variable host : Host.

Lemma splitBy_append_sep (isSep : ascii -> bool) (c : ascii) (y : string) :
  isSep c = true ->
  forall x,
    splitBy isSep (x +:+ String c y) = splitBy isSep x ++ splitBy isSep y.
Proof.
  intros Hc. induction x as [|d x IH].
  - change (EmptyString +:+ String c y) with (String c y).
    cbn [splitBy app]. by rewrite Hc.
  - rewrite append_cons. cbn [splitBy]. rewrite IH.
    destruct (isSep d); [done|].
    destruct (splitBy_cons isSep x) as (h & t & ->). done.
Qed.

Lemma countQueryHeaders_lines (x y : string) :
  countQueryHeaders (x +:+ nl +:+ y) = countQueryHeaders x + countQueryHeaders y.
Proof.
  unfold countQueryHeaders, regexLines.
  change (nl +:+ y) with (String LF y).
  rewrite splitBy_append_sep by done.
  by rewrite List.filter_app, List.length_app.
Qed.

Lemma countQueryHeaders_after_line (a b : string) :
  countQueryHeaders ((a +:+ nl) +:+ b)
  = countQueryHeaders (a +:+ nl) + countQueryHeaders b.
Proof.
  rewrite append_assoc, countQueryHeaders_lines.
  rewrite <- (append_empty_r (a +:+ nl)), append_assoc.
  rewrite countQueryHeaders_lines.
  change (countQueryHeaders EmptyString) with 0. lia.
Qed.

Lemma countQueryHeaders_after_rule (k b : string) :
  countQueryHeaders ((k +:+ rule) +:+ b)
  = countQueryHeaders (k +:+ rule) + countQueryHeaders b.
Proof.
  assert (E : k +:+ rule = (k +:+ "---" +:+ nl) +:+ nl).
  { unfold rule. by rewrite !append_assoc. }
  rewrite E. apply countQueryHeaders_after_line.
Qed.

(** A text without line terminator is one line. *)
Lemma splitBy_one (isSep : ascii -> bool) (s : string) :
  anyChar isSep s = false -> splitBy isSep s = [s].
Proof.
  induction s as [|c s IH]; [done|]. cbn [anyChar splitBy].
  intros [-> H]%orb_false_iff. by rewrite IH.
Qed.

Lemma countQueryHeaders_one (s : string) :
  anyChar isLineTerminator s = false ->
  isQueryHeader s = false ->
  countQueryHeaders s = 0.
Proof.
  intros Hs Hq. unfold countQueryHeaders, regexLines.
  rewrite splitBy_one by done. cbn [List.filter]. by rewrite Hq.
Qed.

Lemma string_of_uint_digits (d : Decimal.uint) :
  allChars isDigit (NilEmpty.string_of_uint d) = true.
Proof. induction d; cbn [NilEmpty.string_of_uint allChars]; by rewrite ?IHd. Qed.

Lemma ofNat_digits (n : nat) : allChars isDigit (ofNat n) = true.
Proof.
  unfold ofNat, ofZ.
  destruct (Z.of_nat n) as [|p|p] eqn:E; [done| |lia].
  cbn [Z.to_int NilZero.string_of_int NilZero.string_of_uint].
  destruct (Pos.to_uint p) eqn:Ep; try apply string_of_uint_digits.
  reflexivity.
Qed.

Lemma allChars_anyChar (p q : ascii -> bool) (s : string) :
  (forall c, p c = true -> q c = false) ->
  allChars p s = true -> anyChar q s = false.
Proof.
  intros Hpq. induction s as [|c s IH]; [done|]. cbn [allChars anyChar].
  intros [Hc Hs]%andb_true_iff. by rewrite (Hpq c Hc), IH.
Qed.

Lemma ofNat_one_line (n : nat) : anyChar isLineTerminator (ofNat n) = false.
Proof.
  apply (allChars_anyChar isDigit); [|apply ofNat_digits].
  intros c. by destruct c as [[] [] [] [] [] [] [] []].
Qed.

(** The synthesis section holds no header of a query, when the date
    in it is written on one line. *)
Lemma synthesisSectionFor_no_header (queryCount : nat) (d : DateReading) :
  anyChar isLineTerminator (isoDate d) = false ->
  countQueryHeaders (synthesisSectionFor queryCount d) = 0.
Proof.
  intros Hd. unfold synthesisSectionFor. cbv zeta.
  set (first := "## Synthesis (Updated: " +:+ isoDate d +:+ ")").
  set (count := "*" +:+ ofNat queryCount +:+ " "
                  +:+ (if queryCount =? 1 then "query" else "queries")
                  +:+ " in this thread*").
  assert (E : forall rest,
             "## Synthesis (Updated: " +:+ isoDate d +:+ ")" +:+ nl +:+ nl +:+
             "*" +:+ ofNat queryCount +:+ " "
               +:+ (if queryCount =? 1 then "query" else "queries")
               +:+ " in this thread*" +:+ nl +:+ rest
             = first +:+ nl +:+ EmptyString +:+ nl +:+ count +:+ nl +:+ rest).
  { intros rest. subst first count. by rewrite !append_assoc. }
  rewrite E. rewrite !countQueryHeaders_lines.
  rewrite (countQueryHeaders_one first), (countQueryHeaders_one count).
  - reflexivity.
  - subst count. rewrite !anyChar_app, ofNat_one_line.
    by destruct (queryCount =? 1).
  - reflexivity.
  - subst first. by rewrite !anyChar_app, Hd.
  - reflexivity.
Qed.

(** X7. In a thread made of a head, of entries and of one synthesis
    section, where the head and the section hold no line of the form
    [## Query n:] and the entries hold as many as there are entries,
    the entry [saveResearch] adds is numbered one more than their
    number, and the thread it writes is again of that kind, the new
    entry being read as one header when it quotes no other. *)
Theorem saveResearch_numbers_entries (query : string)
    (response : PerplexityResponse) (m : PerplexityModel)
    (systemPrompt modelRationale approvedPlan : option string) (w : World)
    (old head : string) (entries : list string) (section : string) :
  (forall p, writable host p = true) ->
  researchDir w !! threadName host query w = Some (File old) ->
  isThreadOf old head entries section ->
  countQueryHeaders (head +:+ rule +:+ allOf entries) = List.length entries ->
  countQueryHeaders section = 0 ->
  anyChar isLineTerminator (isoDate (clock host (4 + dates w))) = false ->
  let queryNum := List.length entries + 1 in
  let entry :=
    savedEntry host query response m modelRationale approvedPlan w queryNum in
  countQueryHeaders entry = 1 ->
  let text := head +:+ rule +:+ allOf (entries ++ [entry])
                +:+ savedSynthesis host w queryNum in
  researchDir (snd (saveResearch host query response m
                      systemPrompt modelRationale approvedPlan w))
    !! threadName host query w = Some (File text)
  /\ startsWith entry ("## Query " +:+ ofNat queryNum +:+ ": ") = true
  /\ countQueryHeaders (head +:+ rule +:+ allOf (entries ++ [entry])) = queryNum
  /\ countQueryHeaders (savedSynthesis host w queryNum) = 0
  /\ countQueryHeaders text = queryNum.
Proof.
  intros Hw Hold (-> & Hsec & Hkept & Hrules) Hcount Hsection Hdate
    queryNum entry Hentry text.
  destruct (kept_rule entries head Hrules) as [k Hk].
  assert (Eold : head +:+ rule +:+ allOf entries +:+ section
                 = (k +:+ rule) +:+ section).
  { by rewrite <- Hk, !append_assoc. }
  assert (Hnum : countQueryHeaders
                   (head +:+ rule +:+ allOf entries +:+ section) + 1
                 = queryNum).
  { rewrite Eold, countQueryHeaders_after_rule, <- Hk, Hcount, Hsection.
    subst queryNum. lia. }
  destruct (formatEntry_rule host query response m modelRationale approvedPlan
              (dualTimestampFor (clock host (3 + dates w)))
              (rawBackupName host query w) queryNum) as [body Hbody].
  fold (savedEntry host query response m modelRationale approvedPlan w queryNum)
    in Hbody. fold entry in Hbody.
  assert (Hkept' : countQueryHeaders (head +:+ rule +:+ allOf (entries ++ [entry]))
                   = queryNum).
  { rewrite allOf_snoc, <- !append_assoc, (append_assoc head), Hk.
    rewrite countQueryHeaders_after_rule, <- Hk, Hcount, Hentry.
    subst queryNum. lia. }
  assert (Hsection' : countQueryHeaders (savedSynthesis host w queryNum) = 0).
  { by apply synthesisSectionFor_no_header. }
  split; [|split; [|split; [done|split; [done|]]]].
  - destruct (saveResearch_thread_text host query response m systemPrompt
                modelRationale approvedPlan w Hw) as [_ Htext].
    { by rewrite Hold. }
    rewrite Hold in Htext. rewrite Htext. do 2 f_equal.
    cbn [threadText]. rewrite Hnum. fold entry.
    rewrite Eold, withoutSynthesis_kept by (rewrite <- ?Hk; done).
    subst text. rewrite allOf_snoc, <- Hk. by rewrite !append_assoc.
  - subst entry. unfold savedEntry, formatEntry. cbv zeta.
    rewrite <- !(append_assoc "## Query ").
    rewrite <- (append_assoc ("## Query " +:+ ofNat queryNum)).
    apply startsWith_append.
  - subst text.
    rewrite allOf_snoc, Hbody, <- !append_assoc.
    rewrite countQueryHeaders_after_rule.
    rewrite Hsection'. rewrite Nat.add_0_r.
    rewrite <- Hkept', allOf_snoc, Hbody. by rewrite <- !append_assoc.
Qed.

End Numbering.

Lemma saveResearch_numbers_entries_witness :
  Store.researchDir (snd (saveLeaf afterFirstLeaf)) !! leafThread
  = Some (Store.File
            (threadHead leafQuery None +:+ rule
               +:+ allOf ([leafEntry Store.emptyWorld 1]
                            ++ [leafEntry afterFirstLeaf 2])
               +:+ savedSynthesis stoppedHost afterFirstLeaf 2))
  /\ JS.startsWith (leafEntry afterFirstLeaf 2) "## Query 2: " = true.
Proof.
  destruct (saveResearch_numbers_entries stoppedHost leafQuery
              (answer "Tea is a drink." ["https://tea.example/leaf"])
              Sonar None (Some "user-specified") None afterFirstLeaf
              (threadOf afterFirstLeaf leafThread) (threadHead leafQuery None)
              [leafEntry Store.emptyWorld 1]
              (savedSynthesis stoppedHost Store.emptyWorld 1))
    as (Htext & Hnumber & _).
  - reflexivity.
  - vm_compute. reflexivity.
  - split; [vm_compute; reflexivity|].
    split; [vm_compute; reflexivity|].
    split; [vm_compute; reflexivity|].
    apply Forall_singleton. apply formatEntry_rule.
  - vm_compute. reflexivity.
  - vm_compute. reflexivity.
  - vm_compute. reflexivity.
  - vm_compute. reflexivity.
  - split; [exact Htext|exact Hnumber].
Defined.

(** ** The entries of the tool [deep_research] *)

Section DeepResearchEntries.
Import JS Store Synthesis Dispatcher.

Variable host : Host.
Variable significantVariance : list nat -> bool.

(** No occurrence of [t] begins in a text without the first character
    of [t]. *)
Lemma noneBegins_foreign (c0 : ascii) (t' a s : string) :
  anyChar (Ascii.eqb c0) a = false -> noneBegins a s (String c0 t').
Proof.
  intros Ha x y -> Hy. rewrite anyChar_app in Ha.
  apply orb_false_iff in Ha as [_ Ha].
  destruct y as [|d y]; [done|]. cbn [anyChar] in Ha.
  apply orb_false_iff in Ha as [Hd _].
  rewrite append_cons. cbn [startsWith]. by rewrite Hd.
Qed.

Lemma trimEnd_append_blank (s : string) :
  notBlank s = false -> forall p, trimEnd (p +:+ s) = trimEnd p.
Proof.
  intros Hs. induction p as [|c p IH].
  - pose proof (trimEnd_isEmpty s) as H. rewrite Hs in H.
    change (EmptyString +:+ s) with s. by destruct (trimEnd s).
  - rewrite append_cons. cbn [trimEnd]. by rewrite IH.
Qed.

(** A text that [trimEnd] leaves alone is left alone in front of any
    other. *)
Lemma trimEnd_prefix (p s : string) :
  trimEnd p = p -> exists r, trimEnd (p +:+ s) = p +:+ r.
Proof.
  intros Hp. destruct (notBlank s) eqn:Hs.
  - exists (trimEnd s). by apply trimEnd_append.
  - exists EmptyString. by rewrite trimEnd_append_blank, append_empty_r.
Qed.

Lemma includes_append_line (t a : string) :
  anyChar (Ascii.eqb LF) t = false ->
  includes a t = false -> includes (a +:+ nl) t = false.
Proof.
  intros Ht. induction a as [|c a IH]; intros Ha.
  - destruct t as [|d t]; [done|]. cbn [anyChar] in Ht.
    apply orb_false_iff in Ht as [Hd _].
    change (EmptyString +:+ nl) with nl. unfold nl.
    cbn [includes startsWith]. rewrite Ascii.eqb_sym, Hd. done.
  - pose proof (includes_tail _ _ _ Ha) as Ha'.
    rewrite append_cons. cbn [includes]. rewrite (IH Ha'), orb_false_r.
    destruct (startsWith (String c (a +:+ nl)) t) eqn:H; [|done].
    change (String c (a +:+ nl)) with (String c a +:+ nl) in H.
    apply startsWith_append_inv in H as [H|(k & Hk & -> & Hb)].
    + apply includes_startsWith in H. congruence.
    + destruct k as [|d k]; [done|]. unfold nl in Hb. cbn [startsWith] in Hb.
      apply andb_true_iff in Hb as [Hd _]. apply Ascii.eqb_eq in Hd as ->.
      rewrite anyChar_app in Ht. cbn [anyChar] in Ht.
      rewrite Ascii.eqb_refl in Ht. by rewrite orb_true_r in Ht.
Qed.

(** The findings of a synthesis begin with the heading of its
    summary, whatever the query and the answers are. *)
Lemma summary_heading (query : string) (results : list ModelResult)
    (pattern : SynthesisPattern) :
  exists r,
    stripThinkingBlocks
      (summary (combineResults significantVariance query results pattern))
    = "## Synthesis Summary" +:+ r.
Proof.
  cbn [combineResults summary]. unfold generateSummary. cbv zeta.
  set (rest := nl +:+ _).
  unfold stripThinkingBlocks.
  rewrite stripThinkGo_keep by (by apply (noneBegins_foreign "<" "think>")).
  unfold trim.
  change (trimStart ("## Synthesis Summary" +:+ stripThinkGo rest 0))
    with ("## Synthesis Summary" +:+ stripThinkGo rest 0).
  by apply trimEnd_prefix.
Qed.

Lemma formatEntry_lead (query : string) (response : PerplexityResponse)
    (m : PerplexityModel) (modelRationale approvedPlan : option string)
    (timestamp rawFilename : string) (queryNum : nat) :
  exists rest,
    formatEntry host query response m modelRationale approvedPlan
      timestamp rawFilename queryNum
    = entryLead host query response m modelRationale approvedPlan
        timestamp rawFilename queryNum
      +:+ nl +:+ nl +:+ stripThinkingBlocks (firstContent response) +:+ rest.
Proof.
  unfold formatEntry, entryLead. cbv zeta. eexists.
  rewrite !append_assoc. reflexivity.
Qed.

(** What an append keeps of a thread whose first [## Synthesis] opens
    the findings of an entry: the lines down to the heading of those
    findings. *)
Lemma withoutSynthesis_lead (lead0 r rest : string) :
  includes (lead0 +:+ "### Findings") synthesisMarker = false ->
  withoutSynthesis
    ((lead0 +:+ "### Findings") +:+ nl +:+ nl +:+ ("## Synthesis" +:+ r) +:+ rest)
  = (lead0 +:+ "### Findings") +:+ nl +:+ nl.
Proof.
  intros Hlead. set (lead := lead0 +:+ "### Findings") in *.
  assert (Hlines : includes ((lead +:+ nl) +:+ nl) synthesisMarker = false).
  { by do 2 (apply includes_append_line; [reflexivity|]). }
  assert (E : lead +:+ nl +:+ nl +:+ ("## Synthesis" +:+ r) +:+ rest
              = ((lead +:+ nl) +:+ String LF EmptyString)
                  +:+ "## Synthesis" +:+ r +:+ rest).
  { by rewrite !append_assoc. }
  destruct (withoutSynthesis_cut
              (lead +:+ nl +:+ nl +:+ ("## Synthesis" +:+ r) +:+ rest))
    as [_ Hcut].
  rewrite (Hcut (String.length ((lead +:+ nl) +:+ String LF EmptyString))).
  - rewrite E, take_append. subst lead.
    rewrite !append_assoc, trimEnd_append by reflexivity.
    change (trimEnd ("### Findings" +:+ nl +:+ String LF EmptyString))
      with "### Findings".
    by rewrite !append_assoc.
  - rewrite E. unfold indexOf.
    rewrite indexOfFrom_skip by (by apply noneBegins_last).
    rewrite indexOfFrom_here by apply startsWith_append. lia.
Qed.

Lemma entryLead_heading (query : string) (response : PerplexityResponse)
    (m : PerplexityModel) (modelRationale approvedPlan : option string)
    (timestamp rawFilename : string) (queryNum : nat) :
  exists lead0,
    entryLead host query response m modelRationale approvedPlan
      timestamp rawFilename queryNum = lead0 +:+ "### Findings".
Proof.
  unfold entryLead. cbv zeta. eexists.
  rewrite <- !append_assoc. reflexivity.
Qed.

(** X8. The findings the tool [deep_research] saves begin with the
    heading [## Synthesis Summary], whatever the query, the pattern and
    the answers are.  So when an entry of that tool opens a thread, the
    next save into the thread, of whatever tool, keeps of that entry no
    more than the lines down to the heading of its findings: the
    findings, the citations and the cost are replaced by the new
    entry. *)
Theorem saveSynthesis_entry_cut (query : string) (results : list ModelResult)
    (pattern : SynthesisPattern) (patternRationale : string)
    (approvedPlan : option string) (now : Z) (w : World) :
  (forall p, writable host p = true) ->
  let title := "[Deep Research] " +:+ query in
  let context := Some ("Multi-model synthesis (" +:+ patternId pattern +:+ ")") in
  let result := combineResults significantVariance query results pattern in
  let name := threadName host title w in
  let lead :=
    threadHead title context +:+ rule
      +:+ entryLead host title (syntheticResponse result now) SonarDeepResearch
            (Some patternRationale) approvedPlan
            (dualTimestampFor (clock host (3 + dates w)))
            (rawBackupName host title w) 1 in
  let w1 := snd (saveSynthesis host query pattern patternRationale
                   approvedPlan result now w) in
  researchDir w !! name = None ->
  includes lead synthesisMarker = false ->
  exists findings rest,
    researchDir w1 !! name
    = Some (File (lead +:+ nl +:+ nl +:+ findings +:+ rest))
    /\ findings = stripThinkingBlocks (summary result)
    /\ startsWith findings "## Synthesis Summary" = true
    /\ forall query' response' m' systemPrompt' modelRationale' approvedPlan',
         threadName host query' w1 = name ->
         let queryNum :=
           countQueryHeaders (lead +:+ nl +:+ nl +:+ findings +:+ rest) + 1 in
         researchDir
           (snd (saveResearch host query' response' m' systemPrompt'
                   modelRationale' approvedPlan' w1)) !! name
         = Some (File (lead +:+ nl +:+ nl
                         +:+ savedEntry host query' response' m'
                               modelRationale' approvedPlan' w1 queryNum
                         +:+ savedSynthesis host w1 queryNum)).
Proof.
  intros Hw title context result name lead w1 Hnone Hlead.
  destruct (saveResearch_thread_text host title (syntheticResponse result now)
              SonarDeepResearch context (Some patternRationale) approvedPlan
              w Hw) as [_ Htext].
  { fold name. by rewrite Hnone. }
  fold name in Htext. rewrite Hnone in Htext.
  cbn [threadText] in Htext. rewrite newThread_head in Htext.
  unfold savedEntry in Htext.
  destruct (formatEntry_lead title (syntheticResponse result now)
              SonarDeepResearch (Some patternRationale) approvedPlan
              (dualTimestampFor (clock host (3 + dates w)))
              (rawBackupName host title w) 1) as [rest0 Hentry].
  rewrite Hentry in Htext.
  change (firstContent (syntheticResponse result now))
    with (summary result) in Htext.
  destruct (summary_heading query results pattern) as [r Hr].
  fold result in Hr.
  set (findings := stripThinkingBlocks (summary result)) in *.
  assert (Etext :
    threadHead title context +:+ rule
      +:+ (entryLead host title (syntheticResponse result now)
             SonarDeepResearch (Some patternRationale) approvedPlan
             (dualTimestampFor (clock host (3 + dates w)))
             (rawBackupName host title w) 1
           +:+ nl +:+ nl +:+ findings +:+ rest0)
      +:+ savedSynthesis host w 1
    = lead +:+ nl +:+ nl +:+ findings +:+ rest0 +:+ savedSynthesis host w 1).
  { subst lead. by rewrite !append_assoc. }
  rewrite Etext in Htext.
  pose proof (Htext : researchDir w1 !! name = _) as Htext1. clear Htext.
  exists findings, (rest0 +:+ savedSynthesis host w 1).
  split; [exact Htext1|]. split; [done|]. split.
  { rewrite Hr. apply startsWith_append. }
  intros query' response' m' systemPrompt' modelRationale' approvedPlan'
    Hname queryNum.
  destruct (saveResearch_thread_text host query' response' m' systemPrompt'
              modelRationale' approvedPlan' w1 Hw) as [_ Htext'].
  { rewrite Hname. by rewrite Htext1. }
  rewrite Hname, Htext1 in Htext'.
  rewrite Htext'. do 2 f_equal. cbn [threadText]. fold queryNum.
  destruct (entryLead_heading title (syntheticResponse result now)
              SonarDeepResearch (Some patternRationale) approvedPlan
              (dualTimestampFor (clock host (3 + dates w)))
              (rawBackupName host title w) 1) as [lead0 Hlead0].
  assert (Elead : lead = (threadHead title context +:+ rule +:+ lead0)
                           +:+ "### Findings").
  { subst lead. by rewrite Hlead0, !append_assoc. }
  rewrite Elead in Hlead |- *. rewrite Hr.
  change ("## Synthesis Summary" +:+ r)
    with ("## Synthesis" +:+ (" Summary" +:+ r)).
  rewrite withoutSynthesis_lead by done.
  by rewrite !append_assoc.
Qed.

End DeepResearchEntries.

Lemma saveSynthesis_entry_cut_witness :
  exists findings rest,
    Store.researchDir
      (snd (Dispatcher.saveSynthesis stoppedHost "tea" Synthesis.Truthtracer
              "user-specified truthtracer pattern" None
              (Synthesis.combineResults Synthesis.exactVariance "tea"
                 threeAgreeing Synthesis.Truthtracer)
              1793528430000 Store.emptyWorld))
      !! "deep-research-tea-2026-11-01.md"
    = Some (Store.File
              (threadHead "[Deep Research] tea"
                 (Some "Multi-model synthesis (truthtracer)") +:+ rule
               +:+ entryLead stoppedHost "[Deep Research] tea"
                     (Dispatcher.syntheticResponse
                        (Synthesis.combineResults Synthesis.exactVariance
                           "tea" threeAgreeing Synthesis.Truthtracer)
                        1793528430000)
                     SonarDeepResearch
                     (Some "user-specified truthtracer pattern") None
                     (Store.dualTimestampFor stoppedClock)
                     (rawBackupName stoppedHost "[Deep Research] tea"
                        Store.emptyWorld) 1
               +:+ JS.nl +:+ JS.nl +:+ findings +:+ rest))
    /\ JS.startsWith findings "## Synthesis Summary" = true.
Proof.
  destruct (saveSynthesis_entry_cut stoppedHost Synthesis.exactVariance "tea"
              threeAgreeing Synthesis.Truthtracer
              "user-specified truthtracer pattern" None 1793528430000
              Store.emptyWorld (fun _ => eq_refl) eq_refl)
    as (findings & rest & Htext & _ & Hheading & _).
  - vm_compute. reflexivity.
  - exists findings, rest. split; [exact Htext|exact Hheading].
Defined.

(** ** The names of the files *)

Section Names.
Import JS Store.

Lemma take_take (k n : nat) :
  forall s, k <= n -> take k (take n s) = take k s.
Proof.
  revert n. induction k as [|k IH]; intros [|n] [|c s] H;
    cbn [take]; try done; try lia.
  rewrite IH; [done|lia].
Qed.

Lemma sanitize_take (topic : string) (n : nat) :
  sanitize topic n = take n (trimHyphens (hyphenate (toLowerCase topic) false)).
Proof.
  unfold sanitize, substring. cbn [Nat.max Nat.min drop].
  by rewrite Nat.sub_0_r.
Qed.

(** A text without letter or digit is one run. *)
Lemma hyphenate_one_run (s : string) :
  anyChar isLowerAlnum s = false ->
  hyphenate s true = EmptyString
  /\ (hyphenate s false = EmptyString \/ hyphenate s false = "-").
Proof.
  induction s as [|c s IH]; [by auto|]. cbn [anyChar hyphenate].
  intros [-> Hs]%orb_false_iff. destruct (IH Hs) as [-> _]. by auto.
Qed.

(** X9. The slug in the name of a thread file and of a raw file: it
    has at most as many characters as asked for, fifty for a thread and
    thirty for a raw file, all of them lower-case letters, digits and
    hyphens, without two hyphens in a row and without a hyphen in front;
    the slug of the raw file is the beginning of the slug of the
    thread; queries that differ in the case of their letters alone
    have one slug; and a query without any of the letters a to z and
    without digit has the empty slug, so that all such queries of one
    day go to the thread [-<date>.md]. *)
Theorem sanitize_slug (topic : string) (n : nat) :
  let slug := sanitize topic n in
  (String.length slug <= n
   /\ allChars isSlugChar slug = true
   /\ includes slug "--" = false
   /\ startsWith slug "-" = false)
  /\ (forall k, k <= n -> sanitize topic k = take k slug)
  /\ (forall topic',
        toLowerCase topic' = toLowerCase topic -> sanitize topic' n = slug)
  /\ (anyChar isLowerAlnum (toLowerCase topic) = false -> slug = EmptyString)
  /\ (forall host w,
        fst (generateFilename host topic w)
        = Ok (sanitize topic 50 +:+ "-" +:+ isoDate (clock host (dates w))
                +:+ ".md")
        /\ (writable host (InRawDir (rawBackupName host topic w)) = true ->
            forall response m,
              fst (saveRawResponse host topic response m w)
              = Ok (timestampFor (clock host (dates w)) +:+ "_"
                      +:+ sanitize topic 30 +:+ ".json"))).
Proof.
  intros slug. split; [|split; [|split; [|split]]].
  - destruct (sanitize_shape topic n) as (H1 & H2 & H3 & H4 & _). done.
  - intros k Hk. subst slug. rewrite !sanitize_take. by rewrite take_take.
  - intros topic' H. subst slug. unfold sanitize. by rewrite H.
  - intros H. subst slug. rewrite sanitize_take.
    destruct (hyphenate_one_run _ H) as [_ [-> | ->]]; by destruct n.
  - intros host w. split; [reflexivity|]. intros Hw response m.
    rewrite saveRawResponse_run, Hw. reflexivity.
Qed.

Lemma sanitize_slug_witness :
  Store.sanitize "???" 50 = EmptyString
  /\ Store.sanitize "Is tea a drink?" 4 = JS.take 4 (Store.sanitize "Is tea a drink?" 50).
Proof.
  split.
  - apply (proj1 (proj2 (proj2 (proj2 (sanitize_slug "???" 50))))).
    reflexivity.
  - apply (proj1 (proj2 (sanitize_slug "Is tea a drink?" 50)) 4). lia.
Defined.

End Names.

(** ** What a save leaves alone *)

Section Frame.
Import JS Store.

Variable host : Host.

(** X10. [saveResearch] touches two files at most, and no other:
    whatever it is given and however it ends, every other entry of the
    research directory and every other raw file is as it was, and the
    files it has written before are not written again. *)
Theorem saveResearch_frame (query : string) (response : PerplexityResponse)
    (m : PerplexityModel)
    (systemPrompt modelRationale approvedPlan : option string) (w : World) :
  let w' := snd (saveResearch host query response m
                   systemPrompt modelRationale approvedPlan w) in
  (forall other,
     other <> threadName host query w ->
     researchDir w' !! other = researchDir w !! other)
  /\ (forall other,
        other <> rawBackupName host query w ->
        rawDir w' !! other = rawDir w !! other)
  /\ (exists new,
        written w' = written w ++ new
        /\ List.length new <= 2
        /\ forall wr, wr ∈ new ->
             target wr = InRawDir (rawBackupName host query w)
             \/ target wr = InResearchDir (threadName host query w))
  /\ dates w <= dates w' <= dates w + 5.
Proof.
  intros w'. subst w'. rewrite saveResearch_run.
  destruct (writable host (InRawDir (rawBackupName host query w)));
    cbn [negb].
  2: { split; [done|]. split; [done|]. split; [|cbn; lia].
       exists []. rewrite app_nil_r. split; [done|]. split; [simpl; lia|].
       intros wr Hwr. by apply elem_of_nil in Hwr. }
  assert (Hraw : forall other,
             other <> rawBackupName host query w ->
             rawDir (store (rawBackup host query response m w) (ticks 2 w))
               !! other = rawDir w !! other).
  { intros other Hother. cbn. by rewrite lookup_insert_ne. }
  destruct (researchDir w !! threadName host query w) as [[text|]|];
    try destruct (writable host (InResearchDir (threadName host query w)));
    (split; [intros other Hother; cbn; by rewrite ?lookup_insert_ne|]);
    (split; [exact Hraw|]);
    (split; [|cbn; lia]).
  all: first
    [ eexists [_; _]; split; [cbn; by rewrite <- app_assoc|];
      split; [simpl; lia|];
      intros wr [->|[->|Hwr%elem_of_nil]%elem_of_cons]%elem_of_cons;
      [by left|by right|done]
    | eexists [_]; split; [reflexivity|];
      split; [simpl; lia|];
      intros wr [->|Hwr%elem_of_nil]%elem_of_cons; [by left|done] ].
Qed.

End Frame.

Lemma saveResearch_frame_witness :
  Store.researchDir (snd (saveLeaf afterFirstTea)) !! teaThread
  = Store.researchDir afterFirstTea !! teaThread.
Proof.
  apply (proj1 (saveResearch_frame stoppedHost leafQuery
                  (answer "Tea is a drink." ["https://tea.example/leaf"])
                  Sonar None (Some "user-specified") None afterFirstTea)).
  vm_compute. discriminate.
Defined.

(** ** Raw files of one name *)

Section RawCollision.
Import JS Store.

Variable host : Host.

Lemma saveResearch_rawDir (query : string) (response : PerplexityResponse)
    (m : PerplexityModel)
    (systemPrompt modelRationale approvedPlan : option string) (w : World) :
  writable host (InRawDir (rawBackupName host query w)) = true ->
  rawDir (snd (saveResearch host query response m
                 systemPrompt modelRationale approvedPlan w))
  = <[ rawBackupName host query w :=
         {| saved_at := toISOString (clock host (S (dates w)));
            raw_model := m;
            raw_topic := query;
            raw_response := response |} ]> (rawDir w).
Proof.
  intros Hw. rewrite saveResearch_run, Hw. cbn [negb].
  destruct (researchDir w !! threadName host query w) as [[text|]|];
    try destruct (writable host (InResearchDir (threadName host query w)));
    reflexivity.
Qed.

(** X11. The name of a raw file is made of the second of the save and
    of the first thirty characters of the slug.  Two saves in one
    second whose queries agree that far write one raw file: the second
    save replaces the response the first has backed up, no raw file is
    added, and this holds however the second save ends afterwards. *)
Theorem saveResearch_raw_collision (query1 query2 : string)
    (response1 response2 : PerplexityResponse) (m1 m2 : PerplexityModel)
    (systemPrompt1 modelRationale1 approvedPlan1 : option string)
    (systemPrompt2 modelRationale2 approvedPlan2 : option string)
    (w : World) :
  let w1 := snd (saveResearch host query1 response1 m1
                   systemPrompt1 modelRationale1 approvedPlan1 w) in
  let w2 := snd (saveResearch host query2 response2 m2
                   systemPrompt2 modelRationale2 approvedPlan2 w1) in
  let name := rawBackupName host query1 w in
  writable host (InRawDir name) = true ->
  timestampFor (clock host (dates w1)) = timestampFor (clock host (dates w)) ->
  sanitize query2 30 = sanitize query1 30 ->
  (exists savedAt,
     rawDir w1 !! name
     = Some {| saved_at := savedAt; raw_model := m1; raw_topic := query1;
               raw_response := response1 |})
  /\ (exists savedAt,
        rawDir w2 !! name
        = Some {| saved_at := savedAt; raw_model := m2; raw_topic := query2;
                  raw_response := response2 |})
  /\ (forall other, is_Some (rawDir w2 !! other) <-> is_Some (rawDir w1 !! other)).
Proof.
  intros w1 w2 name Hw Htime Hslug.
  assert (Hname : rawBackupName host query2 w1 = name).
  { subst name. unfold rawBackupName. by rewrite Htime, Hslug. }
  assert (H1 : rawDir w1 = <[ name :=
                 {| saved_at := toISOString (clock host (S (dates w)));
                    raw_model := m1; raw_topic := query1;
                    raw_response := response1 |} ]> (rawDir w)).
  { by apply saveResearch_rawDir. }
  assert (H2 : rawDir w2 = <[ name :=
                 {| saved_at := toISOString (clock host (S (dates w1)));
                    raw_model := m2; raw_topic := query2;
                    raw_response := response2 |} ]> (rawDir w1)).
  { subst w2. rewrite saveResearch_rawDir; by rewrite Hname. }
  split; [|split].
  - eexists. by rewrite H1, lookup_insert_eq.
  - eexists. by rewrite H2, lookup_insert_eq.
  - intros other. rewrite H2. destruct (decide (other = name)) as [->|Hne].
    + rewrite lookup_insert_eq, H1, lookup_insert_eq. by split; eauto.
    + by rewrite lookup_insert_ne.
Qed.

End RawCollision.

Lemma saveResearch_raw_collision_witness :
  exists savedAt,
    Store.rawDir
      (snd (Store.saveResearch stoppedHost coffeeBenefits quotingAnswer Sonar
              None None None
              (snd (Store.saveResearch stoppedHost teaBenefits
                      (answer "Tea is a drink." []) SonarPro None None None
                      Store.emptyWorld))))
      !! rawBackupName stoppedHost teaBenefits Store.emptyWorld
    = Some {| Store.saved_at := savedAt; Store.raw_model := Sonar;
              Store.raw_topic := coffeeBenefits;
              Store.raw_response := quotingAnswer |}.
Proof.
  refine (proj1 (proj2 (saveResearch_raw_collision stoppedHost
                          teaBenefits coffeeBenefits
                          (answer "Tea is a drink." []) quotingAnswer
                          SonarPro Sonar None None None None None None
                          Store.emptyWorld _ _ _))).
  - reflexivity.
  - vm_compute. reflexivity.
  - vm_compute. reflexivity.
Defined.

(** ** Reading a thread *)

Section ReadThread.
Import JS Store Reader.

Variable elsewhere : string -> option Dirent.

Lemma toLowerCase_append (a b : string) :
  toLowerCase (a +:+ b) = toLowerCase a +:+ toLowerCase b.
Proof.
  induction a as [|c a IH]; [done|].
  rewrite append_cons. cbn [toLowerCase]. by rewrite IH, append_cons.
Qed.

Lemma rev_app_append (a : string) :
  forall acc, rev_app a acc = rev_app a EmptyString +:+ acc.
Proof.
  induction a as [|c a IH]; intros acc; [done|]. cbn [rev_app].
  rewrite (IH (String c acc)), (IH (String c EmptyString)).
  by rewrite append_assoc.
Qed.

Lemma rev_app_of_append (a b : string) :
  rev_app (a +:+ b) EmptyString
  = rev_app b EmptyString +:+ rev_app a EmptyString.
Proof.
  induction a as [|c a IH].
  - change (EmptyString +:+ b) with b. by rewrite append_empty_r.
  - rewrite append_cons. cbn [rev_app].
    rewrite (rev_app_append (a +:+ b)), IH, (rev_app_append a (String c _)).
    by rewrite append_assoc.
Qed.

Lemma endsWith_append (a p : string) : endsWith (a +:+ p) p = true.
Proof. unfold endsWith. rewrite rev_app_of_append. apply startsWith_append. Qed.

Lemma includes_prefix (a b : string) : includes (a +:+ b) a = true.
Proof. apply includes_startsWith, startsWith_append. Qed.

Lemma readdirSync_elem (w : World) (name : string) :
  name ∈ readdirSync w <-> name = "raw" \/ is_Some (researchDir w !! name).
Proof.
  unfold readdirSync. rewrite elem_of_cons, list_elem_of_fmap.
  apply or_iff_compat_l. split.
  - intros ([k e] & -> & Hin). apply elem_of_map_to_list in Hin. by eexists.
  - intros [e He]. exists (name, e). split; [done|].
    by apply elem_of_map_to_list.
Qed.

(** What [readThread] returns for a name without path separator. *)
Lemma readThread_spec (w : World) (topicOrId : string) :
  includes (topicOrId +:+ ".md") "/" = false ->
  (forall content,
     researchDir w !! (topicOrId +:+ ".md") = Some (File content) ->
     readThread elsewhere w topicOrId = Ok (Some content))
  /\ (forall content,
        readThread elsewhere w topicOrId = Ok (Some content) ->
        exists name,
          researchDir w !! name = Some (File content)
          /\ endsWith name ".md" = true
          /\ includes (toLowerCase name) (toLowerCase topicOrId) = true)
  /\ (readThread elsewhere w topicOrId = Ok None <->
      forall name,
        is_Some (researchDir w !! name) ->
        endsWith name ".md" = true ->
        includes (toLowerCase name) (toLowerCase topicOrId) = false).
Proof.
  intros Hsep. unfold readThread, entryAt. cbv zeta. rewrite Hsep.
  set (wanted := fun f => includes (toLowerCase f) (toLowerCase topicOrId)
                          && endsWith f ".md").
  assert (Hexact : wanted (topicOrId +:+ ".md") = true).
  { subst wanted. cbv beta.
    by rewrite toLowerCase_append, includes_prefix, endsWith_append. }
  split; [by intros content ->|]. split.
  - intros content.
    destruct (researchDir w !! (topicOrId +:+ ".md")) as [[text|]|] eqn:Hfile.
    + intros [= ->]. exists (topicOrId +:+ ".md").
      apply andb_true_iff in Hexact as [? ?]. done.
    + done.
    + destruct (List.find wanted (readdirSync w)) as [f|] eqn:Hfind; [|done].
      apply List.find_some in Hfind as [_ Hf].
      apply andb_true_iff in Hf as [? ?].
      destruct (researchDir w !! f) as [[text|]|] eqn:Hf'; [|done|done].
      intros [= ->]. by exists f.
  - split.
    + intros Hnone name [e He] Hmd.
      destruct (researchDir w !! (topicOrId +:+ ".md")) as [[text|]|] eqn:Hfile;
        [done|done|].
      destruct (List.find wanted (readdirSync w)) as [f|] eqn:Hfind.
      { by destruct (researchDir w !! f) as [[text|]|]. }
      pose proof (List.find_none _ _ Hfind name) as Hname.
      rewrite <- list_elem_of_In, readdirSync_elem in Hname.
      specialize (Hname (or_intror (ex_intro _ e He))).
      subst wanted. cbv beta in Hname. rewrite Hmd, andb_true_r in Hname.
      done.
    + intros Hall.
      assert (Hnot : forall name, is_Some (researchDir w !! name) ->
                                  wanted name = false).
      { intros name Hname. subst wanted. cbv beta.
        destruct (endsWith name ".md") eqn:Hmd; [|apply andb_false_r].
        by rewrite (Hall name Hname Hmd). }
      destruct (researchDir w !! (topicOrId +:+ ".md")) as [e|] eqn:Hfile.
      { rewrite (Hnot (topicOrId +:+ ".md")) in Hexact by eauto. done. }
      destruct (List.find wanted (readdirSync w)) as [f|] eqn:Hfind; [|done].
      apply List.find_some in Hfind as [Hin Hf].
      rewrite <- list_elem_of_In, readdirSync_elem in Hin.
      destruct Hin as [->|Hin]; [|by rewrite (Hnot f Hin) in Hf].
      subst wanted. cbv beta in Hf.
      change (endsWith "raw" ".md") with false in Hf.
      by rewrite andb_false_r in Hf.
Qed.

(** X12. [readThread], for a name without path separator: a file of
    exactly that name with [.md] is returned first; a text returned is
    the content of a file of the research directory whose name ends
    with [.md] and holds the name asked for, whatever the case of the
    letters; and nothing is returned exactly when no entry of the
    directory has such a name. *)
Theorem readThread_found (w : World) (topicOrId : string) :
  includes (topicOrId +:+ ".md") "/" = false ->
  (forall content,
     researchDir w !! (topicOrId +:+ ".md") = Some (File content) ->
     readThread elsewhere w topicOrId = Ok (Some content))
  /\ (forall content,
        readThread elsewhere w topicOrId = Ok (Some content) ->
        exists name,
          researchDir w !! name = Some (File content)
          /\ endsWith name ".md" = true
          /\ includes (toLowerCase name) (toLowerCase topicOrId) = true)
  /\ (readThread elsewhere w topicOrId = Ok None <->
      forall name,
        is_Some (researchDir w !! name) ->
        endsWith name ".md" = true ->
        includes (toLowerCase name) (toLowerCase topicOrId) = false).
Proof. apply readThread_spec. Qed.

End ReadThread.

Lemma readThread_found_witness :
  Reader.readThread (fun _ => None) afterFirstLeaf "is-tea-a-drink-2026-11-01"
  = Ok (Some (threadOf afterFirstLeaf leafThread)).
Proof.
  apply (proj1 (readThread_found (fun _ => None) afterFirstLeaf
                  "is-tea-a-drink-2026-11-01" eq_refl)).
  vm_compute. reflexivity.
Defined.

(** ** Finding again what was saved *)

Section SavedAndFound.
Import JS Store Reader.

Variable host : Host.

Lemma includes_append_l (t a b : string) :
  includes a t = true -> includes (a +:+ b) t = true.
Proof.
  induction a as [|c a IH]; cbn [includes].
  - rewrite orb_false_r. intros H. destruct t; [|done].
    apply includes_empty.
  - intros [H|H]%orb_true_iff; rewrite append_cons; cbn [includes].
    + change (String c (a +:+ b)) with (String c a +:+ b).
      by rewrite (startsWith_append_l t _ b H).
    + rewrite (IH H). apply orb_true_r.
Qed.

Lemma includes_middle (a s b : string) : includes (a +:+ s +:+ b) s = true.
Proof. apply includes_append_r, includes_prefix. Qed.

Lemma includes_trans (s t u : string) :
  includes s t = true -> includes t u = true -> includes s u = true.
Proof.
  intros Hst Htu.
  assert (Hpre : forall t s, startsWith s t = true -> includes t u = true ->
                             includes s u = true).
  { clear. intros t s Hs Hu. destruct (startsWith_prefix t s Hs) as [r ->].
    by apply includes_append_l. }
  induction s as [|c s IH]; cbn [includes] in Hst;
    apply orb_true_iff in Hst as [Hst|Hst]; eauto; try done.
  cbn [includes]. rewrite (IH Hst). apply orb_true_r.
Qed.

Lemma filenameFor_md (query : string) (d : DateReading) :
  filenameFor query d
  = (sanitize query 50 +:+ "-" +:+ isoDate d) +:+ ".md".
Proof. unfold filenameFor. cbv zeta. by rewrite !append_assoc. Qed.

Lemma slug_no_separator (query : string) (n : nat) :
  anyChar (Ascii.eqb "/") (sanitize query n) = false.
Proof.
  apply (allChars_anyChar isSlugChar).
  - intros c. by destruct c as [[] [] [] [] [] [] [] []].
  - by destruct (sanitize_shape query n) as (_ & H & _).
Qed.

Lemma includes_char (c : ascii) (s : string) :
  includes s (String c EmptyString) = anyChar (Ascii.eqb c) s.
Proof.
  induction s as [|d s IH]; [done|]. cbn [includes startsWith anyChar].
  rewrite IH. by destruct s; rewrite andb_true_r.
Qed.

(** The entry of a save holds the findings it saves. *)
Lemma savedEntry_findings (query : string) (response : PerplexityResponse)
    (m : PerplexityModel) (modelRationale approvedPlan : option string)
    (w : World) (queryNum : nat) :
  includes (savedEntry host query response m modelRationale approvedPlan
              w queryNum)
    (stripThinkingBlocks (firstContent response)) = true.
Proof.
  unfold savedEntry.
  destruct (formatEntry_lead host query response m modelRationale approvedPlan
              (dualTimestampFor (clock host (3 + dates w)))
              (rawBackupName host query w) queryNum) as [rest ->].
  set (lead := entryLead _ _ _ _ _ _ _ _ _).
  replace (lead +:+ nl +:+ nl
             +:+ stripThinkingBlocks (firstContent response) +:+ rest)
    with ((lead +:+ nl +:+ nl)
            +:+ stripThinkingBlocks (firstContent response) +:+ rest)
    by (by rewrite !append_assoc).
  apply includes_middle.
Qed.

(** The entry of a save holds the query, when that has sixty
    characters at most. *)
Lemma savedEntry_query (query : string) (response : PerplexityResponse)
    (m : PerplexityModel) (modelRationale approvedPlan : option string)
    (w : World) (queryNum : nat) :
  String.length query <= 60 ->
  includes (savedEntry host query response m modelRationale approvedPlan
              w queryNum) query = true.
Proof.
  intros Hlen. unfold savedEntry, formatEntry. cbv zeta.
  destruct (Nat.ltb_spec 60 (String.length query)); [lia|].
  set (after := nl +:+ _).
  replace ("## Query " +:+ ofNat queryNum +:+ ": " +:+ query +:+ after)
    with (("## Query " +:+ ofNat queryNum +:+ ": ") +:+ query +:+ after)
    by (by rewrite !append_assoc).
  apply includes_middle.
Qed.

Lemma threadText_entry (query : string) (response : PerplexityResponse)
    (m : PerplexityModel)
    (systemPrompt modelRationale approvedPlan : option string) (w : World)
    (existing : option string) :
  exists before queryNum after,
    threadText host query response m systemPrompt modelRationale approvedPlan
      w existing
    = before +:+ savedEntry host query response m modelRationale approvedPlan
                   w queryNum +:+ after.
Proof.
  destruct existing as [text|]; cbn [threadText].
  - by eexists _, _, _.
  - rewrite newThread_head. eexists _, _, _.
    rewrite <- (append_assoc (threadHead _ _)). reflexivity.
Qed.

Lemma splitWhiteSpaceGo_includes (s : string) :
  (forall h t, splitWhiteSpaceGo s false = h :: t -> startsWith s h = true)
  /\ forall inRun term,
       term ∈ splitWhiteSpaceGo s inRun -> includes s term = true.
Proof.
  induction s as [|c s [IHp IHi]].
  - split; [by intros h t [= <- <-]|].
    intros inRun term Hin. apply list_elem_of_singleton in Hin as ->. done.
  - cbn [splitWhiteSpaceGo]. destruct (isWhiteSpace c).
    + split; [by intros h t [= <- <-]|].
      intros [] term Hin.
      * cbn [includes]. rewrite (IHi true term Hin). apply orb_true_r.
      * apply elem_of_cons in Hin as [->|Hin]; [apply includes_empty|].
        cbn [includes]. rewrite (IHi true term Hin). apply orb_true_r.
    + destruct (splitWhiteSpaceGo s false) as [|h t] eqn:Hs.
      { by destruct (proj1 (splitWhiteSpaceGo_terms s false)). }
      pose proof (IHp h t eq_refl) as Hh.
      assert (Hfirst : startsWith (String c s) (String c h) = true).
      { cbn [startsWith]. by rewrite Ascii.eqb_refl. }
      split; [by intros h' t' [= <- <-]|].
      intros inRun term Hin. apply elem_of_cons in Hin as [->|Hin].
      * by apply includes_startsWith.
      * cbn [includes]. rewrite (IHi false term) by (rewrite Hs; by right).
        apply orb_true_r.
Qed.

Lemma savedEntry_notBlank (query : string) (response : PerplexityResponse)
    (m : PerplexityModel) (modelRationale approvedPlan : option string)
    (w : World) (queryNum : nat) :
  notBlank (savedEntry host query response m modelRationale approvedPlan
              w queryNum) = true.
Proof. reflexivity. Qed.

(** X13. What [saveResearch] has saved is found again.  After a save
    that returns, [readThread] gives the text of the thread for the
    name of its file without [.md], and [searchResearch] returns the
    thread for keywords whose terms stand all in the findings saved,
    whatever the case of the letters; for the query itself, when it
    has sixty characters at most. *)
Theorem saveResearch_found_again (elsewhere : string -> option Dirent)
    (query : string) (response : PerplexityResponse) (m : PerplexityModel)
    (systemPrompt modelRationale approvedPlan : option string) (w : World) :
  (forall p, writable host p = true) ->
  let name := threadName host query w in
  let date := isoDate (clock host (2 + dates w)) in
  let w' := snd (saveResearch host query response m
                   systemPrompt modelRationale approvedPlan w) in
  researchDir w !! name <> Some Directory ->
  exists text,
    researchDir w' !! name = Some (File text)
    /\ (anyChar (Ascii.eqb "/") date = false ->
        readThread elsewhere w' (sanitize query 50 +:+ "-" +:+ date)
        = Ok (Some text))
    /\ (forall keywords,
          (forall term,
             term ∈ searchTermsOf keywords ->
             includes (toLowerCase (stripThinkingBlocks (firstContent response)))
               term = true) ->
          exists hit,
            hit ∈ searchResearch w' keywords
            /\ hit_file hit = name
            /\ hit_matches hit = snippets (searchTermsOf keywords) text)
    /\ (String.length query <= 60 ->
        exists hit, hit ∈ searchResearch w' query /\ hit_file hit = name).
Proof.
  intros Hw name date w' Hdir.
  destruct (saveResearch_thread_text host query response m systemPrompt
              modelRationale approvedPlan w Hw Hdir) as [_ Htext].
  fold name w' in Htext. eexists. split; [exact Htext|].
  set (text := threadText _ _ _ _ _ _ _ _ _) in *.
  assert (Hname : name = (sanitize query 50 +:+ "-" +:+ date) +:+ ".md").
  { apply filenameFor_md. }
  assert (Hmd : endsWith name ".md" = true).
  { rewrite Hname. apply endsWith_append. }
  destruct (threadText_entry query response m systemPrompt modelRationale
              approvedPlan w
              match researchDir w !! name with
              | Some (File text) => Some text
              | _ => None
              end) as (before & queryNum & after & Hparts).
  fold text in Hparts.
  assert (Hnb : notBlank text = true).
  { rewrite Hparts. unfold notBlank.
    rewrite !anyChar_app. fold (notBlank (savedEntry host query response m
                                            modelRationale approvedPlan w queryNum)).
    rewrite savedEntry_notBlank. by rewrite orb_true_r. }
  assert (Hfound : forall keywords,
             (forall term, term ∈ searchTermsOf keywords ->
                           includes (toLowerCase text) term = true) ->
             exists hit,
               hit ∈ searchResearch w' keywords
               /\ hit_file hit = name
               /\ hit_matches hit = snippets (searchTermsOf keywords) text).
  { intros keywords Hterms.
    exists {| hit_file := name; hit_topic := topicOf name text;
              hit_matches := snippets (searchTermsOf keywords) text |}.
    split; [|done]. apply searchResearch_elem. exists text.
    cbn [hit_file hit_topic hit_matches]. split; [done|].
    split; [|done]. unfold allTermsPresent. cbv zeta.
    apply forallb_forall. intros term Hin. apply Hterms.
    by apply list_elem_of_In. }
  assert (Hin : forall s, includes (savedEntry host query response m
                            modelRationale approvedPlan w queryNum) s = true ->
                          forall term, includes (toLowerCase s) term = true ->
                          includes (toLowerCase text) term = true).
  { intros s Hs term Hterm. rewrite Hparts, !toLowerCase_append.
    apply includes_append_r, includes_append_l.
    apply (includes_trans _ (toLowerCase s)); [|done].
    by rewrite includes_toLowerCase. }
  split; [|split].
  - intros Hdate.
    apply (proj1 (readThread_spec elsewhere w' _
                    ltac:(rewrite includes_char, <- Hname;
                          rewrite Hname, !anyChar_app, slug_no_separator, Hdate;
                          reflexivity))).
    by rewrite <- Hname.
  - intros keywords Hterms. apply Hfound. intros term Hterm.
    apply (Hin _ (savedEntry_findings _ _ _ _ _ _ _)). by apply Hterms.
  - intros Hlen. destruct (Hfound query) as (hit & Hhit & Hfile & _);
      [|by exists hit].
    intros term Hterm.
    apply (Hin _ (savedEntry_query _ _ _ _ _ _ _ Hlen)).
    unfold searchTermsOf, splitWhiteSpace in Hterm.
    by apply (proj2 (splitWhiteSpaceGo_includes _) false).
Qed.

End SavedAndFound.

Lemma saveResearch_found_again_witness :
  exists text,
    Store.researchDir afterFirstLeaf !! leafThread = Some (Store.File text)
    /\ exists hit,
         hit ∈ Store.searchResearch afterFirstLeaf leafQuery
         /\ Store.hit_file hit = leafThread.
Proof.
  destruct (saveResearch_found_again stoppedHost (fun _ => None) leafQuery
              (answer "Tea is a drink." ["https://tea.example/leaf"])
              Sonar None (Some "user-specified") None Store.emptyWorld
              (fun _ => eq_refl))
    as (text & Htext & _ & _ & Hquery).
  - discriminate.
  - exists text. split; [exact Htext|]. apply Hquery. vm_compute. lia.
Defined.

(** ** The tools *)

Section ToolContracts.
Import JS Client Store Server.

Variable host : Host.
Variable service : Service.
Variable significantVariance : list nat -> bool.
Variable errnoMessage : string -> string -> string.
Variable fullPath : Path -> string.
Variable formatSynthesis : SynthesisResult -> string.
Variable elsewhere : string -> option Dirent.

Lemma includes_prefix3 (a b c rest : string) :
  includes (a +:+ b +:+ c +:+ rest) (a +:+ b +:+ c) = true.
Proof.
  replace (a +:+ b +:+ c +:+ rest) with ((a +:+ b +:+ c) +:+ rest)
    by (by rewrite !append_assoc).
  apply includes_prefix.
Qed.

(** X14. One call of the tool [research] sends one request and no
    more, for the query, with the prompt of the context and for the
    model asked for, which no context overrides; without a model it is
    [sonar-reasoning-pro] in the context [rca] and the model
    [analyzeQueryForModel] recommends in the others.  When no answer
    comes the store is left as it was and the result is an error that
    offers another model than the one that failed; when an answer
    comes it is saved, and the result is an error exactly when the save
    throws.  No exception leaves the tool. *)
Theorem research_contract (args : ResearchArgs) (s : Sys) :
  let query := research_query args in
  let context := default General (research_context args) in
  let chosen := modelAndRationale context (research_model args) query in
  let options :=
    searchOptions context (research_recency args)
      (research_domain_filter args)
      (research_return_related_questions args) in
  let request := buildRequest query (fst chosen) options in
  let run := guarded errnoMessage
               (research host service errnoMessage fullPath args) s in
  net (snd run) = net s ++ [request]
  /\ messages request
     = [ {| role := System; content := SYSTEM_PROMPTS context |};
         {| role := User; content := query |} ]
  /\ model request = Value (fst chosen)
  /\ (forall m, research_model args = Some m -> fst chosen = m)
  /\ (research_model args = None ->
      fst chosen = if isRca context then SonarReasoningPro
                   else recommended (analyzeQueryForModel query))
  /\ alternativeModel (fst chosen) <> fst chosen
  /\ (exists result, fst run = Ok result)
  /\ ((forall response, service (net s) request <> FetchJson response) ->
      world (snd run) = world s
      /\ exists result,
           fst run = Ok result
           /\ result_isError result = true
           /\ includes (result_text result)
                ("2. **Try alternative model**: "
                   +:+ modelId (alternativeModel (fst chosen)) +:+ nl) = true)
  /\ (forall response,
        service (net s) request = FetchJson response ->
        let saved :=
          saveResearch host query response (fst chosen)
            (Some (SYSTEM_PROMPTS context)) (Some (snd chosen))
            (research_approved_plan args) (world s) in
        world (snd run) = snd saved
        /\ match fst saved with
           | Ok filePath =>
               fst run
               = Ok {| result_text :=
                         Formatter.formatResponseWithCitations (hostname host)
                           response
                         +:+ nl +:+ nl +:+ "---" +:+ nl +:+ "*Saved to: "
                         +:+ fullPath filePath +:+ "*";
                       result_isError := false |}
           | Throw e =>
               fst run
               = Ok {| result_text := "Error: " +:+ errorMessage errnoMessage e;
                       result_isError := true |}
           end).
Proof.
  intros query context chosen options request run.
  assert (Hrun : run =
    match service (net s) request with
    | FetchJson response =>
        match saveResearch host query response (fst chosen)
                (Some (SYSTEM_PROMPTS context)) (Some (snd chosen))
                (research_approved_plan args) (world s) with
        | (Ok filePath, w') =>
            (Ok {| result_text :=
                     Formatter.formatResponseWithCitations (hostname host)
                       response
                     +:+ nl +:+ nl +:+ "---" +:+ nl +:+ "*Saved to: "
                     +:+ fullPath filePath +:+ "*";
                   result_isError := false |},
             {| net := net s ++ [request]; world := w' |})
        | (Throw e, w') =>
            (Ok {| result_text := "Error: " +:+ errorMessage errnoMessage e;
                   result_isError := true |},
             {| net := net s ++ [request]; world := w' |})
        end
    | failure =>
        (Ok {| result_text :=
                 "**API call failed**: "
                 +:+ errorMessage errnoMessage
                       match failure with
                       | FetchRejects errorMsg =>
                           Error ("Network error calling Perplexity API: "
                                    +:+ errorMsg)
                       | FetchNotOk status errorText =>
                           PerplexityAPIError status
                             ("Perplexity API error (" +:+ ofZ status +:+ "): "
                                +:+ errorText)
                       | FetchMalformed msg => SyntaxError msg
                       | FetchJson _ => Error EmptyString
                       end +:+ nl +:+
                 nl +:+
                 "**Options:**" +:+ nl +:+
                 "1. **Retry** with same model (" +:+ modelId (fst chosen) +:+ ")"
                   +:+ nl +:+
                 "2. **Try alternative model**: "
                   +:+ modelId (alternativeModel (fst chosen)) +:+ nl +:+
                 "3. **Reformulate query** - simplify or clarify the question"
                   +:+ nl +:+
                 "4. **Abort** - cancel this research" +:+ nl +:+
                 nl +:+
                 "What would you like to do?";
               result_isError := true |},
         {| net := net s ++ [request]; world := world s |})
    end).
  { subst run. unfold guarded, research, tryCatch, bind, ret, onNet, onStore,
      search. cbv zeta. fold query context. fold chosen. fold options.
    fold request.
    destruct (service (net s) request) as [msg|status body|msg|response];
      cbn [fst snd net world]; try reflexivity.
    destruct (saveResearch host query response (fst chosen)
                (Some (SYSTEM_PROMPTS context)) (Some (snd chosen))
                (research_approved_plan args) (world s)) as [[filePath|e] w'];
      reflexivity. }
  split.
  { rewrite Hrun. destruct (service (net s) request); try done.
    by destruct (saveResearch _ _ _ _ _ _ _ _) as [[?|?] ?]. }
  split; [reflexivity|]. split; [reflexivity|].
  split.
  { intros m Hm. subst chosen. unfold modelAndRationale. rewrite Hm.
    cbv zeta. rewrite bool_decide_eq_true_2 by eauto.
    rewrite andb_false_r. by destruct (isRca context). }
  split.
  { intros Hm. subst chosen. unfold modelAndRationale. rewrite Hm.
    cbv zeta. rewrite bool_decide_eq_false_2 by (by intros [? ?]).
    rewrite andb_true_r. by destruct (isRca context). }
  split; [by destruct (fst chosen)|].
  split.
  { rewrite Hrun. destruct (service (net s) request); eauto.
    destruct (saveResearch _ _ _ _ _ _ _ _) as [[?|?] ?]; eauto. }
  split.
  - intros Hfail. rewrite Hrun.
    destruct (service (net s) request) as [msg|status body|msg|response];
      try (by destruct (Hfail response));
      (split; [done|]; eexists; split; [reflexivity|]; split; [done|]);
      cbn [result_text];
      repeat first [ apply includes_prefix3 | apply includes_append_r ].
  - intros response Hresponse saved. subst saved. rewrite Hrun, Hresponse.
    by destruct (saveResearch _ _ _ _ _ _ _ _) as [[?|?] ?].
Qed.

Lemma saveResearch_written (query : string) (response : PerplexityResponse)
    (m : PerplexityModel)
    (systemPrompt modelRationale approvedPlan : option string) (w : World) :
  forall wr,
    wr ∈ written (snd (saveResearch host query response m
                          systemPrompt modelRationale approvedPlan w)) ->
    wr ∈ written w
    \/ wr = rawBackup host query response m w
    \/ exists text, wr = WriteThread (threadName host query w) text.
Proof.
  intros wr. rewrite saveResearch_run.
  destruct (writable host (InRawDir (rawBackupName host query w)));
    cbn [negb]; [|by left].
  destruct (researchDir w !! threadName host query w) as [[text|]|];
    try destruct (writable host (InResearchDir (threadName host query w)));
    intros H; cbn in H;
    rewrite ?elem_of_app, ?elem_of_cons, ?elem_of_nil in H;
    repeat match goal with H : _ \/ _ |- _ => destruct H as [H|H] end;
    try done; subst; eauto.
Qed.

(** X15. One call of the tool [deep_research] sends the requests of
    [synthesize] for its pattern, which is the pattern asked for or,
    without one, the pattern [recommendPattern] names, of two or three
    steps.  When a step fails nothing is written and the result is an
    error; when all are answered the store is given one made-up
    response that holds the summary, the combined citations and no
    tokens, under the model [sonar-deep-research]: what the tool writes
    is the raw backup of that response and the thread, and no answer of
    a step as it came.  No exception leaves the tool. *)
Theorem deep_research_contract (args : DeepResearchArgs) (now : Z) (s : Sys) :
  let query := deep_query args in
  let pattern :=
    if truthyPattern (deep_pattern args)
    then default Synthesis.MultiPerspective (deep_pattern args)
    else Synthesis.recommendPattern query in
  let patternRationale :=
    if truthyPattern (deep_pattern args)
    then "user-specified " +:+ Dispatcher.patternId pattern +:+ " pattern"
    else "auto-selected " +:+ Dispatcher.patternId pattern
           +:+ " pattern based on query analysis" in
  let synthesis :=
    Synthesis.synthesize significantVariance service query pattern None
      (net s) in
  let run := guarded errnoMessage
               (deep_research host service significantVariance errnoMessage
                  fullPath formatSynthesis args now) s in
  net (snd run) = snd synthesis
  /\ (forall p, deep_pattern args = Some p ->
                Dispatcher.patternId p <> EmptyString -> pattern = p)
  /\ (truthyPattern (deep_pattern args) = false ->
      pattern = Synthesis.recommendPattern query
      /\ 2 <= List.length (Synthesis.getModelsForPattern pattern) <= 3)
  /\ (exists result, fst run = Ok result)
  /\ (forall e,
        fst synthesis = Throw e ->
        world (snd run) = world s
        /\ exists result,
             fst run = Ok result
             /\ result_isError result = true
             /\ includes (result_text result)
                  ("2. **Try simpler pattern**: " +:+ simplerPattern pattern
                     +:+ nl) = true)
  /\ (forall result,
        fst synthesis = Ok result ->
        let made := Dispatcher.syntheticResponse result now in
        let title := "[Deep Research] " +:+ query in
        let saved :=
          Dispatcher.saveSynthesis host query pattern patternRationale
            (deep_approved_plan args) result now (world s) in
        world (snd run) = snd saved
        /\ firstContent made = summary result
        /\ citations made = Some (allCitations result)
        /\ total_tokens (usage made) = 0%Z
        /\ (forall wr,
              wr ∈ written (world (snd run)) ->
              wr ∈ written (world s)
              \/ wr = rawBackup host title made SonarDeepResearch (world s)
              \/ exists text,
                   wr = WriteThread (threadName host title (world s)) text)
        /\ match fst saved with
           | Ok filePath =>
               fst run
               = Ok {| result_text :=
                         formatSynthesis result
                         +:+ nl +:+ nl +:+ "---" +:+ nl +:+ "*Saved to: "
                         +:+ fullPath filePath +:+ "*";
                       result_isError := false |}
           | Throw e =>
               fst run
               = Ok {| result_text := "Error: " +:+ errorMessage errnoMessage e;
                       result_isError := true |}
           end).
Proof.
  intros query pattern patternRationale synthesis run.
  assert (Hrun : run =
    match synthesis with
    | (Ok result, sent) =>
        match Dispatcher.saveSynthesis host query pattern patternRationale
                (deep_approved_plan args) result now (world s) with
        | (Ok filePath, w') =>
            (Ok {| result_text :=
                     formatSynthesis result
                     +:+ nl +:+ nl +:+ "---" +:+ nl +:+ "*Saved to: "
                     +:+ fullPath filePath +:+ "*";
                   result_isError := false |},
             {| net := sent; world := w' |})
        | (Throw e, w') =>
            (Ok {| result_text := "Error: " +:+ errorMessage errnoMessage e;
                   result_isError := true |},
             {| net := sent; world := w' |})
        end
    | (Throw error, sent) =>
        (Ok {| result_text :=
                 "**Deep research failed**: "
                 +:+ errorMessage errnoMessage error +:+ nl +:+
                 nl +:+
                 "**Options:**" +:+ nl +:+
                 "1. **Retry** with same pattern ("
                   +:+ Dispatcher.patternId pattern +:+ ")" +:+ nl +:+
                 "2. **Try simpler pattern**: " +:+ simplerPattern pattern
                   +:+ nl +:+
                 "3. **Use single model** instead via research tool" +:+ nl +:+
                 "4. **Abort** - cancel this research" +:+ nl +:+
                 nl +:+
                 "What would you like to do?";
               result_isError := true |},
         {| net := sent; world := world s |})
    end).
  { subst run. unfold guarded, deep_research, tryCatch, bind, ret, onNet,
      onStore. cbv zeta. fold query. fold pattern. fold patternRationale.
    fold synthesis.
    destruct synthesis as [[result|error] sent]; cbn [fst snd net world];
      [|reflexivity].
    destruct (Dispatcher.saveSynthesis host query pattern patternRationale
                (deep_approved_plan args) result now (world s))
      as [[filePath|e] w']; reflexivity. }
  split.
  { rewrite Hrun. destruct synthesis as [[result|error] sent]; [|done].
    by destruct (Dispatcher.saveSynthesis _ _ _ _ _ _ _ _) as [[?|?] ?]. }
  split.
  { intros p Hp Hid. subst pattern. rewrite Hp. cbn [truthyPattern default].
    by destruct (Dispatcher.patternId p). }
  split.
  { intros Hauto. subst pattern. rewrite Hauto. split; [done|].
    rewrite recommendPattern_by_priority. unfold patternByPriority.
    repeat destruct (mentionsAny _ _); simpl; lia. }
  split.
  { rewrite Hrun. destruct synthesis as [[result|error] sent]; eauto.
    destruct (Dispatcher.saveSynthesis _ _ _ _ _ _ _ _) as [[?|?] ?]; eauto. }
  split.
  - intros e He. rewrite Hrun.
    destruct synthesis as [[result|error] sent]; [done|].
    split; [done|]. eexists. split; [reflexivity|]. split; [done|].
    cbn [result_text].
    repeat first [ apply includes_prefix3 | apply includes_append_r ].
  - intros result Hresult made title saved.
    assert (Hworld : world (snd run) = snd saved).
    { rewrite Hrun. destruct synthesis as [[result'|error] sent]; [|done].
      injection Hresult as ->. fold saved. by destruct saved as [[?|?] ?]. }
    split; [done|]. split; [done|]. split; [done|]. split; [done|]. split.
    + rewrite Hworld. subst saved. unfold Dispatcher.saveSynthesis.
      apply saveResearch_written.
    + rewrite Hrun. destruct synthesis as [[result'|error] sent]; [|done].
      injection Hresult as ->. fold saved. by destruct saved as [[?|?] ?].
Qed.

End ToolContracts.

Lemma research_contract_witness :
  Server.world
    (snd (Server.guarded plainErrno
            (Server.research stoppedHost neverAnswers plainErrno
               Store.pathName leafResearch) freshSystem))
  = Store.emptyWorld.
Proof.
  destruct (research_contract stoppedHost neverAnswers plainErrno
              Store.pathName leafResearch freshSystem)
    as (_ & _ & _ & _ & _ & _ & _ & Hfail & _).
  apply Hfail. intros response. discriminate.
Defined.

Lemma deep_research_contract_witness :
  Server.world
    (snd (Server.guarded plainErrno
            (Server.deep_research stoppedHost neverAnswers
               Synthesis.exactVariance plainErrno Store.pathName summary
               leafDeepResearch 1793528430000) freshSystem))
  = Store.emptyWorld.
Proof.
  destruct (deep_research_contract stoppedHost neverAnswers
              Synthesis.exactVariance plainErrno Store.pathName summary
              leafDeepResearch 1793528430000 freshSystem)
    as (_ & _ & _ & _ & Hfail & _).
  eapply Hfail. vm_compute. reflexivity.
Defined.

(** ** Citations counted more than once *)

Section Repeats.
Import Synthesis.

Variable significantVariance : list nat -> bool.

Lemma filter_all {A : Type} (f : A -> bool) (l : list A) :
  (forall x, x ∈ l -> f x = true) -> List.filter f l = l.
Proof.
  induction l as [|x l IH]; intros H; [done|]. cbn [List.filter].
  rewrite (H x) by (by left). rewrite IH; [done|].
  intros y Hy. apply H. by right.
Qed.

(** X16. The citations common to all steps are those of the first
    step that every step cites, each as often as the first step cites
    it.  When the first step cites no source twice their number is the
    number of sources that all steps cite; but a source the first step
    repeats is counted at every repetition, so that four citations of
    one source that every step cites give the confidence high. *)
Theorem analyzeConsistency_counts_repeats (r0 r1 : ModelResult)
    (rest : list ModelResult) :
  let results := r0 :: r1 :: rest in
  (NoDup (mr_citations r0) ->
   List.length (commonCitations results)
   = size (foldr (fun r acc => citationSet r ∩ acc) (citationSet r0)
             (r1 :: rest)))
  /\ ((forall url step,
         url ∈ mr_citations r0 -> step ∈ r1 :: rest ->
         url ∈ mr_citations step) ->
      commonCitations results = mr_citations r0
      /\ (3 < List.length (mr_citations r0) ->
          significantVariance
            (map (fun r => String.length (mr_content r)) results) = false ->
          c_confidence (analyzeConsistency significantVariance results)
          = High)).
Proof.
  intros results. split; [apply commonCitations_size|].
  intros Hall.
  assert (Hcommon : commonCitations results = mr_citations r0).
  { unfold commonCitations. subst results. apply filter_all.
    intros url Hurl. apply citedByAll_true.
    intros step [->|Hstep]%elem_of_cons; [done|]. by apply Hall. }
  split; [done|]. intros Hlen Hvar.
  unfold analyzeConsistency. cbv zeta. fold results.
  rewrite Hcommon, Hvar.
  destruct (Nat.ltb_spec 3 (List.length (mr_citations r0))); [|lia].
  reflexivity.
Qed.

End Repeats.

Lemma analyzeConsistency_counts_repeats_witness :
  Synthesis.c_confidence
    (Synthesis.analyzeConsistency Synthesis.exactVariance oneSourceFourTimes)
  = High.
Proof.
  apply (proj2 (proj2 (analyzeConsistency_counts_repeats
                         Synthesis.exactVariance
                         (stepResult SonarPro
                            (answer "Tea is a drink."
                               [ "https://a.example"; "https://a.example";
                                 "https://a.example"; "https://a.example" ]))
                         (stepResult SonarReasoningPro
                            (answer "Tea is a plant." [ "https://a.example" ]))
                         [])
                  ltac:(intros url step Hurl Hstep;
                        apply list_elem_of_singleton in Hstep as ->;
                        cbn in Hurl |- *;
                        rewrite !elem_of_cons in Hurl;
                        rewrite elem_of_cons; left;
                        destruct Hurl as [->|[->|[->|[->|Hurl]]]];
                        [done|done|done|done|by apply elem_of_nil in Hurl]))).
  - simpl. lia.
  - vm_compute. reflexivity.
Defined.

(** ** The tool that reads a thread *)

Section ReadTool.
Import JS Store Reader Server.

Variable errnoMessage : string -> string -> string.
Variable elsewhere : string -> option Dirent.

(** X17. The tool [read_research_thread] changes nothing and lets no
    exception out.  For a name without path separator it answers with
    the text of the file of that name with [.md] when there is one and
    it is not empty; an empty thread is reported as not found, and so
    is a name that no file of the directory holds; a directory of that
    name makes the answer an error. *)
Theorem read_research_thread_contract (topic : string) (s : Sys) :
  includes (topic +:+ ".md") "/" = false ->
  let run := guarded errnoMessage (read_research_thread elsewhere topic) s in
  let notFound :=
    {| result_text :=
         "Research thread " +:+ quote +:+ topic +:+ quote
           +:+ " not found. Use list_research_threads to see available threads.";
       result_isError := false |} in
  snd run = s
  /\ (exists result, fst run = Ok result)
  /\ (forall content,
        researchDir (world s) !! (topic +:+ ".md") = Some (File content) ->
        fst run = Ok (if isEmpty content then notFound
                      else {| result_text := content;
                              result_isError := false |}))
  /\ (researchDir (world s) !! (topic +:+ ".md") = Some Directory ->
      fst run = Ok {| result_text :=
                        "Error: " +:+ errnoMessage "read" (topic +:+ ".md");
                      result_isError := true |})
  /\ ((forall name,
         is_Some (researchDir (world s) !! name) ->
         endsWith name ".md" = true ->
         includes (toLowerCase name) (toLowerCase topic) = false) ->
      fst run = Ok notFound)
  /\ (forall text,
        fst run = Ok {| result_text := text; result_isError := false |} ->
        text = result_text notFound
        \/ exists name,
             researchDir (world s) !! name = Some (File text)
             /\ endsWith name ".md" = true
             /\ includes (toLowerCase name) (toLowerCase topic) = true).
Proof.
  intros Hsep run notFound.
  destruct (readThread_spec elsewhere (world s) topic Hsep)
    as (Hexact & Hfound & Hnone).
  assert (Hrun : run =
    match readThread elsewhere (world s) topic with
    | Throw e =>
        (Ok {| result_text := "Error: " +:+ errorMessage errnoMessage e;
               result_isError := true |}, s)
    | Ok content =>
        (Ok (if negb (truthyString content) then notFound
             else {| result_text := default EmptyString content;
                     result_isError := false |}), s)
    end).
  { subst run. unfold guarded, read_research_thread, tryCatch, ret.
    destruct (readThread elsewhere (world s) topic) as [content|e]; [|done].
    by destruct (negb (truthyString content)). }
  split.
  { rewrite Hrun. by destruct (readThread elsewhere (world s) topic). }
  split.
  { rewrite Hrun. destruct (readThread elsewhere (world s) topic); eauto. }
  split.
  { intros content Hfile. rewrite Hrun, (Hexact content Hfile).
    cbn [fst truthyString default]. by destruct content. }
  split.
  { intros Hdir. rewrite Hrun. unfold readThread, entryAt. cbv zeta.
    by rewrite Hsep, Hdir. }
  split.
  { intros Hall. rewrite Hrun. by rewrite (proj2 Hnone Hall). }
  intros text Htext. rewrite Hrun in Htext.
  destruct (readThread elsewhere (world s) topic) as [[content|]|e] eqn:Hread;
    cbn [fst truthyString default negb] in Htext.
  - destruct content as [|c content]; cbn [isEmpty negb] in Htext.
    + left. by injection Htext as <-.
    + right. injection Htext as <-. by apply Hfound.
  - left. by injection Htext as <-.
  - done.
Qed.

End ReadTool.

Lemma read_research_thread_contract_witness :
  fst (Server.guarded plainErrno
         (Server.read_research_thread (fun _ => None) "empty")
         {| Server.net := []; Server.world := emptyFileDirectory |})
  = Ok {| Server.result_text :=
            "Research thread " +:+ Server.quote +:+ "empty" +:+ Server.quote
              +:+ " not found. Use list_research_threads to see available threads.";
          Server.result_isError := false |}.
Proof.
  destruct (read_research_thread_contract plainErrno (fun _ => None) "empty"
              {| Server.net := []; Server.world := emptyFileDirectory |}
              eq_refl)
    as (_ & _ & Hfile & _).
  apply (Hfile EmptyString). vm_compute. reflexivity.
Defined.

(** ** The list of the raw files *)

Section RawListings.
Import JS Store RawFiles.

Lemma forall_range (P : Z -> bool) (lo count : nat) :
  forallb P (map Z.of_nat (seq lo count)) = true ->
  forall z, (Z.of_nat lo <= z < Z.of_nat (lo + count))%Z -> P z = true.
Proof.
  intros H z Hz. rewrite forallb_forall in H. apply H.
  rewrite <- (Z2Nat.id z) by lia. apply in_map, in_seq. lia.
Qed.

Lemma two_digits (z : Z) :
  (0 <= z <= 99)%Z -> isDigits 2 (padStart0 2 (ofZ z)) = true.
Proof.
  intros Hz.
  apply (forall_range (fun z => isDigits 2 (padStart0 2 (ofZ z))) 0 100);
    [vm_compute; reflexivity|lia].
Qed.

Lemma four_digits (z : Z) :
  (1000 <= z <= 9999)%Z -> isDigits 4 (ofZ z) = true.
Proof.
  intros Hz.
  apply (forall_range (fun z => isDigits 4 (ofZ z))
           (Z.to_nat 1000) (Z.to_nat 9000));
    [vm_compute; reflexivity|lia].
Qed.

Lemma everyChar_append (p : ascii -> bool) (a b : string) :
  everyChar p (a +:+ b) = everyChar p a && everyChar p b.
Proof.
  unfold everyChar. induction a as [|c a IH]; [done|].
  rewrite append_cons. cbn [list_ascii_of_string forallb].
  by rewrite IH, andb_assoc.
Qed.

Lemma everyChar_allChars (p : ascii -> bool) (s : string) :
  everyChar p s = allChars p s.
Proof.
  unfold everyChar. induction s as [|c s IH]; [done|].
  cbn [list_ascii_of_string forallb allChars]. by rewrite IH.
Qed.

Lemma isDigits_append (n k : nat) (a b : string) :
  isDigits n a = true -> isDigits k b = true ->
  isDigits (n + k) (a +:+ b) = true.
Proof.
  unfold isDigits. intros [Ha Ha']%andb_true_iff [Hb Hb']%andb_true_iff.
  apply Nat.eqb_eq in Ha, Hb.
  rewrite length_append, everyChar_append, Ha, Hb, Ha', Hb'.
  by rewrite Nat.eqb_refl.
Qed.

Lemma allChars_mono (p q : ascii -> bool) (s : string) :
  (forall c, p c = true -> q c = true) ->
  allChars p s = true -> allChars q s = true.
Proof.
  intros Hpq. induction s as [|c s IH]; [done|]. cbn [allChars].
  intros [Hc Hs]%andb_true_iff. by rewrite (Hpq c Hc), IH.
Qed.

(** A name of the form the regular expression asks for. *)
Lemma matchRawName_parts (date time topic : string) :
  isDigits 8 date = true ->
  isDigits 6 time = true ->
  everyChar (fun c => negb (isLineTerminator c)) topic = true ->
  matchRawName (date +:+ "_" +:+ time +:+ "_" +:+ topic +:+ ".json")
  = if isEmpty topic then None
    else Some (date +:+ "_" +:+ time, topic).
Proof.
  unfold isDigits. intros [Hd Hd']%andb_true_iff [Ht Ht']%andb_true_iff Htopic.
  apply Nat.eqb_eq in Hd, Ht.
  set (stamp := date +:+ "_" +:+ time).
  assert (Hstamp : String.length stamp = 15).
  { subst stamp. rewrite !length_append, Hd, Ht. reflexivity. }
  assert (Ename : date +:+ "_" +:+ time +:+ "_" +:+ topic +:+ ".json"
                  = stamp +:+ "_" +:+ topic +:+ ".json").
  { subst stamp. by rewrite !append_assoc. }
  assert (Etake : forall r, take 15 (stamp +:+ r) = stamp).
  { intros r. rewrite <- Hstamp. apply take_append. }
  assert (Edrop : forall r, drop 15 (stamp +:+ r) = r).
  { intros r. rewrite <- Hstamp. apply drop_append. }
  unfold matchRawName. cbv zeta. rewrite Ename, !Etake, !Edrop.
  rewrite Hstamp, Nat.eqb_refl.
  assert (E8 : take 8 stamp = date).
  { subst stamp. rewrite <- Hd. apply take_append. }
  assert (E8' : drop 8 stamp = "_" +:+ time).
  { subst stamp. rewrite <- Hd. apply drop_append. }
  assert (E9 : drop 9 stamp = time).
  { subst stamp. clear Etake Edrop Hstamp Ename.
    replace 9 with (String.length (date +:+ "_"))
      by (rewrite length_append, Hd; reflexivity).
    rewrite <- (append_assoc date "_" time). apply drop_append. }
  rewrite E8, E8', E9, Hd', Ht'.
  change (startsWith ("_" +:+ time) "_") with true.
  change (startsWith ("_" +:+ topic +:+ ".json") "_") with true.
  change (drop 1 ("_" +:+ topic +:+ ".json")) with (topic +:+ ".json").
  rewrite endsWith_append. cbn [andb].
  rewrite !length_append. cbn [String.length].
  replace (1 + (String.length topic + 5) - 6) with (String.length topic) by lia.
  rewrite take_append, Htopic, andb_true_r.
  destruct topic as [|c topic]; [done|].
  cbn [isEmpty String.length].
  destruct (Nat.ltb_spec 6 (1 + (S (String.length topic) + 5))); [done|lia].
Qed.

Lemma timestampFor_digits (now : DateReading) :
  fourDigitYear now ->
  exists date time,
    timestampFor now = date +:+ "_" +:+ time
    /\ isDigits 8 date = true /\ isDigits 6 time = true.
Proof.
  intros (Hy & Hmo & Hd & Hh & Hmi & Hs).
  exists (ofZ (getFullYear now) +:+ padStart0 2 (ofZ (getMonth now + 1))
            +:+ padStart0 2 (ofZ (getDate now))),
         (padStart0 2 (ofZ (getHours now))
            +:+ padStart0 2 (ofZ (getMinutes now))
            +:+ padStart0 2 (ofZ (getSeconds now))).
  split; [unfold timestampFor; cbv zeta; by rewrite !append_assoc|].
  split.
  - apply (isDigits_append 4 4); [by apply four_digits|].
    apply (isDigits_append 2 2); apply two_digits; lia.
  - apply (isDigits_append 2 4); [apply two_digits; lia|].
    apply (isDigits_append 2 2); apply two_digits; lia.
Qed.

Lemma rawBackupName_listing (host : Host) (query : string) (w : World) :
  fourDigitYear (clock host (dates w)) ->
  rawListingOf (rawBackupName host query w)
  = if isEmpty (sanitize query 30)
    then {| listing_filename := rawBackupName host query w;
            listing_timestamp := EmptyString;
            listing_topic := rawBackupName host query w |}
    else {| listing_filename := rawBackupName host query w;
            listing_timestamp := timestampFor (clock host (dates w));
            listing_topic := spaceHyphens (sanitize query 30) |}.
Proof.
  intros Hnow.
  destruct (timestampFor_digits _ Hnow) as (date & time & Hstamp & Hd & Ht).
  unfold rawListingOf.
  assert (Ename : rawBackupName host query w
                  = date +:+ "_" +:+ time +:+ "_" +:+ sanitize query 30
                      +:+ ".json").
  { unfold rawBackupName. by rewrite Hstamp, !append_assoc. }
  rewrite Ename at 1.
  rewrite matchRawName_parts; [|done|done|].
  - rewrite <- Hstamp. by destruct (sanitize query 30).
  - rewrite everyChar_allChars.
    apply (allChars_mono isSlugChar).
    + intros c. by destruct c as [[] [] [] [] [] [] [] []].
    + by destruct (sanitize_shape query 30) as (_ & H & _).
Qed.

Lemma listRawFiles_elem
    (sortNewestFirst : list RawListing -> list RawListing) (w : World)
    (listing : RawListing) :
  (forall l, sortNewestFirst l ≡ₚ l) ->
  (listing ∈ listRawFiles sortNewestFirst w <->
   exists name,
     is_Some (rawDir w !! name)
     /\ endsWith name ".json" = true
     /\ listing = rawListingOf name).
Proof.
  intros Hsort. unfold listRawFiles. cbv zeta. rewrite (Hsort _).
  rewrite list_elem_of_fmap. split.
  - intros (name & -> & Hin). exists name.
    rewrite list_elem_of_In, filter_In, <- list_elem_of_In in Hin.
    destruct Hin as [Hin Hjson]. split; [|done].
    apply list_elem_of_fmap in Hin as ([k e] & -> & Hin).
    apply elem_of_map_to_list in Hin. by eexists.
  - intros (name & [e He] & Hjson & ->). exists name. split; [done|].
    rewrite list_elem_of_In, filter_In, <- list_elem_of_In. split; [|done].
    apply list_elem_of_fmap. exists (name, e). split; [done|].
    by apply elem_of_map_to_list.
Qed.

(** X18. [listRawFiles] lists the files of [raw/] whose name ends with
    [.json], each once.  The backup [saveResearch] has written is among
    them, with the timestamp of its name and, as topic, its slug with
    spaces for the hyphens, provided the year has four digits; but the
    backup of a query without letter and digit has the empty slug, and
    is listed without timestamp and with its file name as topic. *)
Theorem listRawFiles_backup (host : Host)
    (sortNewestFirst : list RawListing -> list RawListing)
    (query : string) (response : PerplexityResponse) (m : PerplexityModel)
    (systemPrompt modelRationale approvedPlan : option string) (w : World) :
  (forall l, sortNewestFirst l ≡ₚ l) ->
  fourDigitYear (clock host (dates w)) ->
  writable host (InRawDir (rawBackupName host query w)) = true ->
  let name := rawBackupName host query w in
  let w' := snd (saveResearch host query response m
                   systemPrompt modelRationale approvedPlan w) in
  rawListingOf name ∈ listRawFiles sortNewestFirst w'
  /\ rawListingOf name
     = (if isEmpty (sanitize query 30)
        then {| listing_filename := name;
                listing_timestamp := EmptyString;
                listing_topic := name |}
        else {| listing_filename := name;
                listing_timestamp := timestampFor (clock host (dates w));
                listing_topic := spaceHyphens (sanitize query 30) |})
  /\ (forall listing,
        listing ∈ listRawFiles sortNewestFirst w' <->
        exists file,
          is_Some (rawDir w' !! file)
          /\ endsWith file ".json" = true
          /\ listing = rawListingOf file)
  /\ List.length (listRawFiles sortNewestFirst w')
     = List.length (List.filter (fun f => endsWith f ".json")
                      (map fst (map_to_list (rawDir w')))).
Proof.
  intros Hsort Hnow Hw name w'.
  split; [|split; [by apply rawBackupName_listing|split]].
  - apply listRawFiles_elem; [done|]. exists name. split; [|split; [|done]].
    + subst w'. rewrite saveResearch_rawDir by done.
      rewrite lookup_insert_eq. by eexists.
    + subst name. unfold rawBackupName.
      rewrite <- !append_assoc. apply endsWith_append.
  - intros listing. by apply listRawFiles_elem.
  - unfold listRawFiles. cbv zeta. rewrite (Hsort _). apply length_map.
Qed.

End RawListings.

Lemma listRawFiles_backup_witness :
  RawFiles.rawListingOf (rawBackupName stoppedHost "???" Store.emptyWorld)
  = {| RawFiles.listing_filename := "20261101_102030_.json";
       RawFiles.listing_timestamp := EmptyString;
       RawFiles.listing_topic := "20261101_102030_.json" |}.
Proof.
  destruct (listRawFiles_backup stoppedHost (fun l => l) "???"
              (answer "Tea is a drink." []) Sonar None None None
              Store.emptyWorld
              (fun l => Permutation_refl l)
              ltac:(vm_compute; repeat split; discriminate)
              eq_refl)
    as (_ & Hlisting & _).
  exact Hlisting.
Defined.

(** ** The citations of an entry *)

Section SavedCitations.
Import JS Store.

Variable host : Host.

Lemma includes_refl (s : string) : includes s s = true.
Proof.
  rewrite <- (append_empty_r s) at 1. apply includes_prefix.
Qed.

Lemma includes_join (sep x : string) (l : list string) :
  x ∈ l -> includes (join sep l) x = true.
Proof.
  induction l as [|y l IH]; intros Hin; [by apply elem_of_nil in Hin|].
  destruct l as [|z l].
  - apply list_elem_of_singleton in Hin as ->. apply includes_refl.
  - rewrite join_cons. apply elem_of_cons in Hin as [->|Hin].
    + apply includes_prefix.
    + by apply includes_append_r, includes_append_r, IH.
Qed.

(** The line of the [i]-th citation. *)
Lemma formatCitations_line (citations : list string) (i : nat) (url : string) :
  citations !! i = Some url ->
  includes (formatCitations host citations)
    ("[" +:+ ofNat (i + 1) +:+ "] " +:+ extractDomain host url +:+ nl
       +:+ "    " +:+ url) = true.
Proof.
  intros Hi. unfold formatCitations.
  destruct citations as [|url0 citations]; [done|].
  apply includes_join. apply list_elem_of_lookup. exists i.
  by rewrite list_lookup_imap, Hi.
Qed.

Lemma formatEntry_citations (query : string) (response : PerplexityResponse)
    (m : PerplexityModel) (modelRationale approvedPlan : option string)
    (timestamp rawFilename : string) (queryNum : nat) :
  includes (formatEntry host query response m modelRationale approvedPlan
              timestamp rawFilename queryNum)
    (formatCitations host (default [] (citations response))) = true.
Proof.
  unfold formatEntry. cbv zeta.
  repeat first [ apply includes_prefix | apply includes_append_r ].
Qed.

(** X19. No citation is lost on the way into a thread: after a save
    that returns, the thread holds for every citation of the response
    its number in the order of the response, the host name taken from
    it, and the URL itself. *)
Theorem saveResearch_keeps_citations (query : string)
    (response : PerplexityResponse) (m : PerplexityModel)
    (systemPrompt modelRationale approvedPlan : option string) (w : World) :
  (forall p, writable host p = true) ->
  let name := threadName host query w in
  let w' := snd (saveResearch host query response m
                   systemPrompt modelRationale approvedPlan w) in
  researchDir w !! name <> Some Directory ->
  exists text,
    researchDir w' !! name = Some (File text)
    /\ forall i url,
         default [] (citations response) !! i = Some url ->
         includes text
           ("[" +:+ ofNat (i + 1) +:+ "] " +:+ extractDomain host url +:+ nl
              +:+ "    " +:+ url) = true.
Proof.
  intros Hw name w' Hdir.
  destruct (saveResearch_thread_text host query response m systemPrompt
              modelRationale approvedPlan w Hw Hdir) as [_ Htext].
  fold name w' in Htext. eexists. split; [exact Htext|].
  intros i url Hi.
  destruct (threadText_entry host query response m systemPrompt modelRationale
              approvedPlan w
              match researchDir w !! name with
              | Some (File text) => Some text
              | _ => None
              end) as (before & queryNum & after & ->).
  apply includes_append_r, includes_append_l.
  eapply includes_trans; [apply formatEntry_citations|].
  by apply formatCitations_line.
Qed.

End SavedCitations.

Lemma saveResearch_keeps_citations_witness :
  exists text,
    Store.researchDir afterFirstLeaf !! leafThread = Some (Store.File text)
    /\ JS.includes text
         ("[1] tea.example" +:+ JS.nl +:+ "    https://tea.example/leaf")
       = true.
Proof.
  destruct (saveResearch_keeps_citations stoppedHost leafQuery
              (answer "Tea is a drink." ["https://tea.example/leaf"])
              Sonar None (Some "user-specified") None Store.emptyWorld
              (fun _ => eq_refl))
    as (text & Htext & Hcitations).
  - discriminate.
  - exists text. split; [exact Htext|].
    apply (Hcitations 0 "https://tea.example/leaf"). reflexivity.
Defined.

(** ** Keywords as a set of terms *)

Section TermSets.
Import JS Store.

Lemma existsb_same (f : string -> bool) (l1 l2 : list string) :
  (forall t, t ∈ l1 <-> t ∈ l2) -> existsb f l1 = existsb f l2.
Proof.
  intros H. apply eq_true_iff_eq. rewrite !existsb_exists.
  split; intros (t & Hin & Ht); exists t; split; try done;
    apply list_elem_of_In, H, list_elem_of_In, Hin.
Qed.

Lemma forallb_same (f : string -> bool) (l1 l2 : list string) :
  (forall t, t ∈ l1 <-> t ∈ l2) -> forallb f l1 = forallb f l2.
Proof.
  intros H. apply eq_true_iff_eq. rewrite !forallb_forall.
  split; intros Hall t Hin; apply Hall, list_elem_of_In, H, list_elem_of_In, Hin.
Qed.

Lemma fold_left_ext {A B : Type} (f g : A -> B -> A) (l : list B) :
  (forall a b, f a b = g a b) ->
  forall a, fold_left f l a = fold_left g l a.
Proof.
  intros H. induction l as [|b l IH]; intros a; [done|].
  cbn [fold_left]. by rewrite H, IH.
Qed.

Lemma searchFile_same (terms1 terms2 : list string)
    (filename content : string) :
  (forall t, t ∈ terms1 <-> t ∈ terms2) ->
  searchFile terms1 filename content = searchFile terms2 filename content.
Proof.
  intros H. unfold searchFile, allTermsPresent, matchingLinesOf. cbv zeta.
  rewrite (forallb_same _ terms1 terms2 H).
  rewrite (fold_left_ext (scanLine terms1 (split LF content))
             (scanLine terms2 (split LF content))); [done|].
  intros matchingLines i. unfold scanLine. cbv zeta.
  by rewrite (existsb_same _ terms1 terms2 H).
Qed.

(** X20. What [searchResearch] returns depends on the set of the
    lower-cased terms of the keywords and on nothing else of them: the
    order of the terms, their repetition, the case of their letters and
    the white space between them change neither the threads returned
    nor their snippets. *)
Theorem searchResearch_term_set (w : World) (keywords1 keywords2 : string) :
  (forall term,
     term ∈ splitWhiteSpace (toLowerCase keywords1) <->
     term ∈ splitWhiteSpace (toLowerCase keywords2)) ->
  searchResearch w keywords1 = searchResearch w keywords2.
Proof.
  intros H. unfold searchResearch, searchTermsOf. cbv zeta.
  induction (markdownFiles w) as [|[name content] files IH]; [done|].
  cbn [omap list_omap fst snd].
  rewrite (searchFile_same _ _ name content H).
  destruct (searchFile _ name content); by rewrite IH.
Qed.

End TermSets.

Lemma searchResearch_term_set_witness :
  Store.searchResearch journal "Tea  GREEN tea" = Store.searchResearch journal "green tea".
Proof.
  apply searchResearch_term_set. intros term.
  change (JS.splitWhiteSpace (JS.toLowerCase "Tea  GREEN tea"))
    with ["tea"; "green"; "tea"].
  change (JS.splitWhiteSpace (JS.toLowerCase "green tea"))
    with ["green"; "tea"].
  rewrite !elem_of_cons, !elem_of_nil. tauto.
Defined.

(** ** What a summary keeps of an answer *)

Section Excerpts.
Import JS Store Synthesis Dispatcher.

Variable host : Host.
Variable significantVariance : list nat -> bool.

Lemma map_same {A B : Type} (P : A -> A -> Prop) (f : A -> B)
    (l l' : list A) :
  (forall x y, P x y -> f x = f y) -> Forall2 P l l' -> map f l = map f l'.
Proof.
  intros Hf. induction 1 as [|x y l l' Hxy _ IH]; [done|].
  cbn [map]. by rewrite (Hf x y Hxy), IH.
Qed.

Lemma imap_same {A B : Type} (P : A -> A -> Prop) (l l' : list A) :
  Forall2 P l l' ->
  forall f : nat -> A -> B,
    (forall i x y, P x y -> f i x = f i y) -> imap f l = imap f l'.
Proof.
  induction 1 as [|x y l l' Hxy _ IH]; intros f Hf; [done|].
  cbn [imap]. rewrite (Hf 0 x y Hxy). f_equal. apply IH.
  intros i a b Hab. by apply Hf.
Qed.

Lemma citedByAll_same (results results' : list ModelResult) (url : string) :
  Forall2 sameExcerpt results results' ->
  citedByAll results url = citedByAll results' url.
Proof.
  unfold citedByAll. induction 1 as [|r r' l l' (_ & Hc & _) _ IH]; [done|].
  cbn [forallb]. by rewrite Hc, IH.
Qed.

Lemma commonCitations_same (results results' : list ModelResult) :
  Forall2 sameExcerpt results results' ->
  commonCitations results = commonCitations results'.
Proof.
  intros H. unfold commonCitations.
  destruct H as [|r r' l l' Hr Hl]; [done|].
  pose proof Hr as (_ & Hc & _). rewrite Hc.
  apply filter_ext. intros url.
  apply citedByAll_same. by constructor.
Qed.

(** X21. The store learns of the answers of a deep research what the
    summary holds and no more: two sets of answers that agree, step by
    step, in the model, in the citations, in the first five hundred
    characters of the content and in whether there are more, and whose
    lengths are judged alike by the test of variance, have the same
    summary and the same citations, and the tool [deep_research] writes
    the same files for both. *)
Theorem saveSynthesis_excerpts (query : string) (pattern : SynthesisPattern)
    (patternRationale : string) (approvedPlan : option string) (now : Z)
    (w : World) (results results' : list ModelResult) :
  Forall2 sameExcerpt results results' ->
  significantVariance (map (fun r => String.length (mr_content r)) results)
  = significantVariance (map (fun r => String.length (mr_content r)) results') ->
  let result := combineResults significantVariance query results pattern in
  let result' := combineResults significantVariance query results' pattern in
  summary result = summary result'
  /\ allCitations result = allCitations result'
  /\ confidence result = confidence result'
  /\ saveSynthesis host query pattern patternRationale approvedPlan result
       now w
     = saveSynthesis host query pattern patternRationale approvedPlan result'
         now w.
Proof.
  intros Hsame Hvar result result'.
  assert (Hlen : List.length results = List.length results').
  { by eapply Forall2_length. }
  assert (Hcit : flatCitations results = flatCitations results').
  { unfold flatCitations. f_equal.
    apply (map_same sameExcerpt); [|done]. by intros r r' (_ & Hc & _). }
  assert (Hcons : analyzeConsistency significantVariance results
                  = analyzeConsistency significantVariance results').
  { unfold analyzeConsistency.
    by rewrite Hlen, (commonCitations_same _ _ Hsame), Hvar. }
  assert (Hsummary : summary result = summary result').
  { subst result result'. cbn [combineResults summary]. rewrite Hcons.
    unfold generateSummary. cbv zeta. rewrite Hcit.
    rewrite (map_same sameExcerpt (fun r => modelId (mr_model r))
               results results'); [|by intros r r' (-> & _)|done].
    rewrite (imap_same sameExcerpt results results' Hsame); [done|].
    intros i r r' (-> & -> & -> & ->). done. }
  assert (Hall : allCitations result = allCitations result').
  { subst result result'. cbn [combineResults allCitations]. by rewrite Hcit. }
  split; [done|]. split; [done|]. split.
  { subst result result'. cbn [combineResults confidence]. by rewrite Hcons. }
  unfold saveSynthesis, syntheticResponse. by rewrite Hsummary, Hall.
Qed.

End Excerpts.

Lemma saveSynthesis_excerpts_witness :
  summary (Synthesis.combineResults Synthesis.exactVariance "tea"
             (longAnswer "A") Synthesis.FactReasoning)
  = summary (Synthesis.combineResults Synthesis.exactVariance "tea"
               (longAnswer "B") Synthesis.FactReasoning).
Proof.
  refine (proj1 (saveSynthesis_excerpts stoppedHost Synthesis.exactVariance
                   "tea" Synthesis.FactReasoning "user-specified" None 0
                   Store.emptyWorld (longAnswer "A") (longAnswer "B") _ _)).
  - constructor; [|constructor; [|constructor]];
      (split; [|split; [|split]]); vm_compute; reflexivity.
  - vm_compute. reflexivity.
Defined.
